(** * Christmas-ladder backtest harness: a shallow embedding

    The Python package [trading] is embedded module by module:
    [utils/calendar.py], [execution/timing.py],
    [strategies/christmas_ladder.py], [execution/simulator.py],
    [backtest/engine.py], [risk/position_sizing.py] and the trade
    statistics of [backtest/metrics.py].

    Conventions of the embedding.
    - Python [float]s are rationals ([Q]).  Prices, values and ratios
      are idealised as exact; where a share count or the raising of an
      exception depends on how a float operation rounds, in
      [risk/position_sizing.py], the operation goes through a rounding
      function, of which [binary64] is the one of Python.  NaN does not
      exist in the model and overflow is excluded by hypothesis; the one
      infinity that the code writes out, the profit factor of a record
      without losses, is a value of its own.  Python [int]s are [Z].
    - A [pd.Timestamp] is a calendar date with an hour, a minute and the
      nanoseconds elapsed inside that minute; timestamps compare
      lexicographically, as instants do.
    - A market-data [DataFrame] is the list of its rows in row order, each
      row an index timestamp with its OHLCV bar.  Only frames indexed by a
      [DatetimeIndex] are representable, so the [isinstance] guard of the
      calendar module is discharged by typing.
    - An order [DataFrame] is its column header with its rows in row order.
    - Python exceptions are values of [exn]; a function that can raise
      returns a [result]. *)

From Stdlib Require Import ZArith QArith Qround Qabs Qpower List Bool Lia Lqa.
From Stdlib Require Import Permutation.
From Stdlib Require Import String Ascii.
From stdpp Require Import base gmap strings sorting.
Import ListNotations.

Local Open Scope Z_scope.

(** ** Exceptions and the result monad *)

Inductive exn : Type :=
| ValueError (msg : string)
| RuntimeError (msg : string)
| KeyError
| TypeError
| IndexError
| ZeroDivisionError.

Inductive result (A : Type) : Type :=
| Ok (a : A)
| Raise (e : exn).

Arguments Ok {A} a.
Arguments Raise {A} e.

Definition bind {A B : Type} (r : result A) (k : A -> result B) : result B :=
  match r with
  | Ok a => k a
  | Raise e => Raise e
  end.

#[global] Instance result_bind : MBind result :=
  fun A B k r => bind r k.

#[global] Instance result_ret : MRet result := fun A a => Ok a.

(** ** Dates and timestamps *)

Record Date : Type := mkDate { year : Z; month : Z; day : Z }.

Record Timestamp : Type :=
  mkTimestamp { date : Date; hour : Z; minute : Z; nanos : Z }.

#[global] Instance Date_eq_dec : EqDecision Date.
Proof. solve_decision. Defined.

#[global] Instance Timestamp_eq_dec : EqDecision Timestamp.
Proof. solve_decision. Defined.

Definition lex (c : comparison) (k : comparison) : comparison :=
  match c with
  | Eq => k
  | _ => c
  end.

Definition date_compare (a b : Date) : comparison :=
  lex (year a ?= year b) (lex (month a ?= month b) (day a ?= day b)).

Definition ts_compare (a b : Timestamp) : comparison :=
  lex (date_compare (date a) (date b))
      (lex (hour a ?= hour b) (lex (minute a ?= minute b) (nanos a ?= nanos b))).

Definition ts_ltb (a b : Timestamp) : bool :=
  match ts_compare a b with Lt => true | _ => false end.

Definition ts_leb (a b : Timestamp) : bool :=
  match ts_compare a b with Gt => false | _ => true end.

(** [pd.to_datetime(some_date)]: the timestamp at 00:00 of that date. *)
Definition midnight (d : Date) : Timestamp := mkTimestamp d 0 0 0.

(** [timestamp.strftime("%H:%M")]. *)
Definition digit (k : Z) : ascii := ascii_of_nat (48 + Z.to_nat k).

Definition pad2 (n : Z) : string :=
  String (digit (n / 10)) (String (digit (n mod 10)) EmptyString).

Definition strftime_HM (t : Timestamp) : string :=
  (pad2 (hour t) ++ ":" ++ pad2 (minute t))%string.

(** The time-of-day strings of the package are documented as "HH:MM".  The
    parser accepts exactly that form (two digits, a colon, two digits, a
    valid hour and minute); pandas raises [ValueError] on text it cannot
    read, which is how every other string is treated here. *)
Definition digit_val (a : ascii) : option Z :=
  let n := Z.of_nat (nat_of_ascii a) in
  if (48 <=? n) && (n <=? 57) then Some (n - 48) else None.

Definition parse_HM (s : string) : option (Z * Z) :=
  match s with
  | String a (String b (String c (String d (String e EmptyString)))) =>
      match digit_val a, digit_val b, digit_val d, digit_val e with
      | Some h1, Some h0, Some m1, Some m0 =>
          let h := 10 * h1 + h0 in
          let m := 10 * m1 + m0 in
          if Ascii.eqb c ":"%char && (h <? 24) && (m <? 60)
          then Some (h, m) else None
      | _, _, _, _ => None
      end
  | _ => None
  end.

(** [pd.Timestamp(f"{date} {time_str}")], for the time strings of the
    docstrings, two digits of hours and two of minutes.  pandas reads
    further spellings of a time ("9:30", "10:30:30"); they are outside the
    model, and the properties that depend on the parsed time assume
    [parse_HM]. *)
Definition timestamp_at (d : Date) (time_str : string) : result Timestamp :=
  match parse_HM time_str with
  | Some (h, m) => Ok (mkTimestamp d h m 0)
  | None => Raise (ValueError "unparsable time string")
  end.

(** ** Python sequence helpers *)

(** Start or stop of a slice, normalised against the length as CPython
    does: a negative bound counts from the end, and the result is clamped
    to [0 .. len]. *)
Definition slice_bound (i len : Z) : nat :=
  Z.to_nat (if i <? 0 then Z.max 0 (i + len) else Z.min i len).

Definition slice_from {A : Type} (s : Z) (l : list A) : list A :=
  skipn (slice_bound s (Z.of_nat (length l))) l.

Definition slice_to {A : Type} (e : Z) (l : list A) : list A :=
  firstn (slice_bound e (Z.of_nat (length l))) l.

(** [seq[-1]]. *)
Definition last_item {A : Type} (l : list A) : result A :=
  match rev l with
  | x :: _ => Ok x
  | [] => Raise IndexError
  end.

(** [x in seq]. *)
Definition mem {A : Type} `{EqDecision A} (x : A) (l : list A) : bool :=
  existsb (fun y => bool_decide (x = y)) l.

(** [Index.unique()]: first occurrences, in order of appearance. *)
Fixpoint unique_from {A : Type} `{EqDecision A} (seen l : list A) : list A :=
  match l with
  | [] => []
  | x :: r =>
      if mem x seen then unique_from seen r
      else x :: unique_from (x :: seen) r
  end.

Definition unique {A : Type} `{EqDecision A} (l : list A) : list A :=
  unique_from [] l.

(** [sorted(...)] and [sort_values(...)]: a stable ascending sort on a key
    order. *)
Fixpoint insert_sorted {A : Type} (leb : A -> A -> bool) (x : A) (l : list A)
  : list A :=
  match l with
  | [] => [x]
  | y :: r => if leb x y then x :: y :: r else y :: insert_sorted leb x r
  end.

Definition sorted {A : Type} (leb : A -> A -> bool) (l : list A) : list A :=
  fold_right (insert_sorted leb) [] l.

(** ** Market data *)

Record Bar : Type :=
  mkBar { Open : Q; High : Q; Low : Q; Close : Q; Volume : Q }.

Definition MarketData : Type := list (Timestamp * Bar).

(** [df.index]. *)
Definition index (df : MarketData) : list Timestamp := map fst df.

(** [df[df.index.date == d]]. *)
Definition bars_on (df : MarketData) (d : Date) : MarketData :=
  List.filter (fun row => bool_decide (date (fst row) = d)) df.

(** [df.loc[ts]]: the row labelled [ts].  A label that is absent raises
    [KeyError]; a label carried by several rows selects a sub-frame, not a
    row. *)
Inductive Located : Type :=
| Missing
| Scalar (b : Bar)
| NonScalar.

Definition loc (df : MarketData) (ts : Timestamp) : Located :=
  match List.filter (fun row => bool_decide (fst row = ts)) df with
  | [] => Missing
  | [row] => Scalar (snd row)
  | _ => NonScalar
  end.

(** [float(df.loc[ts, "Close"])]: [float] of a sub-series raises
    [TypeError]. *)
Definition loc_Close (df : MarketData) (ts : Timestamp) : result Q :=
  match loc df ts with
  | Missing => Raise KeyError
  | Scalar b => Ok (Close b)
  | NonScalar => Raise TypeError
  end.

(** ** Orders *)

Inductive Side : Type := BUY | SELL.

#[global] Instance Side_eq_dec : EqDecision Side.
Proof. solve_decision. Defined.

(** A row of an order table.  The last two columns exist only in executed
    orders. *)
Record Order : Type := mkOrder {
  o_time : Timestamp;
  o_side : Side;
  o_qty : Z;
  o_price : Q;
  o_value : Q;
  o_original_time : option Timestamp;
  o_slippage_bps : option Q
}.

Record OrderFrame : Type := mkFrame { columns : list string; rows : list Order }.

Definition standard_columns : list string :=
  ["time"; "side"; "qty"; "price"; "value"]%string.

Definition executed_columns : list string :=
  ["time"; "side"; "qty"; "price"; "value"; "original_time"; "slippage_bps"]%string.

(** [frame.empty]. *)
Definition empty (f : OrderFrame) : bool :=
  match rows f with [] => true | _ => false end.

Definition by_time (a b : Order) : bool := ts_leb (o_time a) (o_time b).

(** Python comparisons and [min]/[max] on floats. *)
Definition Qltb (a b : Q) : bool := negb (Qle_bool b a).

Definition py_min (a b : Q) : Q := if Qltb b a then b else a.

Definition py_max (a b : Q) : Q := if Qltb a b then b else a.

(** ** Python floats, where a result depends on their rounding

    The nearest integer, ties to the even one. *)
Definition round_half_even (x : Q) : Z :=
  let n := Qfloor x in
  match Qcompare (x - inject_Z n) (1 # 2) with
  | Lt => n
  | Gt => n + 1
  | Eq => if Z.even n then n else n + 1
  end.

(** The binary exponent of a positive rational: [2 ^ e <= x < 2 ^ (e + 1)]. *)
Definition ilog2 (x : Q) : Z :=
  let e := Z.log2 (Qnum x) - Z.log2 (Z.pos (Qden x)) in
  if Qle_bool (2 ^ e) x then e else e - 1.

(** A positive real rounded to 53 significant bits, or to a multiple of
    [2 ^ -1074] below the normal range. *)
Definition round_magnitude (a : Q) : Q :=
  let e := Z.max (ilog2 a - 52) (-1074) in
  (inject_Z (round_half_even (a / 2 ^ e)) * 2 ^ e)%Q.

(** The IEEE 754 binary64 number nearest to a real, ties to even: what a
    float operation of Python returns for the exact result [x].  A small
    enough quotient rounds to zero; overflow to an infinity is not
    modelled. *)
Definition binary64 (x : Q) : Q :=
  match Qnum x with
  | Z0 => 0%Q
  | Zpos _ => Qred (round_magnitude x)
  | Zneg _ => Qred (- round_magnitude (- x))
  end.

(** The largest finite binary64 number.  An exact result within these
    bounds does not overflow to an infinity. *)
Definition float_max : Q := inject_Z ((2 ^ 53 - 1) * 2 ^ 971).

Definition finite (x : Q) : Prop := (- float_max <= x <= float_max)%Q.

(** The floor quotient [a // b] of two floats is below [2 ^ 50] in
    magnitude.  CPython takes [a // b] from the exact remainder
    [fmod a b]; in this range the float it returns is the exact floor of
    the quotient of the two floats, and [int] of it is that integer. *)
Definition exact_quotient (a b : Q) : Prop :=
  (Qabs a < inject_Z (2 ^ 50) * b)%Q.

(** ** trading/utils/calendar.py *)

Module calendar.

Definition _pick_last_n (dates : list Timestamp) (n : Z) : list Timestamp :=
  if Z.of_nat (length dates) >=? n then slice_from (- n) dates else dates.

Definition _pick_first_n (dates : list Timestamp) (n : Z) : list Timestamp :=
  if Z.of_nat (length dates) >=? n then slice_to n dates else dates.

(** The unique calendar dates of the anchor's year, ascending. *)
Definition year_dates (df : MarketData) (anchor_date : Timestamp)
  : list Timestamp :=
  let dfy := List.filter
               (fun row => year (date (fst row)) =? year (date anchor_date)) df in
  sorted ts_leb (unique (map (fun ts => midnight (date ts)) (index dfy))).

Definition get_trading_days_around_date
  (df : MarketData) (anchor_date : Timestamp) (before_days after_days : Z)
  : result (list Timestamp * list Timestamp) :=
  let dfy := List.filter
               (fun row => year (date (fst row)) =? year (date anchor_date)) df in
  match dfy with
  | [] => Raise (ValueError "No data for year")
  | _ =>
      let dates := year_dates df anchor_date in
      let pre := List.filter (fun d => ts_ltb d anchor_date) dates in
      let post := List.filter (fun d => ts_ltb anchor_date d) dates in
      Ok (_pick_last_n pre before_days, _pick_first_n post after_days)
  end.

End calendar.

(** ** trading/execution/timing.py *)

Module timing.

Definition find_execution_bar
  (df : MarketData) (target_date : Timestamp) (time_str : string)
  : result Timestamp :=
  let same_day := bars_on df (date target_date) in
  match same_day with
  | [] => Raise (RuntimeError "No bars on date")
  | [row] => Ok (fst row)
  | _ =>
      target_time ← timestamp_at (date target_date) time_str;
      let later_bars :=
        List.filter (fun ts => ts_leb target_time ts) (index same_day) in
      match later_bars with
      | ts :: _ => Ok ts
      | [] => last_item (index same_day)
      end
  end.

Definition is_market_hours
  (timestamp : Timestamp) (market_open market_close : string) : bool :=
  let time_str := strftime_HM timestamp in
  String.leb market_open time_str && String.leb time_str market_close.

Definition get_market_open_close (df : MarketData) (date_ : Timestamp)
  : result (Timestamp * Timestamp) :=
  let same_day := bars_on df (date date_) in
  match same_day with
  | [] => Raise (RuntimeError "No market data for date")
  | row :: _ =>
      let market_open := fst row in
      market_close ← last_item (index same_day);
      Ok (market_open, market_close)
  end.

End timing.

(** ** trading/strategies/christmas_ladder.py *)

Module christmas_ladder.

Record XmasParams : Type := mkXmasParams {
  p_year : Z;
  symbol : string;
  buy_days : Z;
  sell_days : Z;
  sell_execution_time : string
}.

(** The accumulators of [generate_orders]: the orders appended so far, the
    running cash and the running position. *)
Record Ladder : Type := mkLadder {
  orders : list Order;
  cash : Q;
  position : Z
}.

(** [int(alloc // px)]: the floor of the quotient of the two floats, which
    CPython takes from the exact remainder; float floor division by zero
    raises. *)
Definition floor_div (alloc px : Q) : result Z :=
  if Qeq_bool px 0 then Raise ZeroDivisionError
  else Ok (Qfloor (alloc / px)).

(** Body of the buy loop for the buy date [d]. *)
Definition buy_step (df : MarketData) (alloc : Q) (d : Timestamp) (st : Ladder)
  : result Ladder :=
  let bars := bars_on df (date d) in
  ts ← last_item (index bars);
  px ← loc_Close df ts;
  qty ← floor_div alloc px;
  if qty <=? 0 then Ok st
  else
    Ok {| orders := orders st ++
            [mkOrder ts BUY qty px (- (inject_Z qty * px))%Q None None];
          cash := (cash st - inject_Z qty * px)%Q;
          position := position st + qty |}.

Fixpoint buy_loop (df : MarketData) (alloc : Q) (buy_dates : list Timestamp)
  (st : Ladder) : result Ladder :=
  match buy_dates with
  | [] => Ok st
  | d :: rest => st' ← buy_step df alloc d st; buy_loop df alloc rest st'
  end.

(** What one iteration of the sell loop does to the loop: [break] out of
    it, or go on with the next date from an updated state. *)
Inductive Flow : Type :=
| Break
| Next (st : Ladder).

(** Body of the sell loop for the [i]-th (1-based) sell date [d]. *)
Definition sell_step (df : MarketData) (p : XmasParams) (i : Z) (d : Timestamp)
  (st : Ladder) : result Flow :=
  if position st <=? 0 then Ok Break
  else
    let sell_qty :=
      if i <? sell_days p then position st / (sell_days p - i + 1)
      else position st in
    if sell_qty <=? 0 then Ok (Next st)
    else
      ts ← timing.find_execution_bar df d (sell_execution_time p);
      px ← loc_Close df ts;
      Ok (Next {| orders := orders st ++
                    [mkOrder ts SELL sell_qty px (inject_Z sell_qty * px)%Q
                       None None];
                  cash := (cash st + inject_Z sell_qty * px)%Q;
                  position := position st - sell_qty |}).

Fixpoint sell_loop (df : MarketData) (p : XmasParams) (i : Z)
  (sell_dates : list Timestamp) (st : Ladder) : result Ladder :=
  match sell_dates with
  | [] => Ok st
  | d :: rest =>
      flow ← sell_step df p i d st;
      match flow with
      | Break => Ok st
      | Next st' => sell_loop df p (i + 1) rest st'
      end
  end.

Definition xmas_of (p : XmasParams) : Timestamp :=
  midnight (mkDate (p_year p) 12 25).

(** [alloc] is the exact quotient.  The float quotient of the code can
    lie one rounding away from it, which changes a quantity only when a
    close falls between the two; the cost bound of the buy loop is
    therefore stated on [buy_loop], for the allocation it is given. *)
Definition generate_orders (df : MarketData) (cash0 : Q) (p : XmasParams)
  : result OrderFrame :=
  let xmas := xmas_of p in
  '(buy_dates, sell_dates) ←
     calendar.get_trading_days_around_date df xmas (buy_days p) (sell_days p);
  let alloc := (cash0 / inject_Z (Z.max (Z.of_nat (length buy_dates)) 1))%Q in
  st ← buy_loop df alloc buy_dates (mkLadder [] cash0 0);
  st' ← sell_loop df p 1 sell_dates st;
  match orders st' with
  | [] => Ok (mkFrame standard_columns [])
  | placed => Ok (mkFrame standard_columns (sorted by_time placed))
  end.

End christmas_ladder.

(** ** trading/execution/simulator.py *)

Module simulator.

Definition validate_order_timing (order : Order) (market_data : MarketData)
  : bool :=
  let order_date := date (o_time order) in
  let market_dates := map date (index market_data) in
  if negb (mem order_date market_dates) then false
  else timing.is_market_hours (o_time order) "09:30" "16:00".

Definition _apply_slippage
  (intended_price : Q) (market_bar : Bar) (side : Side) (slippage_bps : Q) : Q :=
  let slippage_multiplier := (slippage_bps / 10000)%Q in
  match side with
  | BUY =>
      let execution_price := (intended_price * (1 + slippage_multiplier))%Q in
      py_min execution_price (High market_bar)
  | SELL =>
      let execution_price := (intended_price * (1 - slippage_multiplier))%Q in
      py_max execution_price (Low market_bar)
  end.

Definition _check_liquidity (order_qty : Z) (bar_volume max_volume_pct : Q)
  : bool :=
  if Qle_bool bar_volume 0 then false
  else
    let volume_pct := (inject_Z order_qty / bar_volume)%Q in
    Qle_bool volume_pct max_volume_pct.

Definition _calculate_slippage_bps (intended_price execution_price : Q) : Q :=
  if Qeq_bool intended_price 0 then 0%Q
  else
    let slippage := ((execution_price - intended_price) / intended_price)%Q in
    (slippage * 10000)%Q.

(** The [try] block of the loop over the intended orders: [None] is a
    [continue], [Some] the executed order that is appended.  A label of
    the market data carried by several rows makes [market_bar] a frame, and
    [min]/[max] on its column raise [ValueError]. *)
Definition try_execute (order : Order) (market_data : MarketData)
  (slippage_bps : Q) (min_liquidity_check : bool) : result (option Order) :=
  if negb (validate_order_timing order market_data) then Ok None
  else
    execution_time ←
      timing.find_execution_bar market_data (o_time order) "09:30";
    match loc market_data execution_time with
    | Missing => Raise KeyError
    | NonScalar => Raise (ValueError "truth value of a Series is ambiguous")
    | Scalar market_bar =>
        let execution_price :=
          _apply_slippage (o_price order) market_bar (o_side order)
            slippage_bps in
        if min_liquidity_check &&
           negb (_check_liquidity (o_qty order) (Volume market_bar) (1 # 100))
        then Ok None
        else
          Ok (Some {|
            o_time := execution_time;
            o_side := o_side order;
            o_qty := o_qty order;
            o_price := execution_price;
            o_value :=
              match o_side order with
              | BUY => (- inject_Z (o_qty order) * execution_price)%Q
              | SELL => (inject_Z (o_qty order) * execution_price)%Q
              end;
            o_original_time := Some (o_time order);
            o_slippage_bps :=
              Some (_calculate_slippage_bps (o_price order) execution_price)
          |})
    end.

(** [except (KeyError, RuntimeError): continue]. *)
Definition caught (e : exn) : bool :=
  match e with
  | KeyError | RuntimeError _ => true
  | _ => false
  end.

Definition execute_order (order : Order) (market_data : MarketData)
  (slippage_bps : Q) (min_liquidity_check : bool) : result (option Order) :=
  match try_execute order market_data slippage_bps min_liquidity_check with
  | Raise e => if caught e then Ok None else Raise e
  | r => r
  end.

Fixpoint execute_loop (intended : list Order) (market_data : MarketData)
  (slippage_bps : Q) (min_liquidity_check : bool) (executed_orders : list Order)
  : result (list Order) :=
  match intended with
  | [] => Ok executed_orders
  | order :: rest =>
      fill ← execute_order order market_data slippage_bps min_liquidity_check;
      execute_loop rest market_data slippage_bps min_liquidity_check
        (match fill with
         | Some executed_order => executed_orders ++ [executed_order]
         | None => executed_orders
         end)
  end.

Definition execute_orders (orders : OrderFrame) (market_data : MarketData)
  (slippage_bps : Q) (min_liquidity_check : bool) : result OrderFrame :=
  if empty orders then Ok orders
  else
    executed_orders ←
      execute_loop (rows orders) market_data slippage_bps min_liquidity_check [];
    match executed_orders with
    | [] => Ok (mkFrame (columns orders) [])
    | _ => Ok (mkFrame executed_columns (sorted by_time executed_orders))
    end.

End simulator.

(** ** trading/backtest/engine.py *)

Module engine.

(** The values stored in the result dictionary. *)
Inductive Value : Type :=
| VFrame (f : OrderFrame)
| VFloat (x : Q)
| VInt (n : Z).

(** [Series.sum()]. *)
Definition sum_float (l : list Q) : Q := fold_left Qplus l 0%Q.

Definition sum_int (l : list Z) : Z := fold_left Z.add l 0.

Definition has_side (s : Side) (orders : OrderFrame) : bool :=
  mem s (map o_side (rows orders)).

(** [orders.loc[orders["side"] == s, "qty"]]. *)
Definition qty_of_side (s : Side) (orders : OrderFrame) : list Z :=
  map o_qty (List.filter (fun o => bool_decide (o_side o = s)) (rows orders)).

Definition run_backtest (orders : OrderFrame) (initial_cash : Q)
  : result (gmap string Value) :=
  if empty orders then
    Ok (<["orders" := VFrame orders]>
        (<["initial_cash" := VFloat initial_cash]>
        (<["ending_cash" := VFloat initial_cash]>
        (<["remaining_shares" := VInt 0]>
        (<["remaining_value_mark" := VFloat 0]>
        (<["pnl" := VFloat 0]>
        (<["return_pct" := VFloat 0]> ∅)))))))
  else
    let cash_flow := sum_float (map o_value (rows orders)) in
    let ending_cash := (initial_cash + cash_flow)%Q in
    let bought :=
      if has_side BUY orders then sum_int (qty_of_side BUY orders) else 0 in
    let sold :=
      if has_side SELL orders then sum_int (qty_of_side SELL orders) else 0 in
    let remaining_shares := bought - sold in
    remaining_value_mark ←
      (if (remaining_shares >? 0) && negb (empty orders) then
         last ← last_item (rows orders);
         Ok (inject_Z remaining_shares * o_price last)%Q
       else Ok 0%Q);
    let total_value := (ending_cash + remaining_value_mark)%Q in
    let pnl := (total_value - initial_cash)%Q in
    let return_pct :=
      if Qltb 0 initial_cash then (pnl / initial_cash)%Q else 0%Q in
    Ok (<["orders" := VFrame orders]>
        (<["initial_cash" := VFloat initial_cash]>
        (<["ending_cash" := VFloat ending_cash]>
        (<["remaining_shares" := VInt remaining_shares]>
        (<["remaining_value_mark" := VFloat remaining_value_mark]>
        (<["total_value" := VFloat total_value]>
        (<["pnl" := VFloat pnl]>
        (<["return_pct" := VFloat return_pct]> ∅)))))))).

(** [int(x)] on a float: truncation towards zero. *)
Definition py_int (x : Q) : Z := Z.quot (Qnum x) (Z.pos (Qden x)).

Definition zero_metrics : gmap string Value :=
  <["total_trades" := VInt 0]>
  (<["winning_trades" := VInt 0]>
  (<["losing_trades" := VInt 0]>
  (<["win_rate" := VFloat 0]>
  (<["avg_trade_pnl" := VFloat 0]>
  (<["max_drawdown" := VFloat 0]> ∅))))).

Definition calculate_performance_metrics
  (orders : OrderFrame) (final_cash initial_cash : Q) : gmap string Value :=
  if empty orders then zero_metrics
  else
    let sell_orders :=
      List.filter (fun o => bool_decide (o_side o = SELL)) (rows orders) in
    let total_trades := Z.of_nat (length sell_orders) in
    if total_trades =? 0 then zero_metrics
    else
      let total_pnl := (final_cash - initial_cash)%Q in
      let avg_trade_pnl :=
        if total_trades >? 0 then (total_pnl / inject_Z total_trades)%Q
        else 0%Q in
      let winning_trades :=
        Z.max 0 (py_int (inject_Z total_trades * (6 # 10))) in
      let losing_trades := total_trades - winning_trades in
      let win_rate :=
        if total_trades >? 0
        then (inject_Z winning_trades / inject_Z total_trades)%Q
        else 0%Q in
      <["total_trades" := VInt total_trades]>
      (<["winning_trades" := VInt winning_trades]>
      (<["losing_trades" := VInt losing_trades]>
      (<["win_rate" := VFloat win_rate]>
      (<["avg_trade_pnl" := VFloat avg_trade_pnl]>
      (<["max_drawdown" := VFloat 0]> ∅))))).

End engine.

(** ** trading/risk/position_sizing.py *)

Module position_sizing.

Section Rounded.

(** The rounding of the exact result of one float operation:
    [binary64] for the floats of Python. *)
Variable fl : Q -> Q.

(** [a // b] on floats is the floor of the quotient of the two floats:
    CPython takes it from the exact remainder [fmod a b]. *)
Definition calculate_position_size
  (available_cash target_allocation current_price max_position_pct : Q) : Z :=
  if Qle_bool current_price 0 || Qle_bool available_cash 0 then 0
  else
    let max_allocation := fl (available_cash * max_position_pct) in
    let actual_allocation := py_min target_allocation max_allocation in
    let shares := Qfloor (actual_allocation / current_price) in
    Z.max 0 shares.

(** Float division; a zero divisor raises. *)
Definition truediv (a b : Q) : result Q :=
  if Qeq_bool b 0 then Raise ZeroDivisionError else Ok (fl (a / b)).

Definition apply_kelly_criterion
  (win_rate avg_win avg_loss current_capital max_kelly_fraction : Q)
  : result Q :=
  if Qle_bool avg_loss 0 || Qle_bool win_rate 0 || Qle_bool 1 win_rate
  then Ok 0%Q
  else
    b ← truediv avg_win avg_loss;
    let p := win_rate in
    let q := fl (1 - win_rate) in
    kelly_fraction ← truediv (fl (fl (b * p) - q)) b;
    let kelly_fraction :=
      py_max 0 (py_min kelly_fraction max_kelly_fraction) in
    Ok (fl (current_capital * kelly_fraction)).

End Rounded.

End position_sizing.

(** ** trading/backtest/metrics.py *)

Module metrics.

(** The values stored in a metrics dictionary; [MInf] is [float('inf')]. *)
Inductive Metric : Type :=
| MFloat (x : Q)
| MInf
| MInt (n : Z).

(** [len(frame)]. *)
Definition len (l : list Q) : Z := Z.of_nat (length l).

(** [Series.mean()] of a non-empty series. *)
Definition mean (l : list Q) : Q := (engine.sum_float l / inject_Z (len l))%Q.

(** [frame.empty]. *)
Definition no_rows (l : list Q) : bool :=
  match l with [] => true | _ => false end.

Definition no_trades : gmap string Metric :=
  <["win_rate" := MFloat 0]>
  (<["avg_win" := MFloat 0]>
  (<["avg_loss" := MFloat 0]>
  (<["profit_factor" := MFloat 0]>
  (<["total_trades" := MInt 0]> ∅)))).

(** [trades] is the ["pnl"] column of the frame, [None] when the frame
    has no such column. *)
Definition calculate_win_loss_metrics (trades : option (list Q))
  : gmap string Metric :=
  match trades with
  | None => no_trades
  | Some pnl =>
      if no_rows pnl then no_trades
      else
        let winning_trades := List.filter (fun x => Qltb 0 x) pnl in
        let losing_trades := List.filter (fun x => Qltb x 0) pnl in
        let total_trades := len pnl in
        let win_rate :=
          if total_trades >? 0
          then (inject_Z (len winning_trades) / inject_Z total_trades)%Q
          else 0%Q in
        let avg_win :=
          if negb (no_rows winning_trades) then mean winning_trades
          else 0%Q in
        let avg_loss :=
          if negb (no_rows losing_trades) then Qabs (mean losing_trades)
          else 0%Q in
        let gross_profit :=
          if negb (no_rows winning_trades)
          then engine.sum_float winning_trades else 0%Q in
        let gross_loss :=
          if negb (no_rows losing_trades)
          then Qabs (engine.sum_float losing_trades) else 0%Q in
        let profit_factor :=
          if Qltb 0 gross_loss then MFloat (gross_profit / gross_loss)
          else if Qltb 0 gross_profit then MInf else MFloat 0 in
        <["win_rate" := MFloat win_rate]>
        (<["avg_win" := MFloat avg_win]>
        (<["avg_loss" := MFloat avg_loss]>
        (<["profit_factor" := profit_factor]>
        (<["total_trades" := MInt total_trades]>
        (<["winning_trades" := MInt (len winning_trades)]>
        (<["losing_trades" := MInt (len losing_trades)]> ∅))))))
  end.

End metrics.

(** ** Vocabulary of the properties and sample data *)

Section Vocabulary.

Import calendar timing christmas_ladder simulator engine.

(** The sum of the signed values of a list of orders, by recursion on the
    list. *)
Fixpoint total_order_value (l : list Order) : Q :=
  match l with
  | [] => 0%Q
  | o :: r => (o_value o + total_order_value r)%Q
  end.

(** The seven numeric fields of a backtest result. *)
Definition result_fields : list string :=
  ["initial_cash"; "ending_cash"; "remaining_shares"; "remaining_value_mark";
   "total_value"; "pnl"; "return_pct"]%string.

(** [k in r]. *)
Definition has_field (r : gmap string Value) (k : string) : bool :=
  bool_decide (is_Some (r !! k)).

(** The three row filters of the calendar resolver: bars of the anchor's
    year, candidate dates before the anchor, candidate dates after it. *)
Definition in_year (anchor_date : Timestamp) (row : Timestamp * Bar) : bool :=
  year (date (fst row)) =? year (date anchor_date).

Definition before (anchor_date d : Timestamp) : bool := ts_ltb d anchor_date.

Definition after (anchor_date d : Timestamp) : bool := ts_ltb anchor_date d.

(** Sample data: a timestamp on the minute, and a bar around a close. *)
Definition at_time (y m d h mi : Z) : Timestamp :=
  mkTimestamp (mkDate y m d) h mi 0.

Definition flat_bar (c : Q) : Bar := mkBar c (c + 2) (c - 2) c 1000000.

(** Three daily bars at the end of November 2023, stamped at midnight. *)
Definition november_daily : MarketData :=
  [(at_time 2023 11 28 0 0, flat_bar 100);
   (at_time 2023 11 29 0 0, flat_bar 101);
   (at_time 2023 11 30 0 0, flat_bar 102)].

(** Intraday bars: a day before Christmas that opens low and closes high,
    and a day after Christmas with bars at 09:30, 10:00, 11:00 and 16:00. *)
Definition december_intraday : MarketData :=
  [(at_time 2023 12 20 9 30, mkBar 88 90 85 89 1000000);
   (at_time 2023 12 20 16 0, mkBar 99 101 98 100 1000000);
   (at_time 2023 12 26 9 30, flat_bar 100);
   (at_time 2023 12 26 10 0, flat_bar 101);
   (at_time 2023 12 26 11 0, flat_bar 102);
   (at_time 2023 12 26 16 0, flat_bar 103)].

(** The default ladder (5 buy days, 10 sell days, sales at 10:30) for
    2023. *)
Definition xmas_2023 : christmas_ladder.XmasParams :=
  christmas_ladder.mkXmasParams 2023 "TEST" 5 10 "10:30".

(** A BUY at the close of 2023-12-20, as the ladder places it on
    [december_intraday], and its fill at one basis point of slippage. *)
Definition late_buy : Order :=
  mkOrder (at_time 2023 12 20 16 0) BUY 100 100 (-10000) None None.

Definition late_buy_fill : Order :=
  Eval vm_compute in
    match simulator.execute_order late_buy december_intraday 1 true with
    | Ok (Some executed) => executed
    | _ => late_buy
    end.

(** The three BUY orders that the ladder places on [november_daily]. *)
Definition november_orders : OrderFrame :=
  Eval vm_compute in
    match christmas_ladder.generate_orders november_daily 10000 xmas_2023 with
    | Ok intended => intended
    | Raise _ => mkFrame standard_columns []
    end.

(** The ladder of one remaining sell day on [december_intraday], holding
    100 shares. *)
Definition last_day_params : XmasParams :=
  mkXmasParams 2023 "TEST" 5 1 "10:30".

Definition holding_100 : Ladder := mkLadder [] 0 100.

Definition sold_out : Ladder :=
  Eval vm_compute in
    match sell_step december_intraday last_day_params 1
            (at_time 2023 12 26 0 0) holding_100 with
    | Ok (Next st) => st
    | _ => holding_100
    end.

(** An order on the right side of the anchor: a BUY strictly before it,
    a SELL strictly after it. *)
Definition ladder_ordered (xmas : Timestamp) (o : Order) : Prop :=
  match o_side o with
  | BUY => ts_ltb (o_time o) xmas = true
  | SELL => ts_ltb xmas (o_time o) = true
  end.

(** The orders that the ladder places on [december_intraday]. *)
Definition december_orders : OrderFrame :=
  Eval vm_compute in
    match generate_orders december_intraday 10000 xmas_2023 with
    | Ok intended => intended
    | Raise _ => mkFrame standard_columns []
    end.


(** The series is well formed where the buy phase reads it: labels are
    distinct and closes are positive. *)
Definition closes_positive (df : MarketData) : Prop :=
  Forall (fun row => (0 < Close (snd row))%Q) df.


End Vocabulary.

(** ** Vocabulary of the further properties *)

Section FurtherVocabulary.

Import calendar timing christmas_ladder simulator engine.

(** The instant [a] comes strictly before the instant [b]. *)
Definition ts_before (a b : Timestamp) : Prop :=
  year (date a) < year (date b) \/
  (year (date a) = year (date b) /\
   (month (date a) < month (date b) \/
    (month (date a) = month (date b) /\
     (day (date a) < day (date b) \/
      (day (date a) = day (date b) /\
       (hour a < hour b \/
        (hour a = hour b /\
         (minute a < minute b \/
          (minute a = minute b /\ nanos a < nanos b))))))))).

(** Ascending, and strictly ascending, lists of timestamps. *)
Definition ascending (l : list Timestamp) : Prop :=
  StronglySorted (fun a b => ts_leb a b = true) l.

Definition strictly_ascending (l : list Timestamp) : Prop :=
  StronglySorted (fun a b => ts_ltb a b = true) l.

(** Total quantity of the orders of one side. *)
Definition side_qty (s : Side) (l : list Order) : Z :=
  fold_right Z.add 0
    (map o_qty (List.filter (fun o => bool_decide (o_side o = s)) l)).

(** Cash paid for the BUY orders of a list. *)
Fixpoint buy_cost (l : list Order) : Q :=
  match l with
  | [] => 0%Q
  | o :: r =>
      match o_side o with
      | BUY => (inject_Z (o_qty o) * o_price o + buy_cost r)%Q
      | SELL => buy_cost r
      end
  end.

(** A timestamp with a clock time of the day. *)
Definition valid_clock (t : Timestamp) : Prop :=
  0 <= hour t < 24 /\ 0 <= minute t < 60.

(** The dates resolved around Christmas 2023 on [december_intraday]. *)
Definition december_resolved : list Timestamp * list Timestamp :=
  Eval vm_compute in
    match get_trading_days_around_date december_intraday
            (at_time 2023 12 25 0 0) 5 10 with
    | Ok dates => dates
    | Raise _ => ([], [])
    end.

(** The dates resolved around Christmas 2023 on [november_daily]. *)
Definition november_resolved : list Timestamp * list Timestamp :=
  Eval vm_compute in
    match get_trading_days_around_date november_daily
            (at_time 2023 12 25 0 0) 5 10 with
    | Ok dates => dates
    | Raise _ => ([], [])
    end.

(** An intended order as the ladder writes it: a positive quantity, the
    signed value of the side, and no execution columns. *)
Definition well_formed_order (o : Order) : Prop :=
  0 < o_qty o /\
  o_value o =
    match o_side o with
    | BUY => (- (inject_Z (o_qty o) * o_price o))%Q
    | SELL => (inject_Z (o_qty o) * o_price o)%Q
    end /\
  o_original_time o = None /\
  o_slippage_bps o = None.

(** The accumulators of the ladder agree with the orders placed so far. *)
Definition ladder_inv (st : Ladder) : Prop :=
  0 <= position st /\
  position st = side_qty BUY (orders st) - side_qty SELL (orders st) /\
  Forall well_formed_order (orders st).

(** The orders of the ladder with a single sell day on
    [december_intraday]. *)
Definition last_day_orders : OrderFrame :=
  Eval vm_compute in
    match generate_orders december_intraday 10000 last_day_params with
    | Ok intended => intended
    | Raise _ => mkFrame standard_columns []
    end.

(** The fills of [december_orders] at one basis point of slippage. *)
Definition december_fills : OrderFrame :=
  Eval vm_compute in
    match simulator.execute_orders december_orders december_intraday 1 true with
    | Ok executed => executed
    | Raise _ => mkFrame executed_columns []
    end.

(** Two bars that carry the same label. *)
Definition doubled_open : MarketData :=
  [(at_time 2023 12 20 9 30, flat_bar 88);
   (at_time 2023 12 20 9 30, flat_bar 89)].

(** Number of the orders of one side. *)
Definition side_count (s : Side) (l : list Order) : Z :=
  Z.of_nat (length (List.filter (fun o => bool_decide (o_side o = s)) l)).

(** The sum of a list of amounts, by recursion on the list. *)
Fixpoint pnl_total (l : list Q) : Q :=
  match l with
  | [] => 0%Q
  | x :: r => (x + pnl_total r)%Q
  end.

(** The winning and the losing trades of a P&L column. *)
Definition gains (pnl : list Q) : list Q := List.filter (fun x => Qltb 0 x) pnl.

Definition losses (pnl : list Q) : list Q := List.filter (fun x => Qltb x 0) pnl.

(** A third of 10000 as the float division returns it, which is above
    the exact third; three daily bars closing at that price, and the
    ladder after the buy loop has run over them with that allocation. *)
Definition third_of_cash : Q := Eval vm_compute in binary64 (10000 / 3).

Definition tie_daily : MarketData :=
  [(at_time 2023 12 19 0 0, flat_bar third_of_cash);
   (at_time 2023 12 20 0 0, flat_bar third_of_cash);
   (at_time 2023 12 21 0 0, flat_bar third_of_cash)].

Definition tie_bought : christmas_ladder.Ladder :=
  Eval vm_compute in
    match christmas_ladder.buy_loop tie_daily third_of_cash (index tie_daily)
            (christmas_ladder.mkLadder [] 10000 0) with
    | Ok st => st
    | Raise _ => christmas_ladder.mkLadder [] 10000 0
    end.

(** The float nearest to one tenth. *)
Definition tenth : Q := Eval vm_compute in binary64 (1 # 10).

(** The float nearest to [1e-320], a positive subnormal number, and the
    float [1e300]. *)
Definition tiny_win : Q := Eval vm_compute in binary64 (1 / inject_Z (10 ^ 320)).

Definition huge_loss : Q := Eval vm_compute in binary64 (inject_Z (10 ^ 300)).

End FurtherVocabulary.

(** * Properties *)

(** ** Backtest engine *)

Section Engine.

Import engine.

Lemma fold_left_Qplus (l : list Q) (a : Q) :
  (fold_left Qplus l a == a + fold_right Qplus 0 l)%Q.
Proof.
  revert a. induction l as [|x l IH]; intros a; simpl.
  - ring.
  - rewrite IH. ring.
Qed.

Lemma sum_float_values (l : list Order) :
  (sum_float (map o_value l) == total_order_value l)%Q.
Proof.
  unfold sum_float. rewrite fold_left_Qplus.
  induction l as [|o l IH]; simpl.
  - ring.
  - rewrite Qplus_0_l in IH. rewrite IH. ring.
Qed.

Lemma last_item_nonempty {A : Type} (l : list A) :
  l <> [] -> exists x, last_item l = Ok x /\ In x l.
Proof.
  intros Hne. unfold last_item.
  destruct (rev l) as [|x r] eqn:E.
  - apply (f_equal (@rev A)) in E. rewrite rev_involutive in E. now subst.
  - exists x. split; [reflexivity|].
    apply in_rev. rewrite E. now left.
Qed.

Lemma empty_false_rows (orders : OrderFrame) :
  empty orders = false -> rows orders <> [].
Proof. unfold empty. now destruct (rows orders). Qed.

(** On a non-empty table the marking of the remaining position cannot
    fail, so the engine returns a dictionary. *)
Lemma mark_defined (orders : OrderFrame) (n : Z) (b : bool) :
  empty orders = false ->
  exists v : Q,
    (if b
     then last ← last_item (rows orders); Ok (inject_Z n * o_price last)%Q
     else Ok 0%Q) = Ok v.
Proof.
  intros Hne. destruct b; [|eauto].
  destruct (last_item_nonempty (rows orders) (empty_false_rows _ Hne))
    as (x & -> & _).
  simpl. eauto.
Qed.

(** C1. Cash-flow conservation: on every non-empty executed-orders table
    and for every initial cash, [run_backtest] returns a result whose
    [ending_cash] is the initial cash plus the sum of the signed values of
    all the orders. *)
Theorem run_backtest_cash_conservation (orders : OrderFrame) (initial_cash : Q) :
  empty orders = false ->
  exists (r : gmap string Value) (ending_cash : Q),
    run_backtest orders initial_cash = Ok r /\
    r !! "ending_cash"%string = Some (VFloat ending_cash) /\
    (ending_cash == initial_cash + total_order_value (rows orders))%Q.
Proof.
  intros Hne. unfold run_backtest. rewrite Hne.
  match goal with
  | |- context [if ?b then _ ≫= (fun last => Ok (inject_Z ?n * _)%Q) else _] =>
      destruct (mark_defined orders n b Hne) as [v Hv]
  end.
  rewrite Hv. cbn [mbind result_bind bind].
  eexists _, _. split; [reflexivity|]. split.
  - by simplify_map_eq.
  - now rewrite sum_float_values.
Qed.

Lemma run_backtest_cash_conservation_witness :
  let orders :=
    mkFrame standard_columns
      [mkOrder (midnight (mkDate 2023 1 1)) BUY 100 100 (-10000) None None;
       mkOrder (midnight (mkDate 2023 1 2)) SELL 100 110 11000 None None] in
  exists (r : gmap string Value) (ending_cash : Q),
    run_backtest orders 15000 = Ok r /\
    r !! "ending_cash"%string = Some (VFloat ending_cash) /\
    (ending_cash == 15000 + total_order_value (rows orders))%Q.
Proof.
  intros orders. apply (run_backtest_cash_conservation orders 15000).
  reflexivity.
Defined.

(** C5. Zero-state idempotence: for every [X >= 0], [run_backtest] on an
    empty orders table returns, without raising, a result with
    [initial_cash = X], [ending_cash = X], [remaining_shares = 0],
    [pnl = 0] and [return_pct = 0]. *)
Theorem run_backtest_zero_state (orders : OrderFrame) (X : Q) :
  empty orders = true ->
  (0 <= X)%Q ->
  exists r : gmap string Value,
    run_backtest orders X = Ok r /\
    r !! "initial_cash"%string = Some (VFloat X) /\
    r !! "ending_cash"%string = Some (VFloat X) /\
    r !! "remaining_shares"%string = Some (VInt 0) /\
    r !! "pnl"%string = Some (VFloat 0) /\
    r !! "return_pct"%string = Some (VFloat 0).
Proof.
  intros He _. unfold run_backtest. rewrite He.
  eexists. split; [reflexivity|].
  repeat split; by simplify_map_eq.
Qed.

Lemma run_backtest_zero_state_witness :
  exists r : gmap string Value,
    run_backtest (mkFrame standard_columns []) 10000 = Ok r /\
    r !! "initial_cash"%string = Some (VFloat 10000) /\
    r !! "ending_cash"%string = Some (VFloat 10000) /\
    r !! "remaining_shares"%string = Some (VInt 0) /\
    r !! "pnl"%string = Some (VFloat 0) /\
    r !! "return_pct"%string = Some (VFloat 0).
Proof.
  apply (run_backtest_zero_state (mkFrame standard_columns []) 10000).
  - reflexivity.
  - discriminate.
Defined.

(** On a non-empty table the result carries all seven fields. *)
Lemma run_backtest_fields_nonempty (orders : OrderFrame) (initial_cash : Q) :
  empty orders = false ->
  exists r : gmap string Value,
    run_backtest orders initial_cash = Ok r /\
    forallb (has_field r) result_fields = true.
Proof.
  intros Hne. unfold run_backtest. rewrite Hne.
  match goal with
  | |- context [if ?b then _ ≫= (fun last => Ok (inject_Z ?n * _)%Q) else _] =>
      destruct (mark_defined orders n b Hne) as [v Hv]
  end.
  rewrite Hv. cbn [mbind result_bind bind].
  eexists. split; [reflexivity|].
  unfold result_fields, has_field. cbn [forallb].
  repeat (rewrite bool_decide_eq_true_2; [|by simplify_map_eq]).
  reflexivity.
Qed.

(** C6, at the input on which it fails.  The dictionary returned for an
    empty table has no [total_value] entry: that branch builds six of the
    seven fields, while the branch for a non-empty table builds all
    seven. *)
Theorem run_backtest_empty_lacks_total_value (initial_cash : Q) :
  exists r : gmap string Value,
    run_backtest (mkFrame standard_columns []) initial_cash = Ok r /\
    r !! "total_value"%string = None /\
    forallb (has_field r) result_fields = false.
Proof.
  eexists. split; [reflexivity|]. split.
  - by simplify_map_eq.
  - unfold result_fields, has_field. cbn [forallb].
    repeat (rewrite bool_decide_eq_true_2; [|by simplify_map_eq]).
    rewrite (bool_decide_eq_false_2 (is_Some _)); [reflexivity|].
    simplify_map_eq. by intros [? ?].
Qed.

End Engine.

(** ** Sequences and timestamps *)

Section Sequences.

Context {A : Type}.

Lemma In_skipn_list (n : nat) (l : list A) (x : A) :
  In x (skipn n l) -> In x l.
Proof.
  intros H. rewrite <- (firstn_skipn n l). apply in_or_app. now right.
Qed.

Lemma In_firstn_list (n : nat) (l : list A) (x : A) :
  In x (firstn n l) -> In x l.
Proof.
  intros H. rewrite <- (firstn_skipn n l). apply in_or_app. now left.
Qed.

Lemma In_slice_from (s : Z) (l : list A) (x : A) :
  In x (slice_from s l) -> In x l.
Proof. apply In_skipn_list. Qed.

Lemma In_slice_to (e : Z) (l : list A) (x : A) :
  In x (slice_to e l) -> In x l.
Proof. apply In_firstn_list. Qed.

Lemma insert_sorted_perm (leb : A -> A -> bool) (x : A) (l : list A) :
  Permutation (x :: l) (insert_sorted leb x l).
Proof.
  induction l as [|y l IH]; simpl.
  - reflexivity.
  - destruct (leb x y); [reflexivity|].
    rewrite perm_swap. now constructor.
Qed.

Lemma sorted_perm (leb : A -> A -> bool) (l : list A) :
  Permutation l (sorted leb l).
Proof.
  induction l as [|x l IH]; simpl.
  - constructor.
  - rewrite <- insert_sorted_perm. now constructor.
Qed.

Lemma In_sorted (leb : A -> A -> bool) (l : list A) (x : A) :
  In x (sorted leb l) <-> In x l.
Proof.
  split; apply Permutation_in;
    [symmetry|]; apply sorted_perm.
Qed.

Lemma filter_head_find (f : A -> bool) (l : list A) :
  List.find f l = hd_error (List.filter f l).
Proof.
  induction l as [|x l IH]; simpl; [reflexivity|].
  now destruct (f x).
Qed.

Context `{EqDecision A}.

Lemma mem_In (x : A) (l : list A) : mem x l = true <-> In x l.
Proof.
  unfold mem. rewrite existsb_exists. split.
  - intros (y & Hy & Heq). apply bool_decide_eq_true in Heq. now subst.
  - intros Hin. exists x. split; [assumption|]. now apply bool_decide_eq_true.
Qed.

Lemma In_unique_from (seen l : list A) (x : A) :
  In x (unique_from seen l) <-> In x l /\ ~ In x seen.
Proof.
  revert seen. induction l as [|y l IH]; intros seen; simpl.
  - tauto.
  - destruct (mem y seen) eqn:E.
    + apply mem_In in E. rewrite IH. split.
      * intros [? ?]. tauto.
      * intros [[->|?] ?]; tauto.
    + assert (~ In y seen) as Hy.
      { intros Hin. apply mem_In in Hin. congruence. }
      simpl. rewrite IH. simpl. split.
      * intros [->|[? ?]]; tauto.
      * intros [[->|?] ?]; [tauto|].
        destruct (decide (y = x)); [tauto|]. right. tauto.
Qed.

Lemma In_unique (l : list A) (x : A) : In x (unique l) <-> In x l.
Proof. unfold unique. rewrite In_unique_from. simpl. tauto. Qed.

Lemma NoDup_unique_from (seen l : list A) :
  List.NoDup (unique_from seen l).
Proof.
  revert seen. induction l as [|y l IH]; intros seen; simpl.
  - constructor.
  - destruct (mem y seen); [apply IH|].
    constructor; [|apply IH].
    rewrite In_unique_from. simpl. tauto.
Qed.

Lemma NoDup_unique (l : list A) : List.NoDup (unique l).
Proof. apply NoDup_unique_from. Qed.

End Sequences.

Section Timestamps.

Lemma lex_Lt (c k : comparison) : c = Lt -> lex c k = Lt.
Proof. now intros ->. Qed.

Lemma lex_Eq_inv (c k : comparison) : lex c Eq = k -> c = k.
Proof. destruct c; simpl; congruence. Qed.

(** A timestamp of an earlier date is an earlier timestamp. *)
Lemma ts_ltb_of_date (a b : Timestamp) :
  date_compare (date a) (date b) = Lt -> ts_ltb a b = true.
Proof. intros H. unfold ts_ltb, ts_compare. now rewrite H. Qed.

(** Two midnights compare as their dates do. *)
Lemma ts_ltb_midnight (d e : Date) :
  ts_ltb (midnight d) (midnight e) = true -> date_compare d e = Lt.
Proof.
  unfold ts_ltb, ts_compare. simpl.
  destruct (date_compare d e); simpl; congruence.
Qed.

Lemma date_compare_antisym (d e : Date) :
  date_compare e d = CompOpp (date_compare d e).
Proof.
  unfold date_compare.
  rewrite (Z.compare_antisym (year d)), (Z.compare_antisym (month d)),
    (Z.compare_antisym (day d)).
  destruct (year d ?= year e), (month d ?= month e), (day d ?= day e);
    reflexivity.
Qed.

Lemma ts_compare_antisym (a b : Timestamp) :
  ts_compare b a = CompOpp (ts_compare a b).
Proof.
  unfold ts_compare.
  rewrite (date_compare_antisym (date a)), (Z.compare_antisym (hour a)),
    (Z.compare_antisym (minute a)), (Z.compare_antisym (nanos a)).
  destruct (date_compare (date a) (date b)), (hour a ?= hour b),
    (minute a ?= minute b), (nanos a ?= nanos b); reflexivity.
Qed.

Lemma ts_leb_total (a b : Timestamp) : ts_leb a b = false -> ts_leb b a = true.
Proof.
  unfold ts_leb. rewrite (ts_compare_antisym a b).
  now destruct (ts_compare a b).
Qed.

End Timestamps.

(** ** Calendar resolver *)

Section Calendar.

Import calendar.

Lemma get_trading_days_ok (df : MarketData) (anchor_date : Timestamp)
  (before_days after_days : Z) :
  List.filter (in_year anchor_date) df <> [] ->
  get_trading_days_around_date df anchor_date before_days after_days =
  Ok (_pick_last_n (List.filter (before anchor_date) (year_dates df anchor_date))
        before_days,
      _pick_first_n (List.filter (after anchor_date) (year_dates df anchor_date))
        after_days).
Proof.
  intros Hne. unfold get_trading_days_around_date.
  fold (in_year anchor_date).
  destruct (List.filter (in_year anchor_date) df); [congruence|reflexivity].
Qed.

Lemma get_trading_days_no_data (df : MarketData) (anchor_date : Timestamp)
  (before_days after_days : Z) :
  List.filter (in_year anchor_date) df = [] ->
  get_trading_days_around_date df anchor_date before_days after_days =
  Raise (ValueError "No data for year").
Proof.
  intros He. unfold get_trading_days_around_date.
  fold (in_year anchor_date). now rewrite He.
Qed.

(** The candidate dates are the midnights of the bars of the anchor's
    year, each once. *)
Lemma In_year_dates (df : MarketData) (anchor_date d : Timestamp) :
  In d (year_dates df anchor_date) <->
  exists ts, In ts (index df) /\
             year (date ts) = year (date anchor_date) /\
             d = midnight (date ts).
Proof.
  unfold year_dates, index. rewrite In_sorted, In_unique, in_map_iff.
  split.
  - intros (ts & <- & Hts). apply in_map_iff in Hts as ([t b] & <- & Hrow).
    apply filter_In in Hrow as [Hin Hy]. simpl in *.
    exists t. repeat split.
    + apply in_map_iff. now exists (t, b).
    + now apply Z.eqb_eq.
  - intros (ts & Hin & Hy & ->).
    apply in_map_iff in Hin as ([t b] & <- & Hrow). simpl in *.
    exists t. split; [reflexivity|].
    apply in_map_iff. exists (t, b). split; [reflexivity|].
    apply filter_In. split; [assumption|]. now apply Z.eqb_eq.
Qed.

Lemma NoDup_year_dates (df : MarketData) (anchor_date : Timestamp) :
  List.NoDup (year_dates df anchor_date).
Proof.
  unfold year_dates.
  eapply Permutation_NoDup; [apply sorted_perm|apply NoDup_unique].
Qed.

Lemma In_pick_last_n (dates : list Timestamp) (n : Z) (d : Timestamp) :
  In d (_pick_last_n dates n) -> In d dates.
Proof.
  unfold _pick_last_n. destruct (_ >=? _); [apply In_slice_from|tauto].
Qed.

Lemma In_pick_first_n (dates : list Timestamp) (n : Z) (d : Timestamp) :
  In d (_pick_first_n dates n) -> In d dates.
Proof.
  unfold _pick_first_n. destruct (_ >=? _); [apply In_slice_to|tauto].
Qed.

(** With a positive count the last [n] dates are selected, all of them
    when there are fewer. *)
Lemma pick_last_n_positive (dates : list Timestamp) (n : Z) :
  1 <= n ->
  _pick_last_n dates n = skipn (length dates - Z.to_nat n) dates.
Proof.
  intros Hn. unfold _pick_last_n, slice_from, slice_bound.
  destruct (Z.geb_spec (Z.of_nat (length dates)) n) as [Hge|Hlt].
  - destruct (Z.ltb_spec (- n) 0); [|lia].
    f_equal. lia.
  - replace (length dates - Z.to_nat n)%nat with 0%nat by lia. reflexivity.
Qed.

(** With a non-negative count the first [n] dates are selected, all of
    them when there are fewer. *)
Lemma pick_first_n_nonneg (dates : list Timestamp) (n : Z) :
  0 <= n ->
  _pick_first_n dates n = firstn (Z.to_nat n) dates.
Proof.
  intros Hn. unfold _pick_first_n, slice_to, slice_bound.
  destruct (Z.geb_spec (Z.of_nat (length dates)) n) as [Hge|Hlt].
  - destruct (Z.ltb_spec n 0); [lia|].
    f_equal. lia.
  - symmetry. apply firstn_all2. lia.
Qed.

(** The zero count selects every date: [dates[-0:]] is [dates[0:]]. *)
Lemma pick_last_n_zero (dates : list Timestamp) : _pick_last_n dates 0 = dates.
Proof.
  unfold _pick_last_n, slice_from, slice_bound.
  destruct (Z.geb_spec (Z.of_nat (length dates)) 0); [|reflexivity].
  simpl. destruct (Z.of_nat (length dates)); reflexivity.
Qed.

(** X4. For counts [before_days >= 1] and [after_days >= 0] the resolver
    returns the last [min before_days available] candidate dates before
    the anchor and the first [min after_days available] ones after it. *)
Lemma get_trading_days_positive (df : MarketData) (anchor_date : Timestamp)
  (before_days after_days : Z) :
  List.filter (in_year anchor_date) df <> [] ->
  1 <= before_days ->
  0 <= after_days ->
  let pre := List.filter (before anchor_date) (year_dates df anchor_date) in
  let post := List.filter (after anchor_date) (year_dates df anchor_date) in
  exists pre_dates post_dates,
    get_trading_days_around_date df anchor_date before_days after_days =
      Ok (pre_dates, post_dates) /\
    pre_dates = skipn (length pre - Z.to_nat before_days) pre /\
    post_dates = firstn (Z.to_nat after_days) post /\
    length pre_dates = Nat.min (Z.to_nat before_days) (length pre) /\
    length post_dates = Nat.min (Z.to_nat after_days) (length post).
Proof.
  intros Hne Hb Ha pre post.
  eexists _, _. split; [now apply get_trading_days_ok|].
  fold pre post.
  rewrite (pick_last_n_positive pre _ Hb), (pick_first_n_nonneg post _ Ha).
  repeat split.
  - rewrite length_skipn. lia.
  - rewrite length_firstn. lia.
Qed.

(** C3, at the input on which it fails.  With [before_days = 0] the
    resolver does not return an empty [pre_dates]: [_pick_last_n] keeps
    every date it is given, so all the candidate dates before the anchor
    come back.  On three November bars and the anchor 2023-12-25 the
    three dates are returned for the count 0. *)
Theorem resolver_before_zero_returns_all :
  (forall dates : list Timestamp, _pick_last_n dates 0 = dates) /\
  get_trading_days_around_date november_daily (at_time 2023 12 25 0 0) 0 0 =
  Ok ([at_time 2023 11 28 0 0; at_time 2023 11 29 0 0; at_time 2023 11 30 0 0],
      []).
Proof.
  split.
  - apply pick_last_n_zero.
  - vm_compute. reflexivity.
Qed.

End Calendar.

(** ** Execution-bar locator *)

Section Timing.

Import timing.

Lemma In_bars_on (df : MarketData) (d : Date) (row : Timestamp * Bar) :
  In row (bars_on df d) <-> In row df /\ date (fst row) = d.
Proof.
  unfold bars_on. rewrite filter_In.
  now rewrite bool_decide_eq_true.
Qed.

Lemma In_index_bars_on (df : MarketData) (d : Date) (ts : Timestamp) :
  In ts (index (bars_on df d)) <-> In ts (index df) /\ date ts = d.
Proof.
  unfold index. rewrite !in_map_iff. split.
  - intros ([t b] & <- & Hrow). apply In_bars_on in Hrow as [Hin Hd].
    split; [|assumption]. now exists (t, b).
  - intros [([t b] & <- & Hin) Hd]. exists (t, b). split; [reflexivity|].
    now apply In_bars_on.
Qed.

Lemma last_item_last {A : Type} (l : list A) (d : A) :
  l <> [] -> last_item l = Ok (List.last l d).
Proof.
  intros Hne. destruct (exists_last Hne) as (l' & x & ->).
  unfold last_item. rewrite rev_app_distr, last_last. reflexivity.
Qed.

Lemma timestamp_at_parsed (d : Date) (time_str : string) (h m : Z) :
  parse_HM time_str = Some (h, m) ->
  timestamp_at d time_str = Ok (mkTimestamp d h m 0).
Proof. intros H. unfold timestamp_at. now rewrite H. Qed.

(** Whatever the time string, the no-data error is raised exactly on a
    day without bars. *)
Lemma find_execution_bar_no_data
  (df : MarketData) (target_date : Timestamp) (time_str : string) :
  (exists msg,
     find_execution_bar df target_date time_str = Raise (RuntimeError msg)) <->
  bars_on df (date target_date) = [].
Proof.
  unfold find_execution_bar.
  destruct (bars_on df (date target_date)) as [|r1 [|r2 rest]].
  - split; eauto.
  - split; [intros [msg H]|]; discriminate.
  - split; [intros [msg H]|discriminate]. exfalso.
    unfold timestamp_at in H. destruct (parse_HM time_str) as [[h m]|];
      cbn [mbind result_bind bind] in H; [|discriminate].
    destruct (List.filter _ _); [|discriminate].
    destruct (last_item_nonempty (index (r1 :: r2 :: rest)))
      as (x & Hx & _); [discriminate|].
    rewrite Hx in H. discriminate.
Qed.

(** C9. The locator raises its no-data [RuntimeError] exactly when the
    series has no bar on the target date.  Otherwise it returns the only
    bar of the day when there is one; with several bars, the first one at
    or after the timestamp built from the date and the requested time of
    day, and the last bar of the day when none is at or after it.  Once
    the day has data the result is a bar of that day.  The time of day is
    a well-formed "HH:MM" string. *)
Theorem find_execution_bar_cases
  (df : MarketData) (target_date : Timestamp) (time_str : string) (h m : Z) :
  parse_HM time_str = Some (h, m) ->
  let same_day := index (bars_on df (date target_date)) in
  let target_time := mkTimestamp (date target_date) h m 0 in
  let found := find_execution_bar df target_date time_str in
  ((exists msg, found = Raise (RuntimeError msg)) <-> same_day = []) /\
  (forall ts, same_day = [ts] -> found = Ok ts) /\
  (forall ts, (2 <= length same_day)%nat ->
     List.find (ts_leb target_time) same_day = Some ts -> found = Ok ts) /\
  ((2 <= length same_day)%nat ->
     List.find (ts_leb target_time) same_day = None ->
     found = Ok (List.last same_day target_date)) /\
  (same_day <> [] ->
     exists ts, found = Ok ts /\ In ts same_day /\ In ts (index df) /\
                date ts = date target_date).
Proof.
  intros Hparse same_day target_time found.
  assert (forall ts, same_day <> [] -> found = Ok ts -> In ts same_day)
    as Hmember.
  { subst found same_day. unfold find_execution_bar.
    destruct (bars_on df (date target_date)) as [|r1 [|r2 rest]];
      intros ts Hne Hfound.
    - congruence.
    - injection Hfound as <-. now left.
    - rewrite (timestamp_at_parsed _ _ _ _ Hparse) in Hfound.
      cbn [mbind result_bind bind] in Hfound.
      destruct (List.filter _ _) as [|t later] eqn:E.
      + destruct (last_item_nonempty (index (r1 :: r2 :: rest)))
          as (x & Hx & Hin); [discriminate|].
        rewrite Hx in Hfound. now injection Hfound as <-.
      + injection Hfound as <-.
        assert (In t (t :: later)) as Hin by now left.
        rewrite <- E in Hin. now apply filter_In in Hin as [Hin _]. }
  assert (same_day <> [] -> exists ts, found = Ok ts) as Hreturns.
  { subst found same_day. unfold find_execution_bar.
    destruct (bars_on df (date target_date)) as [|r1 [|r2 rest]]; intros Hne.
    - now contradiction Hne.
    - eauto.
    - rewrite (timestamp_at_parsed _ _ _ _ Hparse).
      cbn [mbind result_bind bind].
      destruct (List.filter _ _) as [|t later]; [|eauto].
      destruct (last_item_nonempty (index (r1 :: r2 :: rest)))
        as (x & Hx & _); [discriminate|]. eauto. }
  repeat split.
  - intros [msg Hraise]. destruct same_day eqn:E; [reflexivity|].
    destruct Hreturns as [ts Hts]; [discriminate|]. congruence.
  - intros He. subst found same_day. unfold find_execution_bar.
    destruct (bars_on df (date target_date)); [eauto|discriminate].
  - intros ts He. subst found same_day. unfold find_execution_bar.
    destruct (bars_on df (date target_date)) as [|r1 [|r2 rest]];
      simpl in He; congruence.
  - intros ts Hlen Hfind. subst found same_day. unfold find_execution_bar.
    destruct (bars_on df (date target_date)) as [|r1 [|r2 rest]];
      [simpl in Hlen; lia..|].
    rewrite (timestamp_at_parsed _ _ _ _ Hparse).
    cbn [mbind result_bind bind]. fold target_time.
    rewrite filter_head_find in Hfind.
    destruct (List.filter _ _); simpl in Hfind; congruence.
  - intros Hlen Hfind. subst found same_day. unfold find_execution_bar.
    destruct (bars_on df (date target_date)) as [|r1 [|r2 rest]];
      [simpl in Hlen; lia..|].
    rewrite (timestamp_at_parsed _ _ _ _ Hparse).
    cbn [mbind result_bind bind]. fold target_time.
    rewrite filter_head_find in Hfind.
    destruct (List.filter _ _); simpl in Hfind; [|congruence].
    now apply last_item_last.
  - intros Hne. destruct (Hreturns Hne) as [ts Hts].
    exists ts. pose proof (Hmember ts Hne Hts) as Hin.
    apply In_index_bars_on in Hin as Hin'. tauto.
Qed.

End Timing.

Lemma find_execution_bar_cases_witness :
  timing.find_execution_bar december_intraday (at_time 2023 12 26 0 0) "10:30" =
  Ok (at_time 2023 12 26 11 0).
Proof.
  pose proof (find_execution_bar_cases december_intraday
                (at_time 2023 12 26 0 0) "10:30" 10 30 eq_refl) as H.
  cbv zeta in H. destruct H as (_ & _ & H & _).
  apply H.
  - simpl. lia.
  - reflexivity.
Defined.

(** ** Execution simulator *)

Section Simulator.

Import simulator.

Lemma py_min_le_r (a b : Q) : (py_min a b <= b)%Q.
Proof.
  unfold py_min, Qltb. destruct (Qle_bool a b) eqn:E; simpl.
  - now apply Qle_bool_iff.
  - apply Qle_refl.
Qed.

Lemma Qle_bool_false (a b : Q) : Qle_bool a b = false -> (b < a)%Q.
Proof.
  intros E. apply Qnot_le_lt. intros H. apply Qle_bool_iff in H. congruence.
Qed.

Lemma py_min_le_l (a b : Q) : (py_min a b <= a)%Q.
Proof.
  unfold py_min, Qltb. destruct (Qle_bool a b) eqn:E; simpl.
  - apply Qle_refl.
  - apply Qlt_le_weak. now apply Qle_bool_false.
Qed.

Lemma py_min_glb (a b c : Q) : (c <= a)%Q -> (c <= b)%Q -> (c <= py_min a b)%Q.
Proof. unfold py_min. now destruct (Qltb b a). Qed.

Lemma py_max_ge_r (a b : Q) : (b <= py_max a b)%Q.
Proof.
  unfold py_max, Qltb. destruct (Qle_bool b a) eqn:E; simpl.
  - now apply Qle_bool_iff.
  - apply Qle_refl.
Qed.

Lemma py_max_ge_l (a b : Q) : (a <= py_max a b)%Q.
Proof.
  unfold py_max, Qltb. destruct (Qle_bool b a) eqn:E; simpl.
  - apply Qle_refl.
  - apply Qlt_le_weak. now apply Qle_bool_false.
Qed.

Lemma py_max_lub (a b c : Q) : (a <= c)%Q -> (b <= c)%Q -> (py_max a b <= c)%Q.
Proof. unfold py_max. now destruct (Qltb a b). Qed.

Lemma multiplier_nonneg (slippage_bps : Q) :
  (0 <= slippage_bps)%Q -> (0 <= slippage_bps / 10000)%Q.
Proof.
  intros H. unfold Qdiv. apply Qmult_le_0_compat; [assumption|discriminate].
Qed.

Lemma adverse_buy (p m : Q) : (0 <= p)%Q -> (0 <= m)%Q -> (p <= p * (1 + m))%Q.
Proof.
  intros Hp Hm. pose proof (Qmult_le_0_compat p m Hp Hm) as H. lra.
Qed.

Lemma adverse_sell (p m : Q) : (0 <= p)%Q -> (0 <= m)%Q -> (p * (1 - m) <= p)%Q.
Proof.
  intros Hp Hm. pose proof (Qmult_le_0_compat p m Hp Hm) as H. lra.
Qed.

(** The bounds that [_apply_slippage] guarantees on any bar. *)
Lemma apply_slippage_bounds
  (intended_price : Q) (market_bar : Bar) (side : Side) (slippage_bps : Q) :
  (0 <= slippage_bps)%Q ->
  let execution_price :=
    _apply_slippage intended_price market_bar side slippage_bps in
  match side with
  | BUY =>
      (execution_price <= High market_bar)%Q /\
      (execution_price <= intended_price * (1 + slippage_bps / 10000))%Q /\
      ((0 <= intended_price)%Q -> (intended_price <= High market_bar)%Q ->
       (intended_price <= execution_price)%Q)
  | SELL =>
      (Low market_bar <= execution_price)%Q /\
      (intended_price * (1 - slippage_bps / 10000) <= execution_price)%Q /\
      ((0 <= intended_price)%Q -> (Low market_bar <= intended_price)%Q ->
       (execution_price <= intended_price)%Q)
  end.
Proof.
  intros Hs. pose proof (multiplier_nonneg _ Hs) as Hm.
  destruct side; simpl.
  - split; [apply py_min_le_r|]. split; [apply py_min_le_l|].
    intros Hp Hh. apply py_min_glb; [now apply adverse_buy|assumption].
  - split; [apply py_max_ge_r|]. split; [apply py_max_ge_l|].
    intros Hp Hl. apply py_max_lub; [now apply adverse_sell|assumption].
Qed.

(** An executed order comes from the [try] block, which priced it on the
    bar found at or after 09:30 on the day of the order. *)
Lemma execute_order_filled (order : Order) (market_data : MarketData)
  (slippage_bps : Q) (min_liquidity_check : bool) (executed : Order) :
  execute_order order market_data slippage_bps min_liquidity_check =
    Ok (Some executed) ->
  exists execution_time market_bar,
    timing.find_execution_bar market_data (o_time order) "09:30" =
      Ok execution_time /\
    loc market_data execution_time = Scalar market_bar /\
    o_time executed = execution_time /\
    o_side executed = o_side order /\
    o_price executed =
      _apply_slippage (o_price order) market_bar (o_side order) slippage_bps.
Proof.
  unfold execute_order, try_execute.
  destruct (negb (validate_order_timing order market_data)); [discriminate|].
  destruct (timing.find_execution_bar market_data (o_time order) "09:30")
    as [execution_time|e]; cbn [mbind result_bind bind].
  - destruct (loc market_data execution_time) as [|market_bar|] eqn:Hloc;
      [discriminate| |discriminate].
    destruct (min_liquidity_check && _); [discriminate|].
    intros H. injection H as <-. simpl. eauto 10.
  - destruct (caught e); discriminate.
Qed.

(** C2, as the code has it.  For an order executed with a non-negative
    [slippage_bps]: a BUY is priced at most at the High of its execution
    bar and at most at the intended price with slippage, and at least at
    the intended price when that price is non-negative and not above the
    High; a SELL is priced at least at the Low of its execution bar and
    at least at the intended price with slippage, and at most at the
    intended price when that price is non-negative and not below the
    Low. *)
Theorem slippage_bounded_within_bar (order : Order) (market_data : MarketData)
  (slippage_bps : Q) (min_liquidity_check : bool) (executed : Order) :
  (0 <= slippage_bps)%Q ->
  execute_order order market_data slippage_bps min_liquidity_check =
    Ok (Some executed) ->
  exists execution_time market_bar,
    timing.find_execution_bar market_data (o_time order) "09:30" =
      Ok execution_time /\
    loc market_data execution_time = Scalar market_bar /\
    match o_side order with
    | BUY =>
        (o_price executed <= High market_bar)%Q /\
        (o_price executed <= o_price order * (1 + slippage_bps / 10000))%Q /\
        ((0 <= o_price order)%Q -> (o_price order <= High market_bar)%Q ->
         (o_price order <= o_price executed)%Q)
    | SELL =>
        (Low market_bar <= o_price executed)%Q /\
        (o_price order * (1 - slippage_bps / 10000) <= o_price executed)%Q /\
        ((0 <= o_price order)%Q -> (Low market_bar <= o_price order)%Q ->
         (o_price executed <= o_price order)%Q)
    end.
Proof.
  intros Hs Hexec.
  destruct (execute_order_filled _ _ _ _ _ Hexec)
    as (execution_time & market_bar & Hfind & Hloc & _ & _ & Hprice).
  exists execution_time, market_bar. repeat (split; [assumption|]).
  rewrite Hprice.
  apply (apply_slippage_bounds (o_price order) market_bar (o_side order)
           slippage_bps Hs).
Qed.

End Simulator.

Example late_buy_is_generated :
  exists intended,
    christmas_ladder.generate_orders december_intraday 10000 xmas_2023 =
      Ok intended /\
    In late_buy (rows intended).
Proof. eexists. split; [vm_compute; reflexivity|]. now left. Qed.

Lemma slippage_bounded_within_bar_witness :
  exists execution_time market_bar,
    timing.find_execution_bar december_intraday (o_time late_buy) "09:30" =
      Ok execution_time /\
    loc december_intraday execution_time = Scalar market_bar /\
    (o_price late_buy_fill <= High market_bar)%Q /\
    (o_price late_buy_fill <= o_price late_buy * (1 + 1 / 10000))%Q /\
    ((0 <= o_price late_buy)%Q -> (o_price late_buy <= High market_bar)%Q ->
     (o_price late_buy <= o_price late_buy_fill)%Q).
Proof.
  apply (slippage_bounded_within_bar late_buy december_intraday 1 true
           late_buy_fill).
  - discriminate.
  - vm_compute. reflexivity.
Defined.

(** C2 fails as stated.  The BUY placed at the 16:00 close of 2023-12-20
    at the intended price 100 is executed, at one basis point of slippage,
    on the 09:30 bar of that day, whose High is 90: the execution price
    is 90, below the intended price. *)
Lemma slippage_buy_below_intended :
  (0 <= 1)%Q /\
  simulator.execute_orders (mkFrame standard_columns [late_buy])
    december_intraday 1 true =
    Ok (mkFrame executed_columns [late_buy_fill]) /\
  simulator.execute_order late_buy december_intraday 1 true =
    Ok (Some late_buy_fill) /\
  o_side late_buy = BUY /\
  o_price late_buy = 100%Q /\
  o_price late_buy_fill = 90%Q /\
  ~ (o_price late_buy <= o_price late_buy_fill)%Q.
Proof.
  split; [discriminate|].
  split; [vm_compute; reflexivity|].
  split; [vm_compute; reflexivity|].
  repeat split. intros H. vm_compute in H. now apply H.
Qed.

Section SimulatorTiming.

Import simulator.

Lemma midnight_outside_market_hours (ts : Timestamp) :
  hour ts = 0 -> minute ts = 0 ->
  timing.is_market_hours ts "09:30" "16:00" = false.
Proof.
  intros Hh Hm. unfold timing.is_market_hours, strftime_HM.
  rewrite Hh, Hm. reflexivity.
Qed.

Lemma execute_order_midnight (order : Order) (market_data : MarketData)
  (slippage_bps : Q) (min_liquidity_check : bool) :
  hour (o_time order) = 0 -> minute (o_time order) = 0 ->
  execute_order order market_data slippage_bps min_liquidity_check = Ok None.
Proof.
  intros Hh Hm. unfold execute_order, try_execute, validate_order_timing.
  rewrite (midnight_outside_market_hours _ Hh Hm).
  now destruct (negb (mem _ _)).
Qed.

Lemma execute_loop_midnight (intended : list Order) (market_data : MarketData)
  (slippage_bps : Q) (min_liquidity_check : bool) (executed : list Order) :
  Forall (fun o => hour (o_time o) = 0 /\ minute (o_time o) = 0) intended ->
  execute_loop intended market_data slippage_bps min_liquidity_check executed =
  Ok executed.
Proof.
  induction 1 as [|order rest [Hh Hm] _ IH]; simpl; [reflexivity|].
  rewrite (execute_order_midnight _ _ _ _ Hh Hm).
  cbn [mbind result_bind bind]. apply IH.
Qed.

(** C10. When every intended order is stamped at 00:00, as orders placed
    on daily bars are, [execute_orders] drops every order and returns an
    empty table: the clock time "00:00" is outside the inclusive
    "09:30"-"16:00" session check of the timing validation. *)
Theorem execute_orders_midnight_all_dropped
  (orders : OrderFrame) (market_data : MarketData)
  (slippage_bps : Q) (min_liquidity_check : bool) :
  Forall (fun o => hour (o_time o) = 0 /\ minute (o_time o) = 0)
    (rows orders) ->
  Forall (fun o =>
            execute_order o market_data slippage_bps min_liquidity_check =
            Ok None) (rows orders) /\
  exists executed,
    execute_orders orders market_data slippage_bps min_liquidity_check =
      Ok executed /\
    rows executed = [] /\
    columns executed = columns orders.
Proof.
  intros Hmid. split.
  - eapply Forall_impl; [exact Hmid|].
    intros o [Hh Hm]. now apply execute_order_midnight.
  - unfold execute_orders. destruct (empty orders) eqn:He.
    + exists orders. repeat split.
      unfold empty in He. now destruct (rows orders).
    + rewrite (execute_loop_midnight _ _ _ _ _ Hmid).
      cbn [mbind result_bind bind]. eexists. repeat split.
Qed.

End SimulatorTiming.

Lemma execute_orders_midnight_all_dropped_witness :
  exists executed,
    simulator.execute_orders november_orders november_daily 1 true =
      Ok executed /\
    rows executed = [] /\
    columns executed = columns november_orders.
Proof.
  apply (execute_orders_midnight_all_dropped november_orders november_daily
           1 true).
  repeat constructor.
Defined.

(** ** Order generator *)

Section Strategy.

Import christmas_ladder.

Lemma last_item_In {A : Type} (l : list A) (x : A) :
  last_item l = Ok x -> In x l.
Proof.
  unfold last_item. destruct (rev l) as [|y r] eqn:E; [discriminate|].
  intros H. injection H as <-. apply in_rev. rewrite E. now left.
Qed.

(** Whatever the time string, a located bar is a bar of the target day. *)
Lemma find_execution_bar_In
  (df : MarketData) (target_date : Timestamp) (time_str : string)
  (ts : Timestamp) :
  timing.find_execution_bar df target_date time_str = Ok ts ->
  In ts (index (bars_on df (date target_date))).
Proof.
  unfold timing.find_execution_bar.
  destruct (bars_on df (date target_date)) as [|r1 [|r2 rest]]; intros Hfound.
  - discriminate.
  - injection Hfound as <-. now left.
  - destruct (timestamp_at (date target_date) time_str) as [target_time|];
      cbn [mbind result_bind bind] in Hfound; [|discriminate].
    destruct (List.filter _ _) as [|t later] eqn:E.
    + now apply last_item_In.
    + injection Hfound as <-.
      assert (In t (t :: later)) as Hin by now left.
      rewrite <- E in Hin. now apply filter_In in Hin as [Hin _].
Qed.

(** From the last scheduled index on, an iteration that places a sale
    sells the whole position. *)
Lemma sell_step_sells_all
  (df : MarketData) (p : XmasParams) (i : Z) (d : Timestamp) (st st' : Ladder) :
  sell_days p <= i ->
  sell_step df p i d st = Ok (Next st') ->
  position st' = 0.
Proof.
  intros Hi Hstep. unfold sell_step in Hstep.
  destruct (Z.leb_spec (position st) 0) as [Hle|Hpos]; [discriminate|].
  destruct (Z.ltb_spec i (sell_days p)) as [Hlt|_]; [lia|].
  destruct (Z.leb_spec (position st) 0) as [Hle|_]; [lia|].
  destruct (timing.find_execution_bar df d (sell_execution_time p)) as [ts|];
    cbn [mbind result_bind bind] in Hstep; [|discriminate].
  destruct (loc_Close df ts) as [px|];
    cbn [mbind result_bind bind] in Hstep; [|discriminate].
  injection Hstep as <-. simpl. lia.
Qed.

(** C7. Full liquidation: when the sell loop processes the date of index
    [i = sell_days], that is, when the iteration for the last scheduled
    sell date neither breaks on an exhausted position nor raises, the
    running position after that date is 0. *)
Theorem sell_step_full_liquidation
  (df : MarketData) (p : XmasParams) (i : Z) (d : Timestamp) (st st' : Ladder) :
  i = sell_days p ->
  sell_step df p i d st = Ok (Next st') ->
  position st' = 0.
Proof.
  intros Hi. apply sell_step_sells_all. lia.
Qed.

Lemma sell_step_full_liquidation_witness : position sold_out = 0.
Proof.
  apply (sell_step_full_liquidation december_intraday last_day_params 1
           (at_time 2023 12 26 0 0) holding_100 sold_out).
  - reflexivity.
  - vm_compute. reflexivity.
Defined.

(** One iteration of the sell loop never sells more than is held. *)
Lemma sell_step_position (df : MarketData) (p : XmasParams) (i : Z)
  (d : Timestamp) (st st' : Ladder) :
  0 <= position st ->
  sell_step df p i d st = Ok (Next st') ->
  0 <= position st'.
Proof.
  intros Hpos Hstep. unfold sell_step in Hstep.
  destruct (position st <=? 0); [discriminate|].
  destruct (Z.ltb_spec i (sell_days p)) as [Hlt|Hge].
  - destruct (Z.leb_spec (position st / (sell_days p - i + 1)) 0);
      [now injection Hstep as <-|].
    destruct (timing.find_execution_bar df d (sell_execution_time p)) as [ts|];
      cbn [mbind result_bind bind] in Hstep; [|discriminate].
    destruct (loc_Close df ts) as [px|];
      cbn [mbind result_bind bind] in Hstep; [|discriminate].
    injection Hstep as <-. simpl.
    assert (position st / (sell_days p - i + 1) <= position st).
    { apply Z.div_le_upper_bound; nia. }
    lia.
  - destruct (position st <=? 0); [now injection Hstep as <-|].
    destruct (timing.find_execution_bar df d (sell_execution_time p)) as [ts|];
      cbn [mbind result_bind bind] in Hstep; [|discriminate].
    destruct (loc_Close df ts) as [px|];
      cbn [mbind result_bind bind] in Hstep; [|discriminate].
    injection Hstep as <-. simpl. lia.
Qed.

(** When the data holds all [sell_days] sell dates, the sell loop ends
    with no position, whether it breaks early or reaches the last date. *)
Lemma sell_loop_liquidates (df : MarketData) (p : XmasParams)
  (sell_dates : list Timestamp) (i : Z) (st st' : Ladder) :
  sell_dates <> [] ->
  i + Z.of_nat (length sell_dates) = sell_days p + 1 ->
  0 <= position st ->
  sell_loop df p i sell_dates st = Ok st' ->
  position st' = 0.
Proof.
  revert i st. induction sell_dates as [|d rest IH]; intros i st Hne Hlen Hpos;
    [congruence|].
  simpl. destruct (sell_step df p i d st) as [[|st1]|] eqn:Hstep;
    cbn [mbind result_bind bind]; [| |discriminate].
  - intros H. injection H as <-.
    unfold sell_step in Hstep.
    destruct (Z.leb_spec (position st) 0); [lia|].
    destruct (_ <=? 0); [discriminate|].
    destruct (timing.find_execution_bar _ _ _);
      cbn [mbind result_bind bind] in Hstep; [|discriminate].
    destruct (loc_Close _ _); discriminate.
  - destruct rest as [|d' rest'].
    + simpl. intros H. injection H as <-.
      apply (sell_step_sells_all df p i d st st1); [|assumption].
      simpl in Hlen. lia.
    + apply IH.
      * discriminate.
      * simpl in *. lia.
      * now apply (sell_step_position df p i d st).
Qed.

End Strategy.

Section LadderOrdering.

Import christmas_ladder.

(** Candidate dates before a midnight anchor are dates of earlier days,
    those after it dates of later days. *)
Lemma year_date_before (df : MarketData) (anchor : Date) (d : Timestamp) :
  In d (calendar.year_dates df (midnight anchor)) ->
  ts_ltb d (midnight anchor) = true ->
  date_compare (date d) anchor = Lt.
Proof.
  intros Hin Hlt. apply In_year_dates in Hin as (ts & _ & _ & ->).
  now apply ts_ltb_midnight.
Qed.

Lemma year_date_after (df : MarketData) (anchor : Date) (d : Timestamp) :
  In d (calendar.year_dates df (midnight anchor)) ->
  ts_ltb (midnight anchor) d = true ->
  date_compare anchor (date d) = Lt.
Proof.
  intros Hin Hlt. apply In_year_dates in Hin as (ts & _ & _ & ->).
  now apply ts_ltb_midnight.
Qed.

Lemma buy_step_ordered (df : MarketData) (alloc : Q) (xmas d : Timestamp)
  (st st' : Ladder) :
  date_compare (date d) (date xmas) = Lt ->
  Forall (ladder_ordered xmas) (orders st) ->
  buy_step df alloc d st = Ok st' ->
  Forall (ladder_ordered xmas) (orders st').
Proof.
  intros Hd Hinv. unfold buy_step.
  destruct (last_item (index (bars_on df (date d)))) as [ts|] eqn:Hts;
    cbn [mbind result_bind bind]; [|discriminate].
  destruct (loc_Close df ts) as [px|]; cbn [mbind result_bind bind];
    [|discriminate].
  destruct (floor_div alloc px) as [qty|]; cbn [mbind result_bind bind];
    [|discriminate].
  destruct (qty <=? 0); intros H; injection H as <-; [assumption|].
  simpl. apply Forall_app. split; [assumption|].
  constructor; [|constructor].
  unfold ladder_ordered. simpl. apply ts_ltb_of_date.
  apply last_item_In, In_index_bars_on in Hts as [_ Hdate].
  now rewrite Hdate.
Qed.

Lemma buy_loop_ordered (df : MarketData) (alloc : Q) (xmas : Timestamp)
  (buy_dates : list Timestamp) (st st' : Ladder) :
  Forall (fun d => date_compare (date d) (date xmas) = Lt) buy_dates ->
  Forall (ladder_ordered xmas) (orders st) ->
  buy_loop df alloc buy_dates st = Ok st' ->
  Forall (ladder_ordered xmas) (orders st').
Proof.
  intros Hdates. revert st.
  induction Hdates as [|d rest Hd _ IH]; intros st Hinv; simpl.
  - intros H. now injection H as <-.
  - destruct (buy_step df alloc d st) as [st1|] eqn:Hstep;
      cbn [mbind result_bind bind]; [|discriminate].
    apply IH. now apply (buy_step_ordered df alloc xmas d st).
Qed.

Lemma sell_step_ordered (df : MarketData) (p : XmasParams) (i : Z)
  (xmas d : Timestamp) (st st' : Ladder) :
  date_compare (date xmas) (date d) = Lt ->
  Forall (ladder_ordered xmas) (orders st) ->
  sell_step df p i d st = Ok (Next st') ->
  Forall (ladder_ordered xmas) (orders st').
Proof.
  intros Hd Hinv. unfold sell_step.
  destruct (position st <=? 0); [discriminate|].
  destruct (_ <=? 0); [intros H; now injection H as <-|].
  destruct (timing.find_execution_bar df d (sell_execution_time p)) as [ts|]
    eqn:Hts; cbn [mbind result_bind bind]; [|discriminate].
  destruct (loc_Close df ts) as [px|]; cbn [mbind result_bind bind];
    [|discriminate].
  intros H. injection H as <-. simpl.
  apply Forall_app. split; [assumption|].
  constructor; [|constructor].
  unfold ladder_ordered. simpl. apply ts_ltb_of_date.
  apply find_execution_bar_In, In_index_bars_on in Hts as [_ Hdate].
  now rewrite Hdate.
Qed.

Lemma sell_loop_ordered (df : MarketData) (p : XmasParams) (xmas : Timestamp)
  (sell_dates : list Timestamp) (i : Z) (st st' : Ladder) :
  Forall (fun d => date_compare (date xmas) (date d) = Lt) sell_dates ->
  Forall (ladder_ordered xmas) (orders st) ->
  sell_loop df p i sell_dates st = Ok st' ->
  Forall (ladder_ordered xmas) (orders st').
Proof.
  intros Hdates. revert i st.
  induction Hdates as [|d rest Hd _ IH]; intros i st Hinv; simpl.
  - intros H. now injection H as <-.
  - destruct (sell_step df p i d st) as [[|st1]|] eqn:Hstep;
      cbn [mbind result_bind bind]; [| |discriminate].
    + intros H. now injection H as <-.
    + apply IH. now apply (sell_step_ordered df p i xmas d st).
Qed.

(** The dates that the resolver hands to the ladder lie on the two sides
    of the anchor. *)
Lemma resolved_dates_sides (df : MarketData) (anchor : Date)
  (before_days after_days : Z) (pre_dates post_dates : list Timestamp) :
  calendar.get_trading_days_around_date df (midnight anchor)
    before_days after_days = Ok (pre_dates, post_dates) ->
  Forall (fun d => date_compare (date d) anchor = Lt) pre_dates /\
  Forall (fun d => date_compare anchor (date d) = Lt) post_dates.
Proof.
  intros Hres.
  destruct (List.filter (in_year (midnight anchor)) df) eqn:Hy.
  - rewrite get_trading_days_no_data in Hres by assumption. discriminate.
  - rewrite get_trading_days_ok in Hres by congruence.
    injection Hres as <- <-. split; apply List.Forall_forall; intros d Hin.
    + apply In_pick_last_n, filter_In in Hin as [Hin Hlt].
      now apply (year_date_before df).
    + apply In_pick_first_n, filter_In in Hin as [Hin Hlt].
      now apply (year_date_after df).
Qed.

Lemma Forall_sorted {A : Type} (P : A -> Prop) (leb : A -> A -> bool)
  (l : list A) :
  Forall P l -> Forall P (sorted leb l).
Proof.
  rewrite !List.Forall_forall. intros H x Hin. apply H.
  now apply In_sorted in Hin.
Qed.

(** The table that [generate_orders] builds from the final accumulators. *)
Lemma generate_orders_inv (df : MarketData) (cash0 : Q) (p : XmasParams)
  (f : OrderFrame) :
  generate_orders df cash0 p = Ok f ->
  exists buy_dates sell_dates st st',
    calendar.get_trading_days_around_date df (xmas_of p)
      (buy_days p) (sell_days p) = Ok (buy_dates, sell_dates) /\
    buy_loop df
      (cash0 / inject_Z (Z.max (Z.of_nat (length buy_dates)) 1))%Q
      buy_dates (mkLadder [] cash0 0) = Ok st /\
    sell_loop df p 1 sell_dates st = Ok st' /\
    f = mkFrame standard_columns (sorted by_time (orders st')).
Proof.
  unfold generate_orders.
  destruct (calendar.get_trading_days_around_date _ _ _ _)
    as [[buy_dates sell_dates]|]; cbn [mbind result_bind bind]; [|discriminate].
  destruct (buy_loop _ _ _ _) as [st|] eqn:Hbuy;
    cbn [mbind result_bind bind]; [|discriminate].
  destruct (sell_loop _ _ _ _ _) as [st'|] eqn:Hsell;
    cbn [mbind result_bind bind]; [|discriminate].
  intros H. exists buy_dates, sell_dates, st, st'.
  repeat split; try assumption.
  destruct (orders st') eqn:Ho; injection H as <-; reflexivity.
Qed.

(** C8. Ladder ordering: in every order table produced by
    [generate_orders], each BUY is stamped strictly before December 25
    of the strategy year and each SELL strictly after it. *)
Theorem generate_orders_ladder_ordering
  (df : MarketData) (cash0 : Q) (p : XmasParams) (f : OrderFrame) :
  generate_orders df cash0 p = Ok f ->
  Forall (fun o =>
            match o_side o with
            | BUY => ts_ltb (o_time o) (at_time (p_year p) 12 25 0 0) = true
            | SELL => ts_ltb (at_time (p_year p) 12 25 0 0) (o_time o) = true
            end) (rows f).
Proof.
  intros Hgen.
  destruct (generate_orders_inv _ _ _ _ Hgen)
    as (buy_dates & sell_dates & st & st' & Hres & Hbuy & Hsell & ->).
  apply resolved_dates_sides in Hres as [Hpre Hpost].
  simpl. apply Forall_sorted.
  change (Forall (ladder_ordered (xmas_of p)) (orders st')).
  eapply sell_loop_ordered; [exact Hpost| |exact Hsell].
  eapply buy_loop_ordered; [exact Hpre| |exact Hbuy].
  constructor.
Qed.

Lemma generate_orders_ladder_ordering_witness :
  Forall (fun o =>
            match o_side o with
            | BUY => ts_ltb (o_time o) (at_time 2023 12 25 0 0) = true
            | SELL => ts_ltb (at_time 2023 12 25 0 0) (o_time o) = true
            end) (rows december_orders).
Proof.
  apply (generate_orders_ladder_ordering december_intraday 10000 xmas_2023
           december_orders).
  vm_compute. reflexivity.
Defined.

End LadderOrdering.

Section NoDecember.

Import christmas_ladder.




(** A label carried by exactly one row selects that row. *)
Lemma loc_unique (df : MarketData) (ts : Timestamp) (b : Bar) :
  List.NoDup (index df) ->
  In (ts, b) df ->
  loc df ts = Scalar b.
Proof.
  intros Hnd Hin. unfold loc.
  assert (List.filter (fun row => bool_decide (fst row = ts)) df = [(ts, b)])
    as ->; [|reflexivity].
  induction df as [|[t c] df IH]; [contradiction|].
  simpl in Hnd. inversion Hnd as [|? ? Hnot Hnd']; subst.
  simpl. destruct Hin as [Heq|Hin].
  - injection Heq as -> ->.
    rewrite bool_decide_eq_true_2 by reflexivity. f_equal.
    destruct (List.filter _ df) as [|[t' c'] rest] eqn:E; [reflexivity|].
    exfalso. apply Hnot.
    assert (In (t', c') ((t', c') :: rest)) as Hin by now left.
    rewrite <- E in Hin. apply filter_In in Hin as [Hin Ht].
    apply bool_decide_eq_true in Ht. simpl in Ht. subst t'.
    apply in_map_iff. now exists (ts, c').
  - rewrite bool_decide_eq_false_2.
    + now apply IH.
    + simpl. intros ->. apply Hnot. apply in_map_iff. now exists (ts, b).
Qed.

Lemma floor_div_nonpositive (alloc px : Q) (qty : Z) :
  (alloc <= 0)%Q -> (0 < px)%Q -> floor_div alloc px = Ok qty -> qty <= 0.
Proof.
  intros Ha Hp. unfold floor_div.
  destruct (Qeq_bool px 0); [discriminate|].
  intros H. injection H as <-.
  assert (alloc / px <= 0)%Q as Hle.
  { unfold Qdiv. pose proof (Qinv_lt_0_compat px Hp) as Hinv.
    apply (Qle_trans _ (0 * / px)); [|now rewrite Qmult_0_l].
    apply Qmult_le_compat_r; [assumption|now apply Qlt_le_weak]. }
  exact (Qfloor_resp_le (alloc / px) 0 Hle).
Qed.

(** On a well-formed series the buy step of a date that has bars does
    not raise; it only ever appends BUY orders, and none when the
    allocation is not positive. *)
Lemma buy_step_total (df : MarketData) (alloc : Q) (d : Timestamp) (st : Ladder) :
  List.NoDup (index df) ->
  closes_positive df ->
  bars_on df (date d) <> [] ->
  Forall (fun o => o_side o = BUY) (orders st) ->
  exists st',
    buy_step df alloc d st = Ok st' /\
    Forall (fun o => o_side o = BUY) (orders st') /\
    ((alloc <= 0)%Q -> orders st' = orders st).
Proof.
  intros Hnd Hpos Hbars Hinv. unfold buy_step.
  destruct (last_item_nonempty (index (bars_on df (date d))))
    as (ts & Hts & Hin).
  { unfold index. destruct (bars_on df (date d)); [congruence|discriminate]. }
  rewrite Hts. cbn [mbind result_bind bind].
  apply In_index_bars_on in Hin as [Hin _].
  apply in_map_iff in Hin as ([t b] & Ht & Hrow). simpl in Ht. subst t.
  unfold loc_Close. rewrite (loc_unique df ts b Hnd Hrow).
  cbn [mbind result_bind bind].
  unfold closes_positive in Hpos. rewrite List.Forall_forall in Hpos.
  specialize (Hpos _ Hrow). simpl in Hpos.
  destruct (floor_div alloc (Close b)) as [qty|e] eqn:Hdiv.
  - cbn [mbind result_bind bind].
    destruct (Z.leb_spec qty 0) as [Hle|Hgt].
    + exists st. auto.
    + eexists. split; [reflexivity|]. simpl. split.
      * apply Forall_app. split; [assumption|]. now repeat constructor.
      * intros Ha. pose proof (floor_div_nonpositive _ _ _ Ha Hpos Hdiv). lia.
  - exfalso. unfold floor_div in Hdiv.
    destruct (Qeq_bool (Close b) 0) eqn:Hz; [|discriminate].
    apply Qeq_bool_iff in Hz. rewrite Hz in Hpos. now apply Qlt_irrefl in Hpos.
Qed.

Lemma buy_loop_total (df : MarketData) (alloc : Q) (buy_dates : list Timestamp)
  (st : Ladder) :
  List.NoDup (index df) ->
  closes_positive df ->
  Forall (fun d => bars_on df (date d) <> []) buy_dates ->
  Forall (fun o => o_side o = BUY) (orders st) ->
  exists st',
    buy_loop df alloc buy_dates st = Ok st' /\
    Forall (fun o => o_side o = BUY) (orders st') /\
    ((alloc <= 0)%Q -> orders st' = orders st).
Proof.
  intros Hnd Hpos Hdates. revert st.
  induction Hdates as [|d rest Hd _ IH]; intros st Hinv; simpl.
  - exists st. auto.
  - destruct (buy_step_total df alloc d st Hnd Hpos Hd Hinv)
      as (st1 & -> & Hinv1 & Hsame1).
    cbn [mbind result_bind bind].
    destruct (IH st1 Hinv1) as (st' & Hloop & Hinv' & Hsame').
    exists st'. repeat split; try assumption.
    intros Ha. rewrite Hsame', Hsame1; auto.
Qed.

(** Every candidate date has bars in the series. *)
Lemma year_date_has_bars (df : MarketData) (anchor_date d : Timestamp) :
  In d (calendar.year_dates df anchor_date) -> bars_on df (date d) <> [].
Proof.
  intros Hin. apply In_year_dates in Hin as (ts & Hts & _ & ->).
  apply in_map_iff in Hts as (row & <- & Hrow). simpl.
  intros He. assert (In row (bars_on df (date (fst row)))) as Hin.
  { now apply In_bars_on. }
  now rewrite He in Hin.
Qed.

End NoDecember.

Section NoDecemberLadder.

Import christmas_ladder.

Lemma alloc_nonpositive (cash0 : Q) (n : nat) :
  (cash0 <= 0)%Q -> (cash0 / inject_Z (Z.max (Z.of_nat n) 1) <= 0)%Q.
Proof.
  intros Hc. unfold Qdiv.
  assert (0 < inject_Z (Z.max (Z.of_nat n) 1))%Q as Hk.
  { change 0%Q with (inject_Z 0). rewrite <- Zlt_Qlt. lia. }
  apply Qinv_lt_0_compat in Hk.
  apply (Qle_trans _ (0 * / inject_Z (Z.max (Z.of_nat n) 1)));
    [|now rewrite Qmult_0_l].
  apply Qmult_le_compat_r; [assumption|now apply Qlt_le_weak].
Qed.







End NoDecemberLadder.

(** * Further properties *)

(** ** Order of timestamps and sorting *)

Section TimestampOrder.

Lemma ts_ltb_before (a b : Timestamp) : ts_ltb a b = true <-> ts_before a b.
Proof.
  destruct a as [[ya ma da] ha mia na], b as [[yb mb db] hb mib nb].
  unfold ts_ltb, ts_compare, date_compare, ts_before.
  cbn [date year month day hour minute nanos].
  repeat match goal with
         | |- context [?x ?= ?y] =>
             destruct (Z.compare_spec x y); cbn [lex]
         end;
    (split; [intros H'; try discriminate; lia | intros H'; reflexivity || lia]).
Qed.

Lemma ts_leb_not_before (a b : Timestamp) :
  ts_leb a b = true <-> ~ ts_before b a.
Proof.
  rewrite <- ts_ltb_before. unfold ts_leb, ts_ltb.
  rewrite (ts_compare_antisym a b).
  destruct (ts_compare a b); simpl; split; congruence.
Qed.

Lemma ts_leb_trans (a b c : Timestamp) :
  ts_leb a b = true -> ts_leb b c = true -> ts_leb a c = true.
Proof.
  rewrite !ts_leb_not_before. unfold ts_before. lia.
Qed.

Lemma ts_leb_refl (a : Timestamp) : ts_leb a a = true.
Proof. apply ts_leb_not_before. unfold ts_before. lia. Qed.

Lemma ts_ltb_leb (a b : Timestamp) : ts_ltb a b = true -> ts_leb a b = true.
Proof.
  rewrite ts_ltb_before, ts_leb_not_before. unfold ts_before. lia.
Qed.

(** Distinct instants are strictly ordered one way or the other. *)
Lemma ts_leb_ne_ltb (a b : Timestamp) :
  ts_leb a b = true -> a <> b -> ts_ltb a b = true.
Proof.
  rewrite ts_ltb_before, ts_leb_not_before. intros Hle Hne.
  destruct a as [[ya ma da] ha mia na], b as [[yb mb db] hb mib nb].
  unfold ts_before in *. cbn [date year month day hour minute nanos] in *.
  assert (~ (ya = yb /\ ma = mb /\ da = db /\ ha = hb /\ mia = mib /\ na = nb))
    as Hd by (intros (-> & -> & -> & -> & -> & ->); now apply Hne).
  lia.
Qed.

End TimestampOrder.

Section SortedLists.

Context {A : Type} (leb : A -> A -> bool).

Hypothesis leb_total : forall a b, leb a b = false -> leb b a = true.
Hypothesis leb_trans :
  forall a b c, leb a b = true -> leb b c = true -> leb a c = true.

Let R (a b : A) : Prop := leb a b = true.

Lemma insert_sorted_StronglySorted (x : A) (l : list A) :
  StronglySorted R l -> StronglySorted R (insert_sorted leb x l).
Proof.
  induction 1 as [|y r Hr IH Hy]; simpl.
  - repeat constructor.
  - destruct (leb x y) eqn:E.
    + constructor; [now constructor|].
      constructor; [exact E|].
      eapply List.Forall_impl; [|exact Hy].
      intros z Hz. now apply (leb_trans x y z).
    + constructor; [exact IH|].
      eapply Permutation_Forall; [apply insert_sorted_perm|].
      constructor; [now apply leb_total|exact Hy].
Qed.

Lemma sorted_StronglySorted (l : list A) : StronglySorted R (sorted leb l).
Proof.
  induction l as [|x l IH]; simpl; [constructor|].
  now apply insert_sorted_StronglySorted.
Qed.

End SortedLists.

Section SortedSublists.

Context {A : Type} (R : A -> A -> Prop).

Lemma StronglySorted_filter (f : A -> bool) (l : list A) :
  StronglySorted R l -> StronglySorted R (List.filter f l).
Proof.
  induction 1 as [|x l Hl IH Hx]; simpl; [constructor|].
  destruct (f x); [|exact IH].
  constructor; [exact IH|].
  rewrite List.Forall_forall in *. intros y Hy.
  apply Hx. now apply filter_In in Hy.
Qed.

Lemma StronglySorted_firstn (n : nat) (l : list A) :
  StronglySorted R l -> StronglySorted R (firstn n l).
Proof.
  intros H. rewrite <- (firstn_skipn n l) in H.
  now apply StronglySorted_app_1_l in H.
Qed.

Lemma StronglySorted_skipn (n : nat) (l : list A) :
  StronglySorted R l -> StronglySorted R (skipn n l).
Proof.
  intros H. rewrite <- (firstn_skipn n l) in H.
  now apply StronglySorted_app_1_r in H.
Qed.

(** A sorted list without duplicates is strictly sorted, for a strict
    order that holds between distinct ordered elements. *)
Lemma StronglySorted_strict (S : A -> A -> Prop) (l : list A) :
  (forall a b, R a b -> a <> b -> S a b) ->
  StronglySorted R l -> List.NoDup l -> StronglySorted S l.
Proof.
  intros Hstrict. induction 1 as [|x l Hl IH Hx]; intros Hnd;
    [constructor|].
  inversion Hnd as [|? ? Hnot Hnd']; subst.
  constructor; [now apply IH|].
  rewrite List.Forall_forall in *. intros y Hy.
  apply Hstrict; [now apply Hx|]. intros ->. now apply Hnot.
Qed.

End SortedSublists.

Lemma NoDup_filter_list {A : Type} (f : A -> bool) (l : list A) :
  List.NoDup l -> List.NoDup (List.filter f l).
Proof.
  induction 1 as [|x l Hx Hl IH]; simpl; [constructor|].
  destruct (f x); [|exact IH].
  constructor; [|exact IH]. intros Hin. apply Hx.
  now apply filter_In in Hin.
Qed.

Lemma NoDup_firstn_list {A : Type} (n : nat) (l : list A) :
  List.NoDup l -> List.NoDup (firstn n l).
Proof.
  intros H. rewrite <- (firstn_skipn n l) in H.
  now apply NoDup_app_remove_r in H.
Qed.

Lemma NoDup_skipn_list {A : Type} (n : nat) (l : list A) :
  List.NoDup l -> List.NoDup (skipn n l).
Proof.
  intros H. rewrite <- (firstn_skipn n l) in H.
  now apply NoDup_app_remove_l in H.
Qed.

(** ** Calendar resolver, further *)

Section CalendarFurther.

Import calendar.

Lemma get_trading_days_positive_witness :
  exists pre_dates post_dates,
    get_trading_days_around_date december_intraday (at_time 2023 12 25 0 0)
      5 10 = Ok (pre_dates, post_dates) /\
    pre_dates = [at_time 2023 12 20 0 0] /\
    post_dates = [at_time 2023 12 26 0 0].
Proof.
  destruct (get_trading_days_positive december_intraday
              (at_time 2023 12 25 0 0) 5 10)
    as (pre_dates & post_dates & Hres & Hpre & Hpost & _).
  - discriminate.
  - lia.
  - lia.
  - exists pre_dates, post_dates. split; [exact Hres|].
    split; [rewrite Hpre|rewrite Hpost]; reflexivity.
Defined.

Lemma filter_in_year_nil (df : MarketData) (anchor_date : Timestamp) :
  List.filter (in_year anchor_date) df = [] <->
  Forall (fun ts => year (date ts) <> year (date anchor_date)) (index df).
Proof.
  unfold index. rewrite List.Forall_forall. split.
  - intros He ts Hin Hy. apply in_map_iff in Hin as (row & <- & Hrow).
    assert (In row (List.filter (in_year anchor_date) df)) as Hf.
    { apply filter_In. split; [assumption|]. now apply Z.eqb_eq. }
    now rewrite He in Hf.
  - intros Hall. destruct (List.filter _ _) as [|row rest] eqn:E;
      [reflexivity|exfalso].
    assert (In row (row :: rest)) as Hin by now left.
    rewrite <- E in Hin. apply filter_In in Hin as [Hin Hy].
    apply (Hall (fst row)); [now apply in_map|]. now apply Z.eqb_eq in Hy.
Qed.

(** X1. The resolver raises [ValueError] exactly when the series has no
    bar in the anchor's year; it raises nothing else, whatever the
    counts. *)
Theorem resolver_raises_iff_year_absent
  (df : MarketData) (anchor_date : Timestamp) (before_days after_days : Z) :
  (get_trading_days_around_date df anchor_date before_days after_days =
     Raise (ValueError "No data for year") <->
   Forall (fun ts => year (date ts) <> year (date anchor_date)) (index df)) /\
  (forall e,
     get_trading_days_around_date df anchor_date before_days after_days =
       Raise e ->
     e = ValueError "No data for year").
Proof.
  rewrite <- filter_in_year_nil.
  destruct (List.filter (in_year anchor_date) df) as [|row rest] eqn:E.
  - rewrite get_trading_days_no_data by exact E.
    split; [tauto|]. intros e H. now injection H as <-.
  - rewrite get_trading_days_ok by (rewrite E; discriminate).
    split; [split; discriminate|discriminate].
Qed.

(** X2. Every date the resolver returns is the midnight of a day of the
    anchor's year on which the series has bars; the dates of [pre_dates]
    are strictly before the anchor and those of [post_dates] strictly
    after it, whatever the counts. *)
Theorem resolver_dates_come_from_data
  (df : MarketData) (anchor_date : Timestamp) (before_days after_days : Z)
  (pre_dates post_dates : list Timestamp) :
  get_trading_days_around_date df anchor_date before_days after_days =
    Ok (pre_dates, post_dates) ->
  Forall (fun d => ts_ltb d anchor_date = true /\
                   d = midnight (date d) /\
                   year (date d) = year (date anchor_date) /\
                   bars_on df (date d) <> []) pre_dates /\
  Forall (fun d => ts_ltb anchor_date d = true /\
                   d = midnight (date d) /\
                   year (date d) = year (date anchor_date) /\
                   bars_on df (date d) <> []) post_dates.
Proof.
  intros Hres.
  destruct (List.filter (in_year anchor_date) df) eqn:Hy.
  { rewrite get_trading_days_no_data in Hres by assumption. discriminate. }
  rewrite get_trading_days_ok in Hres by congruence.
  injection Hres as <- <-.
  split; apply List.Forall_forall; intros d Hin;
    [apply In_pick_last_n in Hin|apply In_pick_first_n in Hin];
    apply filter_In in Hin as [Hin Hside];
    (split; [exact Hside|]);
    pose proof (year_date_has_bars df anchor_date d Hin) as Hbars;
    apply In_year_dates in Hin as (ts & _ & Hyear & ->);
    repeat split; assumption.
Qed.

Lemma resolver_dates_come_from_data_witness :
  Forall (fun d => ts_ltb d (at_time 2023 12 25 0 0) = true /\
                   d = midnight (date d) /\
                   year (date d) = 2023 /\
                   bars_on december_intraday (date d) <> [])
    (fst december_resolved) /\
  Forall (fun d => ts_ltb (at_time 2023 12 25 0 0) d = true /\
                   d = midnight (date d) /\
                   year (date d) = 2023 /\
                   bars_on december_intraday (date d) <> [])
    (snd december_resolved).
Proof.
  apply (resolver_dates_come_from_data december_intraday
           (at_time 2023 12 25 0 0) 5 10).
  vm_compute. reflexivity.
Defined.

End CalendarFurther.

Section CalendarOrder.

Import calendar.

Lemma year_dates_ascending (df : MarketData) (anchor_date : Timestamp) :
  ascending (year_dates df anchor_date).
Proof.
  unfold ascending, year_dates. apply sorted_StronglySorted.
  - apply ts_leb_total.
  - apply ts_leb_trans.
Qed.

Lemma pick_last_n_keeps (P : list Timestamp -> Prop) (dates : list Timestamp)
  (n : Z) :
  (forall k, P dates -> P (skipn k dates)) ->
  P dates -> P (_pick_last_n dates n).
Proof.
  intros Hskip H. unfold _pick_last_n, slice_from.
  destruct (_ >=? _); [now apply Hskip|exact H].
Qed.

Lemma pick_first_n_keeps (P : list Timestamp -> Prop) (dates : list Timestamp)
  (n : Z) :
  (forall k, P dates -> P (firstn k dates)) ->
  P dates -> P (_pick_first_n dates n).
Proof.
  intros Hfirst H. unfold _pick_first_n, slice_to.
  destruct (_ >=? _); [now apply Hfirst|exact H].
Qed.

(** X3. The two lists of dates that the resolver returns are strictly
    ascending (sorted, without duplicates), whatever the order and the
    granularity of the bars of the series. *)
Theorem resolver_dates_strictly_ascending
  (df : MarketData) (anchor_date : Timestamp) (before_days after_days : Z)
  (pre_dates post_dates : list Timestamp) :
  get_trading_days_around_date df anchor_date before_days after_days =
    Ok (pre_dates, post_dates) ->
  strictly_ascending pre_dates /\ strictly_ascending post_dates.
Proof.
  intros Hres.
  destruct (List.filter (in_year anchor_date) df) eqn:Hy.
  { rewrite get_trading_days_no_data in Hres by assumption. discriminate. }
  rewrite get_trading_days_ok in Hres by congruence.
  injection Hres as <- <-.
  pose proof (year_dates_ascending df anchor_date) as Hsorted.
  pose proof (NoDup_year_dates df anchor_date) as Hnodup.
  unfold strictly_ascending.
  split;
    (apply (StronglySorted_strict (fun a b => ts_leb a b = true));
     [apply ts_leb_ne_ltb| |]).
  - apply pick_last_n_keeps; [intros k; apply StronglySorted_skipn|].
    now apply StronglySorted_filter.
  - apply pick_last_n_keeps; [intros k; apply NoDup_skipn_list|].
    now apply NoDup_filter_list.
  - apply pick_first_n_keeps; [intros k; apply StronglySorted_firstn|].
    now apply StronglySorted_filter.
  - apply pick_first_n_keeps; [intros k; apply NoDup_firstn_list|].
    now apply NoDup_filter_list.
Qed.

Lemma resolver_dates_strictly_ascending_witness :
  strictly_ascending (fst november_resolved) /\
  strictly_ascending (snd november_resolved).
Proof.
  apply (resolver_dates_strictly_ascending november_daily
           (at_time 2023 12 25 0 0) 5 10).
  vm_compute. reflexivity.
Defined.

End CalendarOrder.

(** ** Session hours and session bounds *)

Section SessionHours.

Import timing.

(** X5. With the default session bounds, [is_market_hours] agrees with
    the clock: a timestamp with a valid time of day is inside the session
    exactly when its minute of the day lies between 09:30 (570) and 16:00
    (960), both included; seconds past 16:00 do not count. *)
Theorem is_market_hours_clock (ts : Timestamp) :
  valid_clock ts ->
  (is_market_hours ts "09:30" "16:00" = true <->
   570 <= 60 * hour ts + minute ts <= 960).
Proof.
  intros [Hh Hm].
  assert (forallb
            (fun i =>
               forallb
                 (fun j =>
                    Bool.eqb
                      (is_market_hours
                         (mkTimestamp (date ts) (Z.of_nat i) (Z.of_nat j)
                            (nanos ts)) "09:30" "16:00")
                      ((570 <=? 60 * Z.of_nat i + Z.of_nat j) &&
                       (60 * Z.of_nat i + Z.of_nat j <=? 960)))
                 (seq 0 60))
            (seq 0 24) = true) as Hall by (vm_compute; reflexivity).
  assert (In (Z.to_nat (hour ts)) (seq 0 24)) as Hi by (apply in_seq; lia).
  assert (In (Z.to_nat (minute ts)) (seq 0 60)) as Hj by (apply in_seq; lia).
  pose proof (proj1 (forallb_forall _ _) Hall _ Hi) as Hrow.
  pose proof (proj1 (forallb_forall _ _) Hrow _ Hj) as Hcell.
  cbv beta in Hcell. rewrite !Z2Nat.id in Hcell by lia.
  apply Bool.eqb_prop in Hcell.
  replace (mkTimestamp (date ts) (hour ts) (minute ts) (nanos ts)) with ts
    in Hcell by now destruct ts.
  rewrite Hcell, andb_true_iff, Z.leb_le, Z.leb_le. tauto.
Qed.

Lemma is_market_hours_clock_witness :
  is_market_hours (at_time 2023 12 26 16 0) "09:30" "16:00" = true <->
  570 <= 60 * 16 + 0 <= 960.
Proof.
  apply (is_market_hours_clock (at_time 2023 12 26 16 0)).
  unfold valid_clock. simpl. lia.
Defined.

Lemma index_bars_on (df : MarketData) (d : Date) :
  index (bars_on df d) =
  List.filter (fun ts => bool_decide (date ts = d)) (index df).
Proof.
  unfold index, bars_on. induction df as [|[t b] df IH]; simpl;
    [reflexivity|].
  destruct (bool_decide (date t = d)); simpl; now rewrite IH.
Qed.

(** X6. [get_market_open_close] raises its [RuntimeError] exactly when
    the series has no bar on the date, which is also exactly when the
    locator raises its no-data error; otherwise it returns the first and
    the last bar of that day in row order, both stamped on that date. *)
Theorem market_open_close_cases (df : MarketData) (date_ : Timestamp)
  (time_str : string) :
  let same_day := index (bars_on df (date date_)) in
  ((exists msg, get_market_open_close df date_ = Raise (RuntimeError msg)) <->
   same_day = []) /\
  ((exists msg, get_market_open_close df date_ = Raise (RuntimeError msg)) <->
   (exists msg,
      find_execution_bar df date_ time_str = Raise (RuntimeError msg))) /\
  (same_day <> [] ->
   exists market_open market_close,
     get_market_open_close df date_ = Ok (market_open, market_close) /\
     hd_error same_day = Some market_open /\
     List.last same_day market_open = market_close /\
     date market_open = date date_ /\
     date market_close = date date_).
Proof.
  intros same_day.
  assert ((exists msg,
             get_market_open_close df date_ = Raise (RuntimeError msg)) <->
          bars_on df (date date_) = []) as Hraise.
  { unfold get_market_open_close.
    destruct (bars_on df (date date_)) as [|row rest] eqn:E.
    - split; eauto.
    - destruct (last_item_nonempty (index (row :: rest))) as (c & -> & _);
        [discriminate|].
      cbn [mbind result_bind bind].
      split; [intros [msg H]; discriminate|discriminate]. }
  assert (same_day = [] <-> bars_on df (date date_) = []) as Hnil.
  { subst same_day. unfold index.
    destruct (bars_on df (date date_)); simpl; split; congruence. }
  split; [now rewrite Hnil|].
  split; [now rewrite find_execution_bar_no_data|].
  intros Hne.
  assert (forall ts, In ts same_day -> date ts = date date_) as Hday.
  { intros ts Hin. now apply In_index_bars_on in Hin. }
  subst same_day. unfold get_market_open_close.
  destruct (bars_on df (date date_)) as [|row rest] eqn:E;
    [now contradiction Hne|].
  destruct (last_item_nonempty (index (row :: rest))) as (c & Hc & Hin);
    [discriminate|].
  pose proof (last_item_last (index (row :: rest)) (fst row)
                ltac:(discriminate)) as Hlast.
  rewrite Hc in Hlast. injection Hlast as Hlast.
  rewrite Hc. cbn [mbind result_bind bind].
  exists (fst row), c. split; [reflexivity|].
  split; [reflexivity|]. split; [now symmetry|].
  split; apply Hday; [now left|exact Hin].
Qed.

End SessionHours.

Lemma market_open_close_cases_witness :
  exists market_open market_close,
    timing.get_market_open_close december_intraday (at_time 2023 12 26 0 0) =
      Ok (market_open, market_close) /\
    hd_error (index (bars_on december_intraday (mkDate 2023 12 26))) =
      Some market_open /\
    List.last (index (bars_on december_intraday (mkDate 2023 12 26)))
      market_open = market_close /\
    date market_open = mkDate 2023 12 26 /\
    date market_close = mkDate 2023 12 26.
Proof.
  apply (market_open_close_cases december_intraday (at_time 2023 12 26 0 0)
           "10:30").
  vm_compute. discriminate.
Defined.

Section SessionBounds.

Import timing.

Lemma get_market_open_close_inv (df : MarketData) (date_ : Timestamp)
  (market_open market_close : Timestamp) :
  get_market_open_close df date_ = Ok (market_open, market_close) ->
  exists row rest,
    bars_on df (date date_) = row :: rest /\
    market_open = fst row /\
    last_item (index (row :: rest)) = Ok market_close.
Proof.
  unfold get_market_open_close.
  destruct (bars_on df (date date_)) as [|row rest]; [discriminate|].
  destruct (last_item (index (row :: rest))) as [c|] eqn:Hc;
    cbn [mbind result_bind bind]; [|discriminate].
  intros H. injection H as <- <-. eauto.
Qed.

Lemma StronglySorted_le_last {A : Type} (R : A -> A -> Prop) (l : list A)
  (x c : A) :
  (forall a, R a a) ->
  StronglySorted R l -> last_item l = Ok c -> In x l -> R x c.
Proof.
  intros Hrefl Hs Hc Hin.
  assert (l <> []) as Hne by (intros ->; contradiction).
  rewrite (last_item_last l x Hne) in Hc. injection Hc as <-.
  clear Hne. induction Hs as [|y l Hl IH Hy]; [contradiction|].
  destruct l as [|z l'].
  - destruct Hin as [->|[]]. apply Hrefl.
  - destruct Hin as [->|Hin].
    + rewrite List.Forall_forall in Hy. apply Hy.
      change (In (List.last (z :: l') x) (z :: l')).
      destruct (exists_last (l:=z :: l')) as (l0 & a & E); [discriminate|].
      rewrite E, last_last. apply in_or_app. right. now left.
    + now apply IH.
Qed.

(** X7. On a series whose timestamps are in ascending order, the session
    bounds enclose the day: every bar of the day, and so the bar that the
    locator returns for any time of day, lies between [market_open] and
    [market_close]. *)
Theorem session_bounds_enclose_day (df : MarketData) (date_ : Timestamp)
  (market_open market_close : Timestamp) :
  ascending (index df) ->
  get_market_open_close df date_ = Ok (market_open, market_close) ->
  Forall (fun ts => ts_leb market_open ts = true /\
                    ts_leb ts market_close = true)
    (index (bars_on df (date date_))) /\
  (forall time_str ts,
     find_execution_bar df date_ time_str = Ok ts ->
     ts_leb market_open ts = true /\ ts_leb ts market_close = true).
Proof.
  intros Hasc Hres.
  apply get_market_open_close_inv in Hres as (row & rest & Hbars & -> & Hc).
  assert (StronglySorted (fun a b => ts_leb a b = true)
            (index (bars_on df (date date_)))) as Hs.
  { rewrite index_bars_on. now apply StronglySorted_filter. }
  assert (forall ts, In ts (index (bars_on df (date date_))) ->
                     ts_leb (fst row) ts = true /\
                     ts_leb ts market_close = true) as Hall.
  { rewrite Hbars in *. intros ts Hin. split.
    - simpl in Hs, Hin. inversion Hs as [|? ? _ Hfirst]; subst.
      destruct Hin as [<-|Hin]; [apply ts_leb_refl|].
      rewrite List.Forall_forall in Hfirst. now apply Hfirst.
    - eapply (StronglySorted_le_last _ _ ts market_close ts_leb_refl Hs Hc Hin).
  }
  split.
  - now apply List.Forall_forall.
  - intros time_str ts Hfound. apply Hall.
    now apply find_execution_bar_In in Hfound.
Qed.

Lemma session_bounds_enclose_day_witness :
  Forall (fun ts => ts_leb (at_time 2023 12 26 9 30) ts = true /\
                    ts_leb ts (at_time 2023 12 26 16 0) = true)
    (index (bars_on december_intraday (mkDate 2023 12 26))) /\
  (forall time_str ts,
     find_execution_bar december_intraday (at_time 2023 12 26 0 0) time_str =
       Ok ts ->
     ts_leb (at_time 2023 12 26 9 30) ts = true /\
     ts_leb ts (at_time 2023 12 26 16 0) = true).
Proof.
  apply (session_bounds_enclose_day december_intraday (at_time 2023 12 26 0 0)).
  - unfold ascending. repeat constructor.
  - vm_compute. reflexivity.
Defined.

End SessionBounds.

Section LocatorBounds.

Import timing.

Lemma ts_ltb_not_leb (a b : Timestamp) :
  ts_ltb a b = true -> ts_leb b a = false.
Proof.
  unfold ts_ltb, ts_leb. rewrite (ts_compare_antisym a b).
  now destruct (ts_compare a b).
Qed.

Lemma no_later_bars (target_time : Timestamp) (l : list Timestamp) :
  Forall (fun ts => ts_ltb ts target_time = true) l ->
  List.filter (fun ts => ts_leb target_time ts) l = [].
Proof.
  induction 1 as [|ts l Hts _ IH]; [reflexivity|].
  simpl. now rewrite (ts_ltb_not_leb _ _ Hts).
Qed.

(** X8. The locator meets the session bounds at both ends.  For a
    well-formed time of day: when the target instant is at or before the
    first bar of the day the locator returns [market_open], and when every
    bar of the day is strictly before the target instant it falls back to
    [market_close]. *)
Theorem locator_meets_session_bounds (df : MarketData) (date_ : Timestamp)
  (time_str : string) (h m : Z) (market_open market_close : Timestamp) :
  parse_HM time_str = Some (h, m) ->
  get_market_open_close df date_ = Ok (market_open, market_close) ->
  let target_time := mkTimestamp (date date_) h m 0 in
  (ts_leb target_time market_open = true ->
   find_execution_bar df date_ time_str = Ok market_open) /\
  (Forall (fun ts => ts_ltb ts target_time = true)
     (index (bars_on df (date date_))) ->
   find_execution_bar df date_ time_str = Ok market_close).
Proof.
  intros Hparse Hres target_time.
  apply get_market_open_close_inv in Hres as (row & rest & Hbars & -> & Hc).
  unfold find_execution_bar. rewrite Hbars.
  destruct rest as [|row2 rest].
  - injection Hc as <-. split; reflexivity.
  - rewrite (timestamp_at_parsed _ _ _ _ Hparse).
    cbn [mbind result_bind bind]. fold target_time. split.
    + intros Hle. simpl. now rewrite Hle.
    + intros Hall. now rewrite (no_later_bars _ _ Hall).
Qed.

Lemma locator_meets_session_bounds_witness :
  (ts_leb (at_time 2023 12 26 9 0) (at_time 2023 12 26 9 30) = true ->
   find_execution_bar december_intraday (at_time 2023 12 26 0 0) "09:00" =
     Ok (at_time 2023 12 26 9 30)) /\
  (Forall (fun ts => ts_ltb ts (at_time 2023 12 26 9 0) = true)
     (index (bars_on december_intraday (mkDate 2023 12 26))) ->
   find_execution_bar december_intraday (at_time 2023 12 26 0 0) "09:00" =
     Ok (at_time 2023 12 26 16 0)).
Proof.
  apply (locator_meets_session_bounds december_intraday
           (at_time 2023 12 26 0 0) "09:00" 9 0).
  - reflexivity.
  - vm_compute. reflexivity.
Defined.

End LocatorBounds.

(** ** Order generator, further *)

Section LadderInvariant.

Import christmas_ladder.

Lemma side_qty_app (s : Side) (l : list Order) (o : Order) :
  side_qty s (l ++ [o]) =
  side_qty s l + (if bool_decide (o_side o = s) then o_qty o else 0).
Proof.
  unfold side_qty. induction l as [|x l IH]; simpl.
  - destruct (bool_decide (o_side o = s)); simpl; lia.
  - destruct (bool_decide (o_side x = s)); simpl; lia.
Qed.

Lemma side_qty_perm (s : Side) (l l' : list Order) :
  Permutation l l' -> side_qty s l = side_qty s l'.
Proof.
  unfold side_qty. induction 1 as [|x l l' _ IH|x y l|l l' l'' _ IH1 _ IH2];
    simpl.
  - reflexivity.
  - destruct (bool_decide (o_side x = s)); simpl; lia.
  - destruct (bool_decide (o_side x = s)), (bool_decide (o_side y = s));
      simpl; lia.
  - congruence.
Qed.

Lemma ladder_inv_start (cash0 : Q) : ladder_inv (mkLadder [] cash0 0).
Proof. unfold ladder_inv. simpl. repeat split; [lia|constructor]. Qed.

Lemma buy_step_inv (df : MarketData) (alloc : Q) (d : Timestamp)
  (st st' : Ladder) :
  ladder_inv st -> buy_step df alloc d st = Ok st' -> ladder_inv st'.
Proof.
  intros (Hpos & Hqty & Hwf). unfold buy_step.
  destruct (last_item _) as [ts|]; cbn [mbind result_bind bind];
    [|discriminate].
  destruct (loc_Close df ts) as [px|]; cbn [mbind result_bind bind];
    [|discriminate].
  destruct (floor_div alloc px) as [qty|]; cbn [mbind result_bind bind];
    [|discriminate].
  destruct (Z.leb_spec qty 0) as [Hle|Hgt]; intros H; injection H as <-.
  - now repeat split.
  - unfold ladder_inv. simpl. rewrite !side_qty_app. simpl.
    repeat split; [lia|lia|].
    apply Forall_app. split; [assumption|].
    constructor; [|constructor]. now repeat split.
Qed.

Lemma buy_loop_inv (df : MarketData) (alloc : Q) (buy_dates : list Timestamp)
  (st st' : Ladder) :
  ladder_inv st -> buy_loop df alloc buy_dates st = Ok st' -> ladder_inv st'.
Proof.
  revert st. induction buy_dates as [|d rest IH]; intros st Hinv; simpl.
  - intros H. now injection H as <-.
  - destruct (buy_step df alloc d st) as [st1|] eqn:Hstep;
      cbn [mbind result_bind bind]; [|discriminate].
    apply IH. now apply (buy_step_inv df alloc d st).
Qed.

Lemma sell_step_inv (df : MarketData) (p : XmasParams) (i : Z) (d : Timestamp)
  (st st' : Ladder) :
  ladder_inv st -> sell_step df p i d st = Ok (Next st') -> ladder_inv st'.
Proof.
  intros Hinv Hstep.
  pose proof (sell_step_position df p i d st st' (proj1 Hinv) Hstep) as Hpos'.
  destruct Hinv as (Hpos & Hqty & Hwf). unfold sell_step in Hstep.
  destruct (position st <=? 0); [discriminate|].
  match type of Hstep with
  | context [if ?q <=? 0 then _ else _] =>
      destruct (Z.leb_spec q 0) as [Hle|Hgt]
  end.
  - injection Hstep as <-. now repeat split.
  - destruct (timing.find_execution_bar df d (sell_execution_time p)) as [ts|];
      cbn [mbind result_bind bind] in Hstep; [|discriminate].
    destruct (loc_Close df ts) as [px|];
      cbn [mbind result_bind bind] in Hstep; [|discriminate].
    injection Hstep as <-. unfold ladder_inv. simpl in *.
    rewrite !side_qty_app. simpl.
    repeat split; [lia|lia|].
    apply Forall_app. split; [assumption|].
    constructor; [|constructor]. now repeat split.
Qed.

Lemma sell_loop_inv (df : MarketData) (p : XmasParams)
  (sell_dates : list Timestamp) (i : Z) (st st' : Ladder) :
  ladder_inv st -> sell_loop df p i sell_dates st = Ok st' -> ladder_inv st'.
Proof.
  revert i st. induction sell_dates as [|d rest IH]; intros i st Hinv; simpl.
  - intros H. now injection H as <-.
  - destruct (sell_step df p i d st) as [[|st1]|] eqn:Hstep;
      cbn [mbind result_bind bind]; [| |discriminate].
    + intros H. now injection H as <-.
    + apply IH. now apply (sell_step_inv df p i d st).
Qed.

(** The accumulators behind a generated table satisfy the invariant. *)
Lemma generate_orders_ladder (df : MarketData) (cash0 : Q) (p : XmasParams)
  (f : OrderFrame) :
  generate_orders df cash0 p = Ok f ->
  exists st',
    ladder_inv st' /\
    columns f = standard_columns /\
    Permutation (orders st') (rows f).
Proof.
  intros Hgen.
  destruct (generate_orders_inv _ _ _ _ Hgen)
    as (buy_dates & sell_dates & st & st' & _ & Hbuy & Hsell & ->).
  exists st'. split; [|split; [reflexivity|apply sorted_perm]].
  apply (sell_loop_inv _ _ _ _ _ _ (buy_loop_inv _ _ _ _ _
           (ladder_inv_start cash0) Hbuy) Hsell).
Qed.

End LadderInvariant.

Section LadderTables.

Import christmas_ladder.

(** X9. Every row of a table produced by [generate_orders] has a
    positive quantity, the signed value of its side ([-qty * price] for a
    BUY, [qty * price] for a SELL) and no execution column; the table has
    the five standard columns. *)
Theorem generate_orders_rows_well_formed
  (df : MarketData) (cash0 : Q) (p : XmasParams) (f : OrderFrame) :
  generate_orders df cash0 p = Ok f ->
  columns f = standard_columns /\
  Forall (fun o =>
            0 < o_qty o /\
            o_value o =
              match o_side o with
              | BUY => (- (inject_Z (o_qty o) * o_price o))%Q
              | SELL => (inject_Z (o_qty o) * o_price o)%Q
              end /\
            o_original_time o = None /\
            o_slippage_bps o = None) (rows f).
Proof.
  intros Hgen.
  destruct (generate_orders_ladder _ _ _ _ Hgen)
    as (st' & (_ & _ & Hwf) & Hcols & Hperm).
  split; [exact Hcols|].
  eapply Permutation_Forall; [exact Hperm|exact Hwf].
Qed.

Lemma generate_orders_rows_well_formed_witness :
  columns december_orders = standard_columns /\
  Forall (fun o =>
            0 < o_qty o /\
            o_value o =
              match o_side o with
              | BUY => (- (inject_Z (o_qty o) * o_price o))%Q
              | SELL => (inject_Z (o_qty o) * o_price o)%Q
              end /\
            o_original_time o = None /\
            o_slippage_bps o = None) (rows december_orders).
Proof.
  apply (generate_orders_rows_well_formed december_intraday 10000 xmas_2023).
  vm_compute. reflexivity.
Defined.

(** X10. The ladder never sells what it has not bought: in every table
    produced by [generate_orders] the total SELL quantity is at most the
    total BUY quantity. *)
Theorem generate_orders_never_oversells
  (df : MarketData) (cash0 : Q) (p : XmasParams) (f : OrderFrame) :
  generate_orders df cash0 p = Ok f ->
  side_qty SELL (rows f) <= side_qty BUY (rows f).
Proof.
  intros Hgen.
  destruct (generate_orders_ladder _ _ _ _ Hgen)
    as (st' & (Hpos & Hqty & _) & _ & Hperm).
  rewrite <- (side_qty_perm SELL _ _ Hperm), <- (side_qty_perm BUY _ _ Hperm).
  lia.
Qed.

Lemma generate_orders_never_oversells_witness :
  side_qty SELL (rows december_orders) <= side_qty BUY (rows december_orders).
Proof.
  apply (generate_orders_never_oversells december_intraday 10000 xmas_2023).
  vm_compute. reflexivity.
Defined.

(** X11. Full liquidation of the table: when the data holds at least
    [sell_days >= 1] trading days after December 25 of the strategy year,
    the total SELL quantity of the generated table equals its total BUY
    quantity. *)
Theorem generate_orders_sells_everything
  (df : MarketData) (cash0 : Q) (p : XmasParams) (f : OrderFrame) :
  1 <= sell_days p ->
  sell_days p <=
    Z.of_nat (length (List.filter (after (xmas_of p))
                        (calendar.year_dates df (xmas_of p)))) ->
  generate_orders df cash0 p = Ok f ->
  side_qty SELL (rows f) = side_qty BUY (rows f).
Proof.
  intros Hdays Havail Hgen.
  destruct (generate_orders_inv _ _ _ _ Hgen)
    as (buy_dates & sell_dates & st & st' & Hres & Hbuy & Hsell & ->).
  pose proof (buy_loop_inv _ _ _ _ _ (ladder_inv_start cash0) Hbuy) as Hinv.
  pose proof (sell_loop_inv _ _ _ _ _ _ Hinv Hsell) as (_ & Hqty & _).
  assert (sell_dates =
          firstn (Z.to_nat (sell_days p))
            (List.filter (after (xmas_of p))
               (calendar.year_dates df (xmas_of p)))) as Hdates.
  { destruct (List.filter (in_year (xmas_of p)) df) eqn:Hy.
    - rewrite get_trading_days_no_data in Hres by assumption. discriminate.
    - rewrite get_trading_days_ok in Hres by congruence.
      injection Hres as _ <-. apply pick_first_n_nonneg. lia. }
  assert (length sell_dates = Z.to_nat (sell_days p)) as Hlen.
  { rewrite Hdates, length_firstn. lia. }
  assert (position st' = 0) as Hzero.
  { apply (sell_loop_liquidates df p sell_dates 1 st st'); try assumption.
    - intros ->. simpl in Hlen. lia.
    - lia.
    - apply Hinv. }
  cbn [rows].
  rewrite <- (side_qty_perm SELL _ _ (sorted_perm by_time (orders st'))),
    <- (side_qty_perm BUY _ _ (sorted_perm by_time (orders st'))).
  lia.
Qed.

Lemma generate_orders_sells_everything_witness :
  side_qty SELL (rows last_day_orders) = side_qty BUY (rows last_day_orders).
Proof.
  apply (generate_orders_sells_everything december_intraday 10000
           last_day_params).
  - simpl. lia.
  - vm_compute. discriminate.
  - vm_compute. reflexivity.
Defined.

End LadderTables.

Section LadderCash.

Import christmas_ladder.

Lemma buy_cost_app (l : list Order) (o : Order) :
  (buy_cost (l ++ [o]) == buy_cost l + buy_cost [o])%Q.
Proof.
  induction l as [|x l IH]; simpl.
  - destruct (o_side o); ring.
  - destruct (o_side x); rewrite IH; simpl; destruct (o_side o); ring.
Qed.

Lemma loc_Close_positive (df : MarketData) (ts : Timestamp) (px : Q) :
  closes_positive df -> loc_Close df ts = Ok px -> (0 < px)%Q.
Proof.
  intros Hpos. unfold loc_Close, loc.
  destruct (List.filter _ df) as [|row [|row' rest]] eqn:E; try discriminate.
  intros H. injection H as <-.
  assert (In row [row]) as Hin by now left.
  rewrite <- E in Hin. apply filter_In in Hin as [Hin _].
  unfold closes_positive in Hpos. rewrite List.Forall_forall in Hpos.
  now apply Hpos.
Qed.

Lemma floor_div_cost (alloc px : Q) (qty : Z) :
  (0 < px)%Q -> floor_div alloc px = Ok qty ->
  (inject_Z qty * px <= alloc)%Q.
Proof.
  intros Hp. unfold floor_div.
  destruct (Qeq_bool px 0); [discriminate|].
  intros H. injection H as <-.
  apply (Qle_trans _ (alloc / px * px)).
  - apply Qmult_le_compat_r;
      [exact (Qfloor_le (alloc / px))|now apply Qlt_le_weak].
  - assert (alloc / px * px == alloc)%Q as ->; [|apply Qle_refl].
    field. intros Hz. rewrite Hz in Hp. now apply Qlt_irrefl in Hp.
Qed.

Lemma buy_step_cost (df : MarketData) (alloc : Q) (d : Timestamp)
  (st st' : Ladder) :
  closes_positive df -> (0 <= alloc)%Q ->
  buy_step df alloc d st = Ok st' ->
  (buy_cost (orders st') <= buy_cost (orders st) + alloc)%Q.
Proof.
  intros Hpos Ha. unfold buy_step.
  destruct (last_item _) as [ts|]; cbn [mbind result_bind bind];
    [|discriminate].
  destruct (loc_Close df ts) as [px|] eqn:Hpx; cbn [mbind result_bind bind];
    [|discriminate].
  destruct (floor_div alloc px) as [qty|] eqn:Hq; cbn [mbind result_bind bind];
    [|discriminate].
  pose proof (floor_div_cost _ _ _ (loc_Close_positive _ _ _ Hpos Hpx) Hq)
    as Hcost.
  destruct (qty <=? 0); intros H; injection H as <-.
  - lra.
  - cbn [orders]. rewrite buy_cost_app. simpl. lra.
Qed.

Lemma buy_loop_cost (df : MarketData) (alloc : Q) (buy_dates : list Timestamp)
  (st st' : Ladder) :
  closes_positive df -> (0 <= alloc)%Q ->
  buy_loop df alloc buy_dates st = Ok st' ->
  (buy_cost (orders st') <=
   buy_cost (orders st) + inject_Z (Z.of_nat (length buy_dates)) * alloc)%Q.
Proof.
  intros Hpos Ha. revert st.
  induction buy_dates as [|d rest IH]; intros st; simpl length.
  - simpl buy_loop. intros H. injection H as <-.
    change (inject_Z (Z.of_nat 0)) with 0%Q. lra.
  - simpl buy_loop.
    destruct (buy_step df alloc d st) as [st1|] eqn:Hstep;
      cbn [mbind result_bind bind]; [|discriminate].
    intros Hloop. specialize (IH st1 Hloop).
    pose proof (buy_step_cost _ _ _ _ _ Hpos Ha Hstep) as Hone.
    rewrite Nat2Z.inj_succ, <- Z.add_1_r, inject_Z_plus.
    change (inject_Z 1) with 1%Q. lra.
Qed.

End LadderCash.

Section LadderEdges.

Import christmas_ladder.

Lemma buy_step_no_alloc (df : MarketData) (alloc : Q) (d : Timestamp)
  (st st' : Ladder) :
  closes_positive df -> (alloc <= 0)%Q ->
  buy_step df alloc d st = Ok st' -> st' = st.
Proof.
  intros Hpos Ha. unfold buy_step.
  destruct (last_item _) as [ts|]; cbn [mbind result_bind bind];
    [|discriminate].
  destruct (loc_Close df ts) as [px|] eqn:Hpx; cbn [mbind result_bind bind];
    [|discriminate].
  destruct (floor_div alloc px) as [qty|] eqn:Hq; cbn [mbind result_bind bind];
    [|discriminate].
  pose proof (floor_div_nonpositive _ _ _ Ha
                (loc_Close_positive _ _ _ Hpos Hpx) Hq) as Hle.
  destruct (Z.leb_spec qty 0) as [_|Hgt]; [|lia].
  intros H. now injection H as <-.
Qed.

Lemma buy_loop_no_alloc (df : MarketData) (alloc : Q)
  (buy_dates : list Timestamp) (st st' : Ladder) :
  closes_positive df -> (alloc <= 0)%Q ->
  buy_loop df alloc buy_dates st = Ok st' -> st' = st.
Proof.
  intros Hpos Ha. revert st.
  induction buy_dates as [|d rest IH]; intros st; simpl.
  - intros H. now injection H as <-.
  - destruct (buy_step df alloc d st) as [st1|] eqn:Hstep;
      cbn [mbind result_bind bind]; [|discriminate].
    apply (buy_step_no_alloc _ _ _ _ _ Hpos Ha) in Hstep as ->. apply IH.
Qed.

Lemma sell_loop_no_position (df : MarketData) (p : XmasParams)
  (sell_dates : list Timestamp) (i : Z) (st st' : Ladder) :
  position st <= 0 ->
  sell_loop df p i sell_dates st = Ok st' -> st' = st.
Proof.
  intros Hpos. destruct sell_dates as [|d rest]; simpl.
  - intros H. now injection H as <-.
  - unfold sell_step. destruct (Z.leb_spec (position st) 0) as [_|Hgt]; [|lia].
    cbn [mbind result_bind bind]. intros H. now injection H as <-.
Qed.

(** X13. Zero or negative cash yields no order: on a series with
    positive closes, a table generated from a cash that is not positive
    has no row. *)
Theorem generate_orders_without_cash
  (df : MarketData) (cash0 : Q) (p : XmasParams) (f : OrderFrame) :
  closes_positive df ->
  (cash0 <= 0)%Q ->
  generate_orders df cash0 p = Ok f ->
  f = mkFrame standard_columns [].
Proof.
  intros Hpos Hc Hgen.
  destruct (generate_orders_inv _ _ _ _ Hgen)
    as (buy_dates & sell_dates & st & st' & _ & Hbuy & Hsell & ->).
  apply (buy_loop_no_alloc _ _ _ _ _ Hpos (alloc_nonpositive _ _ Hc))
    in Hbuy as ->.
  apply sell_loop_no_position in Hsell as ->; [reflexivity|simpl; lia].
Qed.

Lemma generate_orders_without_cash_witness :
  match generate_orders december_intraday 0 xmas_2023 with
  | Ok f => f = mkFrame standard_columns []
  | Raise _ => False
  end.
Proof.
  destruct (generate_orders december_intraday 0 xmas_2023) as [f|e] eqn:Hgen.
  - apply (generate_orders_without_cash december_intraday 0 xmas_2023 f).
    + repeat constructor.
    + discriminate.
    + exact Hgen.
  - vm_compute in Hgen. discriminate.
Defined.

Lemma buy_loop_length (df : MarketData) (alloc : Q)
  (buy_dates : list Timestamp) (st st' : Ladder) :
  buy_loop df alloc buy_dates st = Ok st' ->
  (length (orders st') <= length (orders st) + length buy_dates)%nat.
Proof.
  revert st. induction buy_dates as [|d rest IH]; intros st; simpl.
  - intros H. injection H as <-. lia.
  - destruct (buy_step df alloc d st) as [st1|] eqn:Hstep;
      cbn [mbind result_bind bind]; [|discriminate].
    intros Hloop. specialize (IH _ Hloop).
    assert (length (orders st1) <= length (orders st) + 1)%nat; [|lia].
    unfold buy_step in Hstep.
    destruct (last_item _) as [ts|]; cbn [mbind result_bind bind] in Hstep;
      [|discriminate].
    destruct (loc_Close df ts) as [px|];
      cbn [mbind result_bind bind] in Hstep; [|discriminate].
    destruct (floor_div alloc px) as [qty|];
      cbn [mbind result_bind bind] in Hstep; [|discriminate].
    destruct (qty <=? 0); injection Hstep as <-; [lia|].
    simpl. rewrite length_app. simpl. lia.
Qed.

Lemma sell_loop_length (df : MarketData) (p : XmasParams)
  (sell_dates : list Timestamp) (i : Z) (st st' : Ladder) :
  sell_loop df p i sell_dates st = Ok st' ->
  (length (orders st') <= length (orders st) + length sell_dates)%nat.
Proof.
  revert i st. induction sell_dates as [|d rest IH]; intros i st; simpl.
  - intros H. injection H as <-. lia.
  - destruct (sell_step df p i d st) as [[|st1]|] eqn:Hstep;
      cbn [mbind result_bind bind]; [| |discriminate].
    + intros H. injection H as <-. lia.
    + intros Hloop. specialize (IH _ _ Hloop).
      assert (length (orders st1) <= length (orders st) + 1)%nat; [|lia].
      unfold sell_step in Hstep.
      destruct (position st <=? 0); [discriminate|].
      destruct (_ <=? 0); [injection Hstep as <-; lia|].
      destruct (timing.find_execution_bar _ _ _);
        cbn [mbind result_bind bind] in Hstep; [|discriminate].
      destruct (loc_Close _ _); cbn [mbind result_bind bind] in Hstep;
        [|discriminate].
      injection Hstep as <-. simpl. rewrite length_app. simpl. lia.
Qed.

(** X14. For [buy_days >= 1] and [sell_days >= 0] a generated table has
    at most [buy_days + sell_days] orders: at most one per resolved
    date. *)
Theorem generate_orders_count
  (df : MarketData) (cash0 : Q) (p : XmasParams) (f : OrderFrame) :
  1 <= buy_days p ->
  0 <= sell_days p ->
  generate_orders df cash0 p = Ok f ->
  Z.of_nat (length (rows f)) <= buy_days p + sell_days p.
Proof.
  intros Hb Hs Hgen.
  destruct (generate_orders_inv _ _ _ _ Hgen)
    as (buy_dates & sell_dates & st & st' & Hres & Hbuy & Hsell & ->).
  apply buy_loop_length in Hbuy. apply sell_loop_length in Hsell.
  cbn [rows orders] in *.
  rewrite <- (Permutation_length (sorted_perm by_time (orders st'))).
  destruct (List.filter (in_year (xmas_of p)) df) eqn:Hy.
  - rewrite get_trading_days_no_data in Hres by assumption. discriminate.
  - rewrite get_trading_days_ok in Hres by congruence.
    injection Hres as <- <-.
    rewrite pick_last_n_positive, length_skipn in Hbuy by assumption.
    rewrite pick_first_n_nonneg, length_firstn in Hsell by assumption.
    simpl in Hbuy. lia.
Qed.

Lemma generate_orders_count_witness :
  Z.of_nat (length (rows december_orders)) <= 5 + 10.
Proof.
  apply (generate_orders_count december_intraday 10000 xmas_2023).
  - simpl. lia.
  - simpl. lia.
  - vm_compute. reflexivity.
Defined.

End LadderEdges.

Section LadderTotal.

Import christmas_ladder.






End LadderTotal.

Section LadderAllocation.

Import christmas_ladder.

Lemma buy_step_rows (df : MarketData) (alloc : Q) (d : Timestamp)
  (st st' : Ladder) :
  closes_positive df ->
  Forall (fun o => o_side o = BUY /\
                   (inject_Z (o_qty o) * o_price o <= alloc)%Q) (orders st) ->
  buy_step df alloc d st = Ok st' ->
  Forall (fun o => o_side o = BUY /\
                   (inject_Z (o_qty o) * o_price o <= alloc)%Q) (orders st').
Proof.
  intros Hpos Hst. unfold buy_step.
  destruct (last_item _) as [ts|]; cbn [mbind result_bind bind];
    [|discriminate].
  destruct (loc_Close df ts) as [px|] eqn:Hpx; cbn [mbind result_bind bind];
    [|discriminate].
  destruct (floor_div alloc px) as [qty|] eqn:Hq; cbn [mbind result_bind bind];
    [|discriminate].
  pose proof (floor_div_cost _ _ _ (loc_Close_positive _ _ _ Hpos Hpx) Hq)
    as Hcost.
  destruct (qty <=? 0); intros H; injection H as <-; [exact Hst|].
  cbn [orders]. apply Forall_app. split; [exact Hst|].
  constructor; [|constructor]. split; [reflexivity|exact Hcost].
Qed.

Lemma buy_loop_rows (df : MarketData) (alloc : Q)
  (buy_dates : list Timestamp) (st st' : Ladder) :
  closes_positive df ->
  Forall (fun o => o_side o = BUY /\
                   (inject_Z (o_qty o) * o_price o <= alloc)%Q) (orders st) ->
  buy_loop df alloc buy_dates st = Ok st' ->
  Forall (fun o => o_side o = BUY /\
                   (inject_Z (o_qty o) * o_price o <= alloc)%Q) (orders st').
Proof.
  intros Hpos. revert st.
  induction buy_dates as [|d rest IH]; intros st Hst; simpl.
  - intros H. now injection H as <-.
  - destruct (buy_step df alloc d st) as [st1|] eqn:Hstep;
      cbn [mbind result_bind bind]; [|discriminate].
    apply IH. exact (buy_step_rows _ _ _ _ _ Hpos Hst Hstep).
Qed.

(** X12. The buy loop of [generate_orders] spends at most the daily
    allocation on each buy date.  On a series with positive closes, for
    distinct timestamps and a bar on every buy date, for a non-negative
    [alloc] (the float quotient [cash / max(len(buy_dates), 1)] that the
    code computed) and share counts below [2 ^ 50], the loop runs to its
    end; every order it places is a BUY whose cost [qty * price] is at
    most [alloc], and it places at most one order per buy date, so the
    cost adds up to at most [len(buy_dates) * alloc].  The bound is against
    [alloc], not against the cash: the float quotient can exceed the
    exact share of the cash. *)
Theorem buy_loop_within_allocation (df : MarketData) (alloc : Q)
  (buy_dates : list Timestamp) (cash0 : Q) :
  List.NoDup (index df) ->
  closes_positive df ->
  Forall (fun d => bars_on df (date d) <> []) buy_dates ->
  (0 <= alloc)%Q ->
  Forall (fun row => exact_quotient alloc (Close (snd row))) df ->
  exists st,
    buy_loop df alloc buy_dates (mkLadder [] cash0 0) = Ok st /\
    Forall (fun o => o_side o = BUY /\
                     (inject_Z (o_qty o) * o_price o <= alloc)%Q)
      (orders st) /\
    (length (orders st) <= length buy_dates)%nat /\
    (buy_cost (orders st) <=
     inject_Z (Z.of_nat (length buy_dates)) * alloc)%Q.
Proof.
  intros Hnd Hpos Hbars Ha _.
  destruct (buy_loop_total df alloc buy_dates (mkLadder [] cash0 0)
              Hnd Hpos Hbars) as (st & Hloop & _); [constructor|].
  exists st. split; [exact Hloop|]. split; [|split].
  - apply (buy_loop_rows df alloc buy_dates (mkLadder [] cash0 0) st Hpos);
      [constructor|exact Hloop].
  - exact (buy_loop_length _ _ _ _ _ Hloop).
  - pose proof (buy_loop_cost _ _ _ _ _ Hpos Ha Hloop) as Hcost.
    simpl buy_cost in Hcost. lra.
Qed.

End LadderAllocation.

Lemma buy_loop_within_allocation_witness :
  exists st,
    christmas_ladder.buy_loop tie_daily third_of_cash (index tie_daily)
      (christmas_ladder.mkLadder [] 10000 0) = Ok st /\
    Forall (fun o => o_side o = BUY /\
                     (inject_Z (o_qty o) * o_price o <= third_of_cash)%Q)
      (christmas_ladder.orders st) /\
    (length (christmas_ladder.orders st) <= length (index tie_daily))%nat /\
    (buy_cost (christmas_ladder.orders st) <=
     inject_Z (Z.of_nat (length (index tie_daily))) * third_of_cash)%Q.
Proof.
  apply (buy_loop_within_allocation tie_daily third_of_cash (index tie_daily)
           10000).
  - repeat constructor; simpl; intuition discriminate.
  - repeat constructor.
  - repeat constructor; discriminate.
  - discriminate.
  - repeat constructor.
Defined.

(** With the allocation [10000 / 3] as the float division rounds it, the
    buy loop buys one share on each of three days closing at that price,
    for more than the 10000 in cash: the exact third would buy none. *)
Example rounded_allocation_buys_at_the_tie :
  length (christmas_ladder.orders tie_bought) = 3%nat /\
  (10000 < buy_cost (christmas_ladder.orders tie_bought))%Q /\
  christmas_ladder.buy_loop tie_daily (10000 / 3) (index tie_daily)
    (christmas_ladder.mkLadder [] 10000 0) =
  Ok (christmas_ladder.mkLadder [] 10000 0).
Proof.
  split; [reflexivity|]. split; [reflexivity|]. vm_compute. reflexivity.
Qed.

(** ** Execution simulator, further *)

Section SimulatorFurther.

Import simulator.

Lemma check_liquidity_spec (order_qty : Z) (bar_volume max_volume_pct : Q) :
  _check_liquidity order_qty bar_volume max_volume_pct = true <->
  (0 < bar_volume)%Q /\ (inject_Z order_qty <= max_volume_pct * bar_volume)%Q.
Proof.
  unfold _check_liquidity. destruct (Qle_bool bar_volume 0) eqn:E.
  - split; [discriminate|]. intros [H _]. apply Qle_bool_iff in E. lra.
  - apply Qle_bool_false in E. rewrite Qle_bool_iff. split.
    + intros H. split; [assumption|].
      apply Qle_trans with (inject_Z order_qty / bar_volume * bar_volume)%Q.
      * apply Qle_lteq. right. field. lra.
      * apply Qmult_le_compat_r; lra.
    + intros [_ H]. now apply Qle_shift_div_r.
Qed.

(** What the [try] block records for an order that it executes. *)
Lemma execute_order_fill (order : Order) (market_data : MarketData)
  (slippage_bps : Q) (min_liquidity_check : bool) (executed : Order) :
  execute_order order market_data slippage_bps min_liquidity_check =
    Ok (Some executed) ->
  exists market_bar,
    validate_order_timing order market_data = true /\
    timing.find_execution_bar market_data (o_time order) "09:30" =
      Ok (o_time executed) /\
    loc market_data (o_time executed) = Scalar market_bar /\
    (min_liquidity_check = true ->
     _check_liquidity (o_qty order) (Volume market_bar) (1 # 100) = true) /\
    o_side executed = o_side order /\
    o_qty executed = o_qty order /\
    o_price executed =
      _apply_slippage (o_price order) market_bar (o_side order) slippage_bps /\
    o_value executed =
      match o_side order with
      | BUY => (- inject_Z (o_qty order) * o_price executed)%Q
      | SELL => (inject_Z (o_qty order) * o_price executed)%Q
      end /\
    o_original_time executed = Some (o_time order) /\
    o_slippage_bps executed =
      Some (_calculate_slippage_bps (o_price order) (o_price executed)).
Proof.
  unfold execute_order, try_execute.
  destruct (validate_order_timing order market_data); [|discriminate].
  cbn [negb].
  destruct (timing.find_execution_bar market_data (o_time order) "09:30")
    as [execution_time|e]; cbn [mbind result_bind bind].
  - destruct (loc market_data execution_time) as [|market_bar|] eqn:Hloc;
      [discriminate| |discriminate].
    destruct min_liquidity_check; cbn [andb].
    + destruct (_check_liquidity _ _ _) eqn:Hliq; [|discriminate].
      intros H. injection H as <-. exists market_bar. cbn. repeat split; auto.
    + intros H. injection H as <-. exists market_bar. cbn.
      repeat split; auto. discriminate.
  - destruct (caught e); discriminate.
Qed.

(** A property of every fill holds for every row of the accumulator. *)
Lemma execute_loop_Forall (P : Order -> Prop) (intended : list Order)
  (market_data : MarketData) (slippage_bps : Q) (min_liquidity_check : bool)
  (executed_orders out : list Order) :
  (forall order e, In order intended ->
     execute_order order market_data slippage_bps min_liquidity_check =
       Ok (Some e) -> P e) ->
  Forall P executed_orders ->
  execute_loop intended market_data slippage_bps min_liquidity_check
    executed_orders = Ok out ->
  Forall P out.
Proof.
  revert executed_orders.
  induction intended as [|order rest IH]; intros acc Hstep Hacc Hloop.
  - injection Hloop as <-. exact Hacc.
  - cbn [execute_loop] in Hloop.
    destruct (execute_order order market_data slippage_bps min_liquidity_check)
      as [fill|e] eqn:Hex; cbn [mbind result_bind bind] in Hloop;
      [|discriminate].
    apply IH in Hloop; [exact Hloop| |].
    + intros o e Hin. apply Hstep. now right.
    + destruct fill as [e|]; [|exact Hacc].
      apply Forall_app. split; [exact Hacc|].
      constructor; [|constructor]. apply (Hstep order); [now left|exact Hex].
Qed.

Lemma execute_loop_length (intended : list Order)
  (market_data : MarketData) (slippage_bps : Q) (min_liquidity_check : bool)
  (executed_orders out : list Order) :
  execute_loop intended market_data slippage_bps min_liquidity_check
    executed_orders = Ok out ->
  (length out <= length executed_orders + length intended)%nat.
Proof.
  revert executed_orders.
  induction intended as [|order rest IH]; intros acc Hloop.
  - injection Hloop as <-. simpl. lia.
  - cbn [execute_loop] in Hloop.
    destruct (execute_order order market_data slippage_bps min_liquidity_check)
      as [fill|e]; cbn [mbind result_bind bind] in Hloop; [|discriminate].
    apply IH in Hloop. destruct fill; [rewrite length_app in Hloop|];
      simpl in *; lia.
Qed.

(** The rows of the executed table are fills of rows of the input. *)
Lemma execute_orders_Forall (P : Order -> Prop) (orders : OrderFrame)
  (market_data : MarketData) (slippage_bps : Q) (min_liquidity_check : bool)
  (out : OrderFrame) :
  (forall order e, In order (rows orders) ->
     execute_order order market_data slippage_bps min_liquidity_check =
       Ok (Some e) -> P e) ->
  execute_orders orders market_data slippage_bps min_liquidity_check = Ok out ->
  Forall P (rows out).
Proof.
  intros Hstep. unfold execute_orders. destruct (empty orders) eqn:He.
  - intros H. injection H as <-. unfold empty in He.
    destruct (rows orders); [constructor|discriminate].
  - destruct (execute_loop _ _ _ _ _) as [executed|e] eqn:Hloop;
      cbn [mbind result_bind bind]; [|discriminate].
    apply execute_loop_Forall with (P := P) in Hloop;
      [|exact Hstep|constructor].
    destruct executed as [|e1 rest]; intros H; injection H as <-;
      cbn [rows]; [constructor|].
    exact (Forall_sorted P by_time (e1 :: rest) Hloop).
Qed.

(** X16. Every row of the table returned by [execute_orders] is the fill
    of a row of the input: it has that order's side and quantity, records
    the order's time as [original_time], is stamped on a bar of the market
    data of the order's calendar day, and the order's own time passed the
    09:30-16:00 session check.  The executed table never has more rows
    than the input. *)
Theorem execute_orders_provenance (orders : OrderFrame)
  (market_data : MarketData) (slippage_bps : Q) (min_liquidity_check : bool)
  (out : OrderFrame) :
  execute_orders orders market_data slippage_bps min_liquidity_check = Ok out ->
  (length (rows out) <= length (rows orders))%nat /\
  Forall (fun e =>
            exists order,
              In order (rows orders) /\
              o_side e = o_side order /\
              o_qty e = o_qty order /\
              o_original_time e = Some (o_time order) /\
              date (o_time e) = date (o_time order) /\
              In (o_time e) (index market_data) /\
              timing.is_market_hours (o_time order) "09:30" "16:00" = true)
    (rows out).
Proof.
  intros Hex. split.
  - revert Hex. unfold execute_orders. destruct (empty orders).
    + intros H. now injection H as <-.
    + destruct (execute_loop _ _ _ _ _) as [executed|e] eqn:Hloop;
        cbn [mbind result_bind bind]; [|discriminate].
      apply execute_loop_length in Hloop. simpl in Hloop.
      pose proof (Permutation_length (sorted_perm by_time executed)) as Hp.
      destruct executed as [|e1 rest]; intros H; injection H as <-;
        cbn [rows]; [simpl; lia|].
      change (insert_sorted by_time e1 (sorted by_time rest))
        with (sorted by_time (e1 :: rest)).
      rewrite <- Hp. exact Hloop.
  - eapply execute_orders_Forall; [|exact Hex].
    intros order e Hin Hfill. exists order.
    destruct (execute_order_fill _ _ _ _ _ Hfill)
      as (bar & Hvalid & Hfind & _ & _ & Hside & Hqty & _ & _ & Horig & _).
    apply find_execution_bar_In, In_index_bars_on in Hfind as [Hidx Hdate].
    repeat (split; [assumption|]).
    unfold validate_order_timing in Hvalid.
    now destruct (negb (mem _ _)).
Qed.

End SimulatorFurther.

Lemma execute_orders_provenance_witness :
  (length (rows december_fills) <= length (rows december_orders))%nat /\
  Forall (fun e =>
            exists order,
              In order (rows december_orders) /\
              o_side e = o_side order /\
              o_qty e = o_qty order /\
              o_original_time e = Some (o_time order) /\
              date (o_time e) = date (o_time order) /\
              In (o_time e) (index december_intraday) /\
              timing.is_market_hours (o_time order) "09:30" "16:00" = true)
    (rows december_fills).
Proof.
  apply (execute_orders_provenance december_orders december_intraday 1 true
           december_fills).
  vm_compute. reflexivity.
Defined.


Section SimulatorPricing.

Import simulator.

(** The realized slippage is the relative move from the intended price to
    the execution price, in basis points. *)
Lemma calculate_slippage_bps_inverse (intended_price execution_price : Q) :
  ~ (intended_price == 0)%Q ->
  (intended_price *
   (1 + _calculate_slippage_bps intended_price execution_price / 10000) ==
   execution_price)%Q.
Proof.
  intros Hne. unfold _calculate_slippage_bps.
  destruct (Qeq_bool intended_price 0) eqn:E.
  - apply Qeq_bool_iff in E. contradiction.
  - field. exact Hne.
Qed.

Lemma realized_slippage_bounds (intended_price : Q) (market_bar : Bar)
  (side : Side) (slippage_bps : Q) :
  (0 < intended_price)%Q ->
  let s :=
    _calculate_slippage_bps intended_price
      (_apply_slippage intended_price market_bar side slippage_bps) in
  match side with
  | BUY => (s <= slippage_bps)%Q
  | SELL => (- slippage_bps <= s)%Q
  end.
Proof.
  intros Hp. unfold _calculate_slippage_bps.
  destruct (Qeq_bool intended_price 0) eqn:E.
  - apply Qeq_bool_iff in E. lra.
  - clear E. destruct side; cbn [_apply_slippage]; cbv zeta.
    + pose proof (py_min_le_l
                    (intended_price * (1 + slippage_bps / 10000))
                    (High market_bar)) as H.
      set (x := py_min _ _) in *.
      assert (x - intended_price <=
              intended_price * (1 + slippage_bps / 10000) - intended_price)%Q
        as Hd by lra.
      apply Qle_trans with
        ((intended_price * (1 + slippage_bps / 10000) - intended_price) /
         intended_price * 10000)%Q.
      * apply Qmult_le_compat_r; [|discriminate].
        unfold Qdiv. apply Qmult_le_compat_r; [exact Hd|].
        apply Qlt_le_weak, Qinv_lt_0_compat, Hp.
      * apply Qle_lteq. right. field. lra.
    + pose proof (py_max_ge_l
                    (intended_price * (1 - slippage_bps / 10000))
                    (Low market_bar)) as H.
      set (x := py_max _ _) in *.
      assert (intended_price * (1 - slippage_bps / 10000) - intended_price <=
              x - intended_price)%Q
        as Hd by lra.
      apply Qle_trans with
        ((intended_price * (1 - slippage_bps / 10000) - intended_price) /
         intended_price * 10000)%Q.
      * apply Qle_lteq. right. field. lra.
      * apply Qmult_le_compat_r; [|discriminate].
        unfold Qdiv. apply Qmult_le_compat_r; [exact Hd|].
        apply Qlt_le_weak, Qinv_lt_0_compat, Hp.
Qed.

(** X17. When every intended price is positive, each row of the table
    returned by [execute_orders] carries the signed value of its side at
    the execution price, and its [slippage_bps] column holds the relative
    move [s] from the price of its intended order to the execution price
    (intended price times [1 + s / 10000] is the execution price): a BUY has
    [s <= slippage_bps] and a SELL has [- slippage_bps <= s], the cap at
    the High and the floor at the Low only moving the price in the
    trader's favour. *)
Theorem execute_orders_realized_slippage (orders : OrderFrame)
  (market_data : MarketData) (slippage_bps : Q) (min_liquidity_check : bool)
  (out : OrderFrame) :
  Forall (fun order => (0 < o_price order)%Q) (rows orders) ->
  execute_orders orders market_data slippage_bps min_liquidity_check = Ok out ->
  Forall (fun e =>
            exists order s,
              In order (rows orders) /\
              o_original_time e = Some (o_time order) /\
              o_slippage_bps e = Some s /\
              (o_price order * (1 + s / 10000) == o_price e)%Q /\
              match o_side e with
              | BUY =>
                  (s <= slippage_bps)%Q /\
                  (o_value e == - (inject_Z (o_qty e) * o_price e))%Q
              | SELL =>
                  (- slippage_bps <= s)%Q /\
                  (o_value e == inject_Z (o_qty e) * o_price e)%Q
              end)
    (rows out).
Proof.
  intros Hpos Hex. eapply execute_orders_Forall; [|exact Hex].
  intros order e Hin Hfill.
  pose proof (proj1 (List.Forall_forall _ _) Hpos order Hin) as Hp.
  cbv beta in Hp.
  destruct (execute_order_fill _ _ _ _ _ Hfill)
    as (bar & _ & _ & _ & _ & Hside & Hqty & Hprice & Hvalue & Horig & Hslip).
  exists order, (_calculate_slippage_bps (o_price order) (o_price e)).
  split; [exact Hin|]. split; [exact Horig|]. split; [exact Hslip|].
  split; [apply calculate_slippage_bps_inverse; lra|].
  pose proof (realized_slippage_bounds (o_price order) bar (o_side order)
                slippage_bps Hp) as Hb.
  cbv zeta in Hb. rewrite <- Hprice in Hb.
  rewrite Hside, Hqty, Hvalue. destruct (o_side order).
  - split; [exact Hb|]. ring.
  - split; [exact Hb|]. reflexivity.
Qed.

End SimulatorPricing.

Lemma execute_orders_realized_slippage_witness :
  Forall (fun e =>
            exists order s,
              In order (rows december_orders) /\
              o_original_time e = Some (o_time order) /\
              o_slippage_bps e = Some s /\
              (o_price order * (1 + s / 10000) == o_price e)%Q /\
              match o_side e with
              | BUY =>
                  (s <= 1)%Q /\
                  (o_value e == - (inject_Z (o_qty e) * o_price e))%Q
              | SELL =>
                  (- (1) <= s)%Q /\
                  (o_value e == inject_Z (o_qty e) * o_price e)%Q
              end)
    (rows december_fills).
Proof.
  apply (execute_orders_realized_slippage december_orders december_intraday
           1 true december_fills).
  - repeat constructor.
  - vm_compute. reflexivity.
Defined.

Section SimulatorLiquidity.

Import simulator.

(** X18. With the liquidity check on, every row of the table returned by
    [execute_orders] is stamped on a bar that the market data holds once,
    whose volume is positive and at least one hundred times the row's
    quantity (the order is at most 1% of the bar's volume). *)
Theorem execute_orders_liquidity (orders : OrderFrame)
  (market_data : MarketData) (slippage_bps : Q) (out : OrderFrame) :
  execute_orders orders market_data slippage_bps true = Ok out ->
  Forall (fun e =>
            exists market_bar,
              loc market_data (o_time e) = Scalar market_bar /\
              (0 < Volume market_bar)%Q /\
              (inject_Z (o_qty e) * 100 <= Volume market_bar)%Q)
    (rows out).
Proof.
  intros Hex. eapply execute_orders_Forall; [|exact Hex].
  intros order e Hin Hfill.
  destruct (execute_order_fill _ _ _ _ _ Hfill)
    as (bar & _ & _ & Hloc & Hliq & _ & Hqty & _).
  exists bar. split; [exact Hloc|].
  apply check_liquidity_spec in Hliq as [Hvol Hle]; [|reflexivity].
  split; [exact Hvol|]. rewrite Hqty. lra.
Qed.

End SimulatorLiquidity.

Lemma execute_orders_liquidity_witness :
  Forall (fun e =>
            exists market_bar,
              loc december_intraday (o_time e) = Scalar market_bar /\
              (0 < Volume market_bar)%Q /\
              (inject_Z (o_qty e) * 100 <= Volume market_bar)%Q)
    (rows december_fills).
Proof.
  apply (execute_orders_liquidity december_orders december_intraday 1
           december_fills).
  vm_compute. reflexivity.
Defined.

Section SimulatorTotal.

Import simulator.

(** At "09:30" the locator raises nothing but its no-data error. *)
Lemma find_execution_bar_open_raises (df : MarketData) (target_date : Timestamp)
  (e : exn) :
  timing.find_execution_bar df target_date "09:30" = Raise e ->
  caught e = true.
Proof.
  unfold timing.find_execution_bar.
  destruct (bars_on df (date target_date)) as [|r1 [|r2 rest]]; intros H.
  - now injection H as <-.
  - discriminate.
  - rewrite (timestamp_at_parsed (date target_date) "09:30" 9 30 eq_refl) in H.
    cbn [mbind result_bind bind] in H.
    destruct (List.filter _ _) as [|t later]; [|discriminate].
    destruct (last_item_nonempty (index (r1 :: r2 :: rest))) as (x & Hx & _);
      [discriminate|congruence].
Qed.

(** What escapes the [try] block: the error of a label that the market
    data carries more than once. *)
Lemma execute_order_raises (order : Order) (market_data : MarketData)
  (slippage_bps : Q) (min_liquidity_check : bool) (e : exn) :
  execute_order order market_data slippage_bps min_liquidity_check = Raise e ->
  (exists msg, e = ValueError msg) /\
  timing.is_market_hours (o_time order) "09:30" "16:00" = true /\
  exists ts,
    timing.find_execution_bar market_data (o_time order) "09:30" = Ok ts /\
    loc market_data ts = NonScalar.
Proof.
  unfold execute_order, try_execute.
  destruct (validate_order_timing order market_data) eqn:Hvalid;
    [|discriminate].
  cbn [negb]. unfold validate_order_timing in Hvalid.
  destruct (negb (mem _ _)); [discriminate|].
  destruct (timing.find_execution_bar market_data (o_time order) "09:30")
    as [ts|e'] eqn:Hfind; cbn [mbind result_bind bind].
  - destruct (loc market_data ts) as [|market_bar|] eqn:Hloc.
    + discriminate.
    + destruct (min_liquidity_check && _); discriminate.
    + intros H. injection H as <-. eauto 10.
  - rewrite (find_execution_bar_open_raises _ _ _ Hfind). discriminate.
Qed.

Lemma execute_loop_raises (intended : list Order)
  (market_data : MarketData) (slippage_bps : Q) (min_liquidity_check : bool)
  (executed_orders : list Order) (e : exn) :
  execute_loop intended market_data slippage_bps min_liquidity_check
    executed_orders = Raise e ->
  exists order,
    In order intended /\
    execute_order order market_data slippage_bps min_liquidity_check = Raise e.
Proof.
  revert executed_orders.
  induction intended as [|order rest IH]; intros acc Hloop; [discriminate|].
  cbn [execute_loop] in Hloop.
  destruct (execute_order order market_data slippage_bps min_liquidity_check)
    as [fill|e'] eqn:Hex; cbn [mbind result_bind bind] in Hloop.
  - destruct (IH _ Hloop) as (o & Hin & Ho). exists o. split; [now right|exact Ho].
  - injection Hloop as <-. exists order. split; [now left|exact Hex].
Qed.

Lemma execute_orders_raises (orders : OrderFrame)
  (market_data : MarketData) (slippage_bps : Q) (min_liquidity_check : bool)
  (e : exn) :
  execute_orders orders market_data slippage_bps min_liquidity_check =
    Raise e ->
  (exists msg, e = ValueError msg) /\
  exists order ts,
    In order (rows orders) /\
    timing.is_market_hours (o_time order) "09:30" "16:00" = true /\
    timing.find_execution_bar market_data (o_time order) "09:30" = Ok ts /\
    loc market_data ts = NonScalar.
Proof.
  unfold execute_orders. destruct (empty orders); [discriminate|].
  destruct (execute_loop _ _ _ _ _) as [executed|e'] eqn:Hloop;
    cbn [mbind result_bind bind].
  - destruct executed; discriminate.
  - intros H. injection H as <-.
    destruct (execute_loop_raises _ _ _ _ _ _ Hloop) as (order & Hin & Hex).
    destruct (execute_order_raises _ _ _ _ _ Hex)
      as (Hmsg & Hopen & ts & Hfind & Hloc).
    eauto 10.
Qed.

Lemma loc_scalar (df : MarketData) (ts : Timestamp) :
  List.NoDup (index df) -> In ts (index df) ->
  exists b, loc df ts = Scalar b.
Proof.
  intros Hnd Hin. apply in_map_iff in Hin as ([t b] & Ht & Hrow).
  simpl in Ht. subst t. exists b. now apply loc_unique.
Qed.

(** X19. On market data whose timestamps are distinct, [execute_orders]
    raises nothing, whatever the orders, the slippage and the liquidity
    switch: it returns a table, with the columns of the input when no
    order was executed and with the seven execution columns otherwise. *)
Theorem execute_orders_total (orders : OrderFrame)
  (market_data : MarketData) (slippage_bps : Q) (min_liquidity_check : bool) :
  List.NoDup (index market_data) ->
  exists out,
    execute_orders orders market_data slippage_bps min_liquidity_check =
      Ok out /\
    columns out = if empty out then columns orders else executed_columns.
Proof.
  intros Hnd.
  destruct (execute_orders orders market_data slippage_bps min_liquidity_check)
    as [out|e] eqn:Hex.
  - exists out. split; [reflexivity|].
    revert Hex. unfold execute_orders. destruct (empty orders) eqn:He.
    + intros H. injection H as <-. now rewrite He.
    + destruct (execute_loop _ _ _ _ _) as [executed|e];
        cbn [mbind result_bind bind]; [|discriminate].
      pose proof (sorted_perm by_time executed) as Hp.
      destruct executed as [|e1 rest]; intros H; injection H as <-;
        [reflexivity|].
      unfold empty. cbn [rows columns].
      change (insert_sorted by_time e1 (sorted by_time rest))
        with (sorted by_time (e1 :: rest)).
      destruct (sorted by_time (e1 :: rest)); [|reflexivity].
      now apply Permutation_sym, Permutation_nil in Hp.
  - exfalso.
    destruct (execute_orders_raises _ _ _ _ _ Hex)
      as (_ & order & ts & _ & _ & Hfind & Hloc).
    apply find_execution_bar_In, In_index_bars_on in Hfind as [Hidx _].
    destruct (loc_scalar _ _ Hnd Hidx) as (b & Hb). congruence.
Qed.

(** X20. The only exception that leaves [execute_orders] is a
    [ValueError]: it is raised when the bar that an order in session is to
    be executed on carries a label that the market data holds more than
    once, so that [min] or [max] is applied to a column of bars.  The
    no-data [RuntimeError] of the locator and every [KeyError] are
    swallowed. *)
Theorem execute_orders_raises_only_on_duplicates (orders : OrderFrame)
  (market_data : MarketData) (slippage_bps : Q) (min_liquidity_check : bool)
  (e : exn) :
  execute_orders orders market_data slippage_bps min_liquidity_check =
    Raise e ->
  (exists msg, e = ValueError msg) /\
  ~ List.NoDup (index market_data) /\
  exists order ts,
    In order (rows orders) /\
    timing.is_market_hours (o_time order) "09:30" "16:00" = true /\
    timing.find_execution_bar market_data (o_time order) "09:30" = Ok ts /\
    loc market_data ts = NonScalar.
Proof.
  intros Hex.
  destruct (execute_orders_raises _ _ _ _ _ Hex)
    as (Hmsg & order & ts & Hin & Hopen & Hfind & Hloc).
  split; [exact Hmsg|]. split.
  - intros Hnd.
    pose proof Hfind as Hidx.
    apply find_execution_bar_In, In_index_bars_on in Hidx as [Hidx _].
    destruct (loc_scalar _ _ Hnd Hidx) as (b & Hb). congruence.
  - exists order, ts. repeat (split; [assumption|]). exact Hloc.
Qed.

End SimulatorTotal.

Lemma execute_orders_total_witness :
  exists out,
    simulator.execute_orders december_orders december_intraday 1 true =
      Ok out /\
    columns out = if empty out then columns december_orders
                  else executed_columns.
Proof.
  apply (execute_orders_total december_orders december_intraday 1 true).
  repeat constructor; simpl; intuition discriminate.
Defined.

Lemma execute_orders_raises_only_on_duplicates_witness :
  (exists msg, ValueError "truth value of a Series is ambiguous" =
               ValueError msg) /\
  ~ List.NoDup (index doubled_open) /\
  exists order ts,
    In order [late_buy] /\
    timing.is_market_hours (o_time order) "09:30" "16:00" = true /\
    timing.find_execution_bar doubled_open (o_time order) "09:30" = Ok ts /\
    loc doubled_open ts = NonScalar.
Proof.
  apply (execute_orders_raises_only_on_duplicates
           (mkFrame standard_columns [late_buy]) doubled_open 1 true).
  vm_compute. reflexivity.
Defined.

(** ** Backtest engine, further *)

Section EngineFurther.

Import engine.

Lemma fold_left_Zadd (l : list Z) (a : Z) :
  fold_left Z.add l a = a + fold_right Z.add 0 l.
Proof.
  revert a. induction l as [|x l IH]; intros a; simpl; [lia|].
  rewrite IH. lia.
Qed.

(** The guarded sums of the engine are the totals per side: the guard
    [s in orders["side"].values] only skips an empty sum. *)
Lemma guarded_side_total (s : Side) (orders : OrderFrame) :
  (if has_side s orders then sum_int (qty_of_side s orders) else 0) =
  side_qty s (rows orders).
Proof.
  unfold has_side, sum_int, qty_of_side, side_qty.
  destruct (mem s (map o_side (rows orders))) eqn:Hmem.
  - rewrite fold_left_Zadd. lia.
  - destruct (List.filter _ (rows orders)) as [|o rest] eqn:E; [reflexivity|].
    assert (In o (o :: rest)) as Hin by now left.
    rewrite <- E in Hin. apply filter_In in Hin as [Hin Hs].
    apply bool_decide_eq_true in Hs.
    assert (mem s (map o_side (rows orders)) = true) as Ht.
    { apply mem_In. apply in_map_iff. now exists o. }
    congruence.
Qed.

(** The dictionary that the engine builds for a non-empty table. *)
Lemma run_backtest_result (orders : OrderFrame) (initial_cash : Q) :
  empty orders = false ->
  exists (last : Order) (r : gmap string Value),
    last_item (rows orders) = Ok last /\
    run_backtest orders initial_cash = Ok r /\
    let ending_cash :=
      (initial_cash + sum_float (map o_value (rows orders)))%Q in
    let remaining_shares :=
      side_qty BUY (rows orders) - side_qty SELL (rows orders) in
    let remaining_value_mark :=
      if remaining_shares >? 0
      then (inject_Z remaining_shares * o_price last)%Q else 0%Q in
    let total_value := (ending_cash + remaining_value_mark)%Q in
    let pnl := (total_value - initial_cash)%Q in
    r !! "orders"%string = Some (VFrame orders) /\
    r !! "initial_cash"%string = Some (VFloat initial_cash) /\
    r !! "ending_cash"%string = Some (VFloat ending_cash) /\
    r !! "remaining_shares"%string = Some (VInt remaining_shares) /\
    r !! "remaining_value_mark"%string = Some (VFloat remaining_value_mark) /\
    r !! "total_value"%string = Some (VFloat total_value) /\
    r !! "pnl"%string = Some (VFloat pnl) /\
    r !! "return_pct"%string =
      Some (VFloat (if Qltb 0 initial_cash then pnl / initial_cash else 0)%Q).
Proof.
  intros Hne.
  destruct (last_item_nonempty (rows orders) (empty_false_rows _ Hne))
    as (last & Hlast & _).
  unfold run_backtest. rewrite Hne, !guarded_side_total, Hlast.
  cbn [negb]. rewrite andb_true_r.
  exists last.
  destruct (side_qty BUY (rows orders) - side_qty SELL (rows orders) >? 0);
    cbn [mbind result_bind bind]; eexists; (split; [reflexivity|]);
    (split; [reflexivity|]); cbv zeta; repeat split; by simplify_map_eq.
Qed.

(** X21. Position conservation: on a non-empty table the engine reports
    as [remaining_shares] the total BUY quantity minus the total SELL
    quantity of the table, whichever sides the table holds. *)
Theorem run_backtest_position_conservation
  (orders : OrderFrame) (initial_cash : Q) :
  empty orders = false ->
  exists r : gmap string Value,
    run_backtest orders initial_cash = Ok r /\
    r !! "remaining_shares"%string =
      Some (VInt (side_qty BUY (rows orders) - side_qty SELL (rows orders))).
Proof.
  intros Hne.
  destruct (run_backtest_result orders initial_cash Hne)
    as (last & r & _ & Hrun & H).
  cbv zeta in H. exists r. split; [exact Hrun|]. apply H.
Qed.

(** X22. Mark to market: on a non-empty table the open position is
    valued at the price of the last row when it is positive, and at zero
    otherwise (a short position is not marked); [total_value] is the
    initial cash plus the signed order values plus that mark, and [pnl] is
    the signed order values plus the mark, whatever the initial cash. *)
Theorem run_backtest_mark_to_market (orders : OrderFrame) (initial_cash : Q) :
  empty orders = false ->
  exists (r : gmap string Value) (last : Order) (remaining_shares : Z)
         (remaining_value_mark total_value pnl : Q),
    run_backtest orders initial_cash = Ok r /\
    last_item (rows orders) = Ok last /\
    r !! "remaining_shares"%string = Some (VInt remaining_shares) /\
    r !! "remaining_value_mark"%string = Some (VFloat remaining_value_mark) /\
    r !! "total_value"%string = Some (VFloat total_value) /\
    r !! "pnl"%string = Some (VFloat pnl) /\
    (0 < remaining_shares ->
     (remaining_value_mark == inject_Z remaining_shares * o_price last)%Q) /\
    (remaining_shares <= 0 -> (remaining_value_mark == 0)%Q) /\
    (total_value ==
     initial_cash + total_order_value (rows orders) + remaining_value_mark)%Q /\
    (pnl == total_order_value (rows orders) + remaining_value_mark)%Q.
Proof.
  intros Hne.
  destruct (run_backtest_result orders initial_cash Hne)
    as (last & r & Hlast & Hrun & H).
  cbv zeta in H.
  destruct H as (_ & _ & _ & Hshares & Hmark & Htotal & Hpnl & _).
  eexists r, last, _, _, _, _.
  repeat (split; [eassumption|]).
  rewrite sum_float_values.
  destruct (Z.gtb_spec (side_qty BUY (rows orders) -
                        side_qty SELL (rows orders)) 0) as [Hgt|Hle].
  - repeat split; try reflexivity; try lia; ring.
  - repeat split; try reflexivity; try lia; ring.
Qed.

(** X23. [run_backtest] raises on no table and no initial cash.  The
    [return_pct] it reports is the P&L per unit of initial cash when the
    initial cash is positive, and 0 when it is zero or negative: the
    division is guarded. *)
Theorem run_backtest_return_pct (orders : OrderFrame) (initial_cash : Q) :
  exists (r : gmap string Value) (pnl return_pct : Q),
    run_backtest orders initial_cash = Ok r /\
    r !! "pnl"%string = Some (VFloat pnl) /\
    r !! "return_pct"%string = Some (VFloat return_pct) /\
    ((0 < initial_cash)%Q -> (return_pct * initial_cash == pnl)%Q) /\
    ((initial_cash <= 0)%Q -> return_pct = 0%Q).
Proof.
  destruct (empty orders) eqn:He.
  - unfold run_backtest. rewrite He.
    eexists _, 0%Q, 0%Q. split; [reflexivity|].
    split; [by simplify_map_eq|]. split; [by simplify_map_eq|].
    split; [intros _; ring|reflexivity].
  - destruct (run_backtest_result orders initial_cash He)
      as (last & r & _ & Hrun & H).
    cbv zeta in H. destruct H as (_ & _ & _ & _ & _ & _ & Hpnl & Hret).
    eexists r, _, _. repeat (split; [eassumption|]).
    unfold Qltb. destruct (Qle_bool initial_cash 0) eqn:E; cbn [negb].
    + apply Qle_bool_iff in E. split; [lra|reflexivity].
    + apply Qle_bool_false in E. split; [|lra].
      intros _. field. lra.
Qed.

End EngineFurther.

Lemma run_backtest_position_conservation_witness :
  exists r : gmap string engine.Value,
    engine.run_backtest december_fills 10000 = Ok r /\
    r !! "remaining_shares"%string =
      Some (engine.VInt (side_qty BUY (rows december_fills) -
                         side_qty SELL (rows december_fills))).
Proof.
  apply (run_backtest_position_conservation december_fills 10000).
  reflexivity.
Defined.

Lemma run_backtest_mark_to_market_witness :
  exists (r : gmap string engine.Value) (last : Order) (remaining_shares : Z)
         (remaining_value_mark total_value pnl : Q),
    engine.run_backtest december_fills 10000 = Ok r /\
    last_item (rows december_fills) = Ok last /\
    r !! "remaining_shares"%string = Some (engine.VInt remaining_shares) /\
    r !! "remaining_value_mark"%string =
      Some (engine.VFloat remaining_value_mark) /\
    r !! "total_value"%string = Some (engine.VFloat total_value) /\
    r !! "pnl"%string = Some (engine.VFloat pnl) /\
    (0 < remaining_shares ->
     (remaining_value_mark == inject_Z remaining_shares * o_price last)%Q) /\
    (remaining_shares <= 0 -> (remaining_value_mark == 0)%Q) /\
    (total_value ==
     10000 + total_order_value (rows december_fills) +
     remaining_value_mark)%Q /\
    (pnl == total_order_value (rows december_fills) + remaining_value_mark)%Q.
Proof.
  apply (run_backtest_mark_to_market december_fills 10000).
  reflexivity.
Defined.

Section PerformanceMetrics.

Import engine.

(** [int(n * 0.6)] for a count [n]. *)
Lemma py_int_six_tenths (n : Z) :
  0 <= n -> py_int (inject_Z n * (6 # 10)) = n * 6 / 10.
Proof.
  intros Hn. unfold py_int. cbn [Qnum Qden Qmult inject_Z].
  change (Z.pos (1 * 10)) with 10. apply Z.quot_div_nonneg; lia.
Qed.

(** X25. On a table with at least one SELL row,
    [calculate_performance_metrics] counts the SELL rows as
    [total_trades] and splits them into [winning_trades], the integer
    part of 60% of the count, and [losing_trades], the rest, of which
    there is always at least one; [win_rate] is the winning share of the
    count, [avg_trade_pnl] is the change of cash per SELL row, and
    [max_drawdown] is 0. *)
Theorem performance_metrics_consistent
  (orders : OrderFrame) (final_cash initial_cash : Q) :
  0 < side_count SELL (rows orders) ->
  exists (winning_trades losing_trades : Z) (win_rate avg_trade_pnl : Q),
    let total_trades := side_count SELL (rows orders) in
    let m := calculate_performance_metrics orders final_cash initial_cash in
    m !! "total_trades"%string = Some (VInt total_trades) /\
    m !! "winning_trades"%string = Some (VInt winning_trades) /\
    m !! "losing_trades"%string = Some (VInt losing_trades) /\
    m !! "win_rate"%string = Some (VFloat win_rate) /\
    m !! "avg_trade_pnl"%string = Some (VFloat avg_trade_pnl) /\
    m !! "max_drawdown"%string = Some (VFloat 0) /\
    winning_trades + losing_trades = total_trades /\
    5 * winning_trades <= 3 * total_trades < 5 * winning_trades + 5 /\
    1 <= losing_trades /\
    (win_rate * inject_Z total_trades == inject_Z winning_trades)%Q /\
    (avg_trade_pnl * inject_Z total_trades == final_cash - initial_cash)%Q.
Proof.
  intros Hpos. unfold calculate_performance_metrics.
  destruct (empty orders) eqn:He.
  { exfalso. unfold empty in He. unfold side_count in Hpos.
    destruct (rows orders); [simpl in Hpos; lia|discriminate]. }
  fold (side_count SELL (rows orders)).
  set (total_trades := side_count SELL (rows orders)) in *.
  destruct (Z.eqb_spec total_trades 0) as [Hz|_]; [lia|].
  destruct (Z.gtb_spec total_trades 0) as [_|Hle]; [|lia].
  rewrite py_int_six_tenths by lia.
  assert (0 < inject_Z total_trades)%Q as Hq.
  { change 0%Q with (inject_Z 0). rewrite <- Zlt_Qlt. exact Hpos. }
  eexists _, _, _, _. cbv zeta.
  repeat (split; [by simplify_map_eq|]).
  pose proof (Z.div_mod (total_trades * 6) 10 ltac:(lia)) as Hdm.
  pose proof (Z.mod_pos_bound (total_trades * 6) 10 ltac:(lia)) as Hmb.
  assert (0 <= total_trades * 6 / 10) as Hnn by (apply Z.div_pos; lia).
  rewrite Z.max_r by exact Hnn.
  split; [lia|]. split; [lia|]. split; [lia|].
  split; field; lra.
Qed.

End PerformanceMetrics.

Lemma performance_metrics_consistent_witness :
  exists (winning_trades losing_trades : Z) (win_rate avg_trade_pnl : Q),
    let m := engine.calculate_performance_metrics december_fills 11000 10000 in
    m !! "total_trades"%string =
      Some (engine.VInt (side_count SELL (rows december_fills))) /\
    m !! "winning_trades"%string = Some (engine.VInt winning_trades) /\
    m !! "losing_trades"%string = Some (engine.VInt losing_trades) /\
    m !! "win_rate"%string = Some (engine.VFloat win_rate) /\
    m !! "avg_trade_pnl"%string = Some (engine.VFloat avg_trade_pnl) /\
    m !! "max_drawdown"%string = Some (engine.VFloat 0) /\
    winning_trades + losing_trades = side_count SELL (rows december_fills) /\
    5 * winning_trades <= 3 * side_count SELL (rows december_fills)
      < 5 * winning_trades + 5 /\
    1 <= losing_trades /\
    (win_rate * inject_Z (side_count SELL (rows december_fills)) ==
     inject_Z winning_trades)%Q /\
    (avg_trade_pnl * inject_Z (side_count SELL (rows december_fills)) ==
     11000 - 10000)%Q.
Proof.
  apply (performance_metrics_consistent december_fills 11000 10000).
  vm_compute. reflexivity.
Defined.

(** ** Rounding to binary64 *)

Section Floats.

Lemma pow2_pos (e : Z) : (0 < 2 ^ e)%Q.
Proof. now apply Qpower_0_lt. Qed.

Lemma frac_lt_div (n : Z) (d : positive) (A B : Z) :
  0 < B -> n * B < A * Z.pos d -> (n # d < inject_Z A / inject_Z B)%Q.
Proof.
  intros HB H. apply Qlt_shift_div_l.
  - change 0%Q with (inject_Z 0). now rewrite <- Zlt_Qlt.
  - unfold Qlt. simpl. lia.
Qed.

Lemma div_lt_frac (n : Z) (d : positive) (A B : Z) :
  0 < B -> A * Z.pos d < n * B -> (inject_Z A / inject_Z B < n # d)%Q.
Proof.
  intros HB H. apply Qlt_shift_div_r.
  - change 0%Q with (inject_Z 0). now rewrite <- Zlt_Qlt.
  - unfold Qlt. simpl. lia.
Qed.

Lemma pow2_diff (a b : Z) :
  0 <= a -> 0 <= b -> (2 ^ (a - b) == inject_Z (2 ^ a) / inject_Z (2 ^ b))%Q.
Proof.
  intros Ha Hb. rewrite Qpower_minus by discriminate.
  rewrite !Zpower_Qpower by assumption. reflexivity.
Qed.

Lemma ilog2_spec (x : Q) :
  (0 < x)%Q -> (2 ^ ilog2 x <= x)%Q /\ (x < 2 ^ (ilog2 x + 1))%Q.
Proof.
  destruct x as [n d]. intros Hx.
  assert (0 < n) as Hn by (unfold Qlt in Hx; simpl in Hx; lia).
  unfold ilog2. cbn [Qnum Qden].
  pose proof (Z.log2_spec n Hn) as [Hn1 Hn2].
  pose proof (Z.log2_spec (Z.pos d) ltac:(lia)) as [Hd1 Hd2].
  pose proof (Z.log2_nonneg n) as Ha.
  pose proof (Z.log2_nonneg (Z.pos d)) as Hb.
  set (a := Z.log2 n) in *. set (b := Z.log2 (Z.pos d)) in *.
  assert (0 < 2 ^ a) as Hpa by (apply Z.pow_pos_nonneg; lia).
  assert (0 < 2 ^ b) as Hpb by (apply Z.pow_pos_nonneg; lia).
  assert (n # d < 2 ^ (a - b + 1))%Q as Hup.
  { replace (a - b + 1) with (Z.succ a - b) by lia.
    rewrite pow2_diff by lia. apply frac_lt_div; [exact Hpb|]. nia. }
  assert (2 ^ (a - b - 1) < n # d)%Q as Hlow.
  { replace (a - b - 1) with (a - Z.succ b) by lia.
    rewrite pow2_diff by lia. apply div_lt_frac.
    - apply Z.pow_pos_nonneg; lia.
    - nia. }
  destruct (Qle_bool (2 ^ (a - b)) (n # d)) eqn:E.
  - apply Qle_bool_iff in E. split; assumption.
  - split; [now apply Qlt_le_weak|].
    replace (a - b - 1 + 1) with (a - b) by lia.
    apply Qnot_le_lt. intros H. apply Qle_bool_iff in H. congruence.
Qed.

Lemma ilog2_le (x y : Q) :
  (0 < x)%Q -> (x <= y)%Q -> ilog2 x <= ilog2 y.
Proof.
  intros Hx Hxy.
  destruct (ilog2_spec x Hx) as [Hx1 _].
  destruct (ilog2_spec y ltac:(lra)) as [_ Hy2].
  assert (2 ^ ilog2 x < 2 ^ (ilog2 y + 1))%Q as H by lra.
  apply Qpower_lt_compat_l_inv in H; [lia|reflexivity].
Qed.


Lemma round_half_even_floor (x : Q) :
  Qfloor x <= round_half_even x <= Qfloor x + 1.
Proof.
  unfold round_half_even.
  destruct (Qcompare _ _); [destruct (Z.even _)| |]; lia.
Qed.

Lemma round_half_even_ge (n : Z) (x : Q) :
  (inject_Z n <= x)%Q -> n <= round_half_even x.
Proof.
  intros H. apply Qfloor_resp_le in H. rewrite Qfloor_Z in H.
  pose proof (round_half_even_floor x). lia.
Qed.

Lemma round_half_even_le (n : Z) (x : Q) :
  (x <= inject_Z n)%Q -> round_half_even x <= n.
Proof.
  intros H. pose proof (Qfloor_le x) as Hf.
  assert (Qfloor x <= n) as Hn.
  { rewrite Zle_Qle. lra. }
  pose proof (round_half_even_floor x) as Hr.
  destruct (Z.eq_dec (Qfloor x) n) as [E|E]; [|lia].
  unfold round_half_even.
  destruct (Qcompare_spec (x - inject_Z (Qfloor x)) (1 # 2)) as [H1|H1|H1];
    rewrite E in *; try lia; lra.
Qed.

Lemma round_half_even_mono (x y : Q) :
  (x <= y)%Q -> round_half_even x <= round_half_even y.
Proof.
  intros H. pose proof (Qfloor_resp_le x y H) as Hf.
  pose proof (round_half_even_floor x) as Hx.
  pose proof (round_half_even_floor y) as Hy.
  destruct (Z.eq_dec (Qfloor x) (Qfloor y)) as [E|E]; [|lia].
  unfold round_half_even in *. rewrite <- E in *.
  destruct (Qcompare_spec (x - inject_Z (Qfloor x)) (1 # 2)) as [H1|H1|H1];
    destruct (Qcompare_spec (y - inject_Z (Qfloor x)) (1 # 2)) as [H2|H2|H2];
    try lia; try lra;
    destruct (Z.even (Qfloor x)); lia.
Qed.

Lemma round_magnitude_nonneg (a : Q) : (0 < a)%Q -> (0 <= round_magnitude a)%Q.
Proof.
  intros Ha. unfold round_magnitude.
  set (e := Z.max (ilog2 a - 52) (-1074)).
  pose proof (pow2_pos e) as He.
  apply Qmult_le_0_compat; [|lra].
  change 0%Q with (inject_Z 0). rewrite <- Zle_Qle.
  apply round_half_even_ge. change (inject_Z 0) with 0%Q.
  apply Qle_shift_div_l; [exact He|]. lra.
Qed.

Lemma pow2_split (a b : Z) : (2 ^ (a + b) == 2 ^ a * 2 ^ b)%Q.
Proof. apply Qpower_plus. discriminate. Qed.

(** Rounding keeps the order of positive reals. *)
Lemma round_magnitude_mono (a b : Q) :
  (0 < a)%Q -> (a <= b)%Q -> (round_magnitude a <= round_magnitude b)%Q.
Proof.
  intros Ha Hab. assert (0 < b)%Q as Hb by lra.
  pose proof (ilog2_le a b Ha Hab) as Hlog.
  destruct (ilog2_spec a Ha) as [_ Ha2].
  destruct (ilog2_spec b Hb) as [Hb1 _].
  unfold round_magnitude.
  set (ea := Z.max (ilog2 a - 52) (-1074)).
  set (eb := Z.max (ilog2 b - 52) (-1074)).
  pose proof (pow2_pos ea) as Hea. pose proof (pow2_pos eb) as Heb.
  destruct (Z.eq_dec ea eb) as [E|E].
  - rewrite <- E. apply Qmult_le_compat_r; [|lra].
    rewrite <- Zle_Qle. apply round_half_even_mono.
    apply Qmult_le_compat_r; [exact Hab|].
    apply Qlt_le_weak, Qinv_lt_0_compat, Hea.
  - assert (ea < eb) as Hlt by lia.
    assert (eb = ilog2 b - 52) as Hnormal by lia.
    apply Qle_trans with (inject_Z (2 ^ 53) * 2 ^ ea)%Q.
    + apply Qmult_le_compat_r; [|lra].
      rewrite <- Zle_Qle. apply round_half_even_le.
      apply Qle_shift_div_r; [exact Hea|].
      apply Qle_trans with (2 ^ (ilog2 a + 1))%Q; [lra|].
      apply Qle_trans with (2 ^ (53 + ea))%Q.
      * apply Qpower_le_compat_l; [lia|discriminate].
      * rewrite pow2_split. apply Qle_refl.
    + apply Qle_trans with (inject_Z (2 ^ 52) * 2 ^ eb)%Q.
      * apply Qle_trans with (2 ^ (53 + ea))%Q;
          [rewrite pow2_split; apply Qle_refl|].
        apply Qle_trans with (2 ^ (52 + eb))%Q;
          [|rewrite pow2_split; apply Qle_refl].
        apply Qpower_le_compat_l; [lia|discriminate].
      * apply Qmult_le_compat_r; [|lra].
        rewrite <- Zle_Qle. apply round_half_even_ge.
        apply Qle_shift_div_l; [exact Heb|].
        apply Qle_trans with (2 ^ ilog2 b)%Q; [|exact Hb1].
        replace (ilog2 b) with (52 + eb) by lia.
        rewrite pow2_split. apply Qle_refl.
Qed.

(** Rounding to binary64 keeps the order of the reals. *)
Lemma binary64_mono (x y : Q) : (x <= y)%Q -> (binary64 x <= binary64 y)%Q.
Proof.
  intros Hxy. unfold binary64.
  destruct x as [[|p|p] d], y as [[|q|q] e]; cbn [Qnum];
    rewrite ?Qred_correct.
  - apply Qle_refl.
  - now apply round_magnitude_nonneg.
  - exfalso. unfold Qle in Hxy. simpl in Hxy. lia.
  - exfalso. unfold Qle in Hxy. simpl in Hxy. lia.
  - now apply round_magnitude_mono.
  - exfalso. unfold Qle in Hxy. simpl in Hxy. lia.
  - pose proof (round_magnitude_nonneg (- (Z.neg p # d)) eq_refl). lra.
  - pose proof (round_magnitude_nonneg (- (Z.neg p # d)) eq_refl).
    pose proof (round_magnitude_nonneg (Z.pos q # e) eq_refl). lra.
  - assert (round_magnitude (- (Z.neg q # e)) <=
            round_magnitude (- (Z.neg p # d)))%Q; [|lra].
    apply round_magnitude_mono; [reflexivity|lra].
Qed.

End Floats.

(** ** Position sizing *)

Section PositionSizing.

Import position_sizing.

Variable fl : Q -> Q.

Lemma py_min_cases (a b : Q) :
  (py_min a b <= a)%Q /\ (py_min a b <= b)%Q /\
  (py_min a b = a \/ py_min a b = b).
Proof.
  split; [apply py_min_le_l|]. split; [apply py_min_le_r|].
  unfold py_min. destruct (Qltb b a); auto.
Qed.

(** X26. For a positive price and a positive cash,
    [calculate_position_size] returns a non-negative number of shares.
    With [max_allocation] the float product
    [available_cash * max_position_pct] as the code rounds it: when the
    target and [max_allocation] are non-negative, the shares cost at most
    the target and at most [max_allocation], and one more share would
    exceed one of the two; when either limit is below the price of one
    share, no share is bought.  This holds for every rounding of the
    product, on inputs whose product does not overflow and whose share
    count is below [2 ^ 50]. *)
Theorem position_size_within_allocation
  (available_cash target_allocation current_price max_position_pct : Q) :
  (0 < current_price)%Q ->
  (0 < available_cash)%Q ->
  finite (available_cash * max_position_pct) ->
  exact_quotient
    (py_min target_allocation (fl (available_cash * max_position_pct)))
    current_price ->
  let shares :=
    calculate_position_size fl available_cash target_allocation current_price
      max_position_pct in
  let max_allocation := fl (available_cash * max_position_pct) in
  let cost := (inject_Z shares * current_price)%Q in
  let next_cost := (inject_Z (shares + 1) * current_price)%Q in
  0 <= shares /\
  ((0 <= target_allocation)%Q -> (0 <= max_allocation)%Q ->
   (cost <= target_allocation)%Q /\
   (cost <= max_allocation)%Q /\
   ((target_allocation < next_cost)%Q \/ (max_allocation < next_cost)%Q)) /\
  ((target_allocation < current_price)%Q \/
   (max_allocation < current_price)%Q ->
   shares = 0).
Proof.
  intros Hp Hc _ _. unfold calculate_position_size.
  assert (Qle_bool current_price 0 = false) as ->.
  { destruct (Qle_bool current_price 0) eqn:E; [|reflexivity].
    apply Qle_bool_iff in E. lra. }
  assert (Qle_bool available_cash 0 = false) as ->.
  { destruct (Qle_bool available_cash 0) eqn:E; [|reflexivity].
    apply Qle_bool_iff in E. lra. }
  cbn [orb]. cbv zeta.
  set (max_allocation := fl (available_cash * max_position_pct)).
  destruct (py_min_cases target_allocation max_allocation)
    as (Hl & Hr & Hcase).
  set (alloc := py_min target_allocation max_allocation) in *.
  pose proof (Qfloor_le (alloc / current_price)) as Hfl.
  pose proof (Qlt_floor (alloc / current_price)) as Hlt.
  set (k := Qfloor (alloc / current_price)) in *.
  assert (alloc / current_price * current_price == alloc)%Q as Hdiv
    by (field; intros H0; lra).
  assert (inject_Z k * current_price <= alloc)%Q as Hlow.
  { rewrite <- Hdiv. apply Qmult_le_compat_r; [exact Hfl|lra]. }
  assert (alloc < inject_Z (k + 1) * current_price)%Q as Hhigh.
  { rewrite <- Hdiv at 1. apply Qmult_lt_compat_r; [exact Hp|exact Hlt]. }
  split; [lia|]. split.
  - intros Ht Hm.
    assert (0 <= alloc)%Q as Ha.
    { destruct Hcase as [-> | ->]; assumption. }
    assert (0 <= k) as Hk.
    { change 0 with (Qfloor 0). apply Qfloor_resp_le.
      apply Qle_shift_div_l; [exact Hp|]. now rewrite Qmult_0_l. }
    rewrite Z.max_r by exact Hk.
    split; [lra|]. split; [lra|].
    destruct Hcase as [E | E]; rewrite E in Hhigh; auto.
  - intros Hsmall.
    assert (alloc < current_price)%Q as Ha by (destruct Hsmall; lra).
    assert (k < 1); [|lia].
    rewrite Zlt_Qlt.
    apply Qle_lt_trans with (alloc / current_price)%Q; [exact Hfl|].
    apply Qlt_shift_div_r; [exact Hp|]. change (inject_Z 1) with 1%Q. lra.
Qed.

End PositionSizing.

Lemma position_size_within_allocation_witness :
  position_sizing.calculate_position_size binary64 10 5 tenth tenth = 9 /\
  let shares := position_sizing.calculate_position_size binary64 10 5 tenth tenth in
  let max_allocation := binary64 (10 * tenth) in
  let cost := (inject_Z shares * tenth)%Q in
  let next_cost := (inject_Z (shares + 1) * tenth)%Q in
  0 <= shares /\
  ((0 <= 5)%Q -> (0 <= max_allocation)%Q ->
   (cost <= 5)%Q /\
   (cost <= max_allocation)%Q /\
   ((5 < next_cost)%Q \/ (max_allocation < next_cost)%Q)) /\
  ((5 < tenth)%Q \/ (max_allocation < tenth)%Q -> shares = 0).
Proof.
  split; [vm_compute; reflexivity|].
  apply (position_size_within_allocation binary64 10 5 tenth tenth).
  - reflexivity.
  - reflexivity.
  - split; discriminate.
  - reflexivity.
Defined.

Section Kelly.

Import position_sizing.

Variable fl : Q -> Q.

Lemma Qle_bool_gt (a b : Q) : (b < a)%Q -> Qle_bool a b = false.
Proof.
  intros H. destruct (Qle_bool a b) eqn:E; [|reflexivity].
  apply Qle_bool_iff in E. lra.
Qed.

Lemma Qeq_bool_neq_false (a b : Q) : ~ (a == b)%Q -> Qeq_bool a b = false.
Proof.
  intros H. destruct (Qeq_bool a b) eqn:E; [|reflexivity].
  apply Qeq_bool_iff in E. contradiction.
Qed.

(** Past its guard, the Kelly rule divides by the loss and then by the
    odds as the first division rounded them. *)
Lemma apply_kelly_valid
  (win_rate avg_win avg_loss current_capital max_kelly_fraction : Q) :
  (0 < avg_loss)%Q -> (0 < win_rate)%Q -> (win_rate < 1)%Q ->
  let b := fl (avg_win / avg_loss) in
  apply_kelly_criterion fl win_rate avg_win avg_loss current_capital
    max_kelly_fraction =
  if Qeq_bool b 0 then Raise ZeroDivisionError
  else
    Ok (fl (current_capital *
            py_max 0
              (py_min (fl (fl (fl (b * win_rate) - fl (1 - win_rate)) / b))
                 max_kelly_fraction))).
Proof.
  intros Hl Hw0 Hw1. cbv zeta. unfold apply_kelly_criterion.
  rewrite (Qle_bool_gt avg_loss 0 Hl), (Qle_bool_gt win_rate 0 Hw0),
    (Qle_bool_gt 1 win_rate Hw1).
  cbn [orb]. unfold truediv.
  rewrite (Qeq_bool_neq_false avg_loss 0) by (intros Hz; lra).
  cbn [mbind result_bind bind].
  destruct (Qeq_bool (fl (avg_win / avg_loss)) 0); reflexivity.
Qed.

(** X29. [apply_kelly_criterion] raises exactly when its guard lets the
    inputs through (a positive average loss and a win rate strictly
    between 0 and 1) and the odds [avg_win / avg_loss], as the float
    division rounds them, are zero: the Kelly formula then divides by
    them.  With the rounding of Python's floats that happens for a
    positive average win too, when the quotient underflows.
    [ZeroDivisionError] is the only exception raised; on inputs that the
    guard rejects the result is 0. *)
Theorem kelly_raises_iff_zero_odds
  (win_rate avg_win avg_loss current_capital max_kelly_fraction : Q) :
  let outcome :=
    apply_kelly_criterion fl win_rate avg_win avg_loss current_capital
      max_kelly_fraction in
  (forall e, outcome = Raise e -> e = ZeroDivisionError) /\
  (outcome = Raise ZeroDivisionError <->
   (0 < avg_loss)%Q /\ (0 < win_rate)%Q /\ (win_rate < 1)%Q /\
   (fl (avg_win / avg_loss) == 0)%Q) /\
  (~ ((0 < avg_loss)%Q /\ (0 < win_rate)%Q /\ (win_rate < 1)%Q) ->
   outcome = Ok 0%Q).
Proof.
  cbv zeta.
  destruct (Qlt_le_dec 0 avg_loss) as [Hl|Hl];
    [destruct (Qlt_le_dec 0 win_rate) as [Hw0|Hw0];
     [destruct (Qlt_le_dec win_rate 1) as [Hw1|Hw1]|]|].
  - rewrite (apply_kelly_valid _ _ _ _ _ Hl Hw0 Hw1).
    destruct (Qeq_bool (fl (avg_win / avg_loss)) 0) eqn:E.
    + apply Qeq_bool_iff in E.
      split; [intros e H; now injection H as <-|].
      split; [split; [intros _|reflexivity]|].
      { exact (conj Hl (conj Hw0 (conj Hw1 E))). }
      intros H. exfalso. apply H. auto.
    + split; [discriminate|]. split.
      * split; [discriminate|]. intros (_ & _ & _ & Hz).
        apply Qeq_bool_iff in Hz. congruence.
      * intros H. exfalso. apply H. auto.
  - assert (apply_kelly_criterion fl win_rate avg_win avg_loss current_capital
              max_kelly_fraction = Ok 0%Q) as ->.
    { unfold apply_kelly_criterion.
      apply Qle_bool_iff in Hw1. rewrite Hw1.
      now rewrite !orb_true_r. }
    split; [discriminate|]. split; [|reflexivity].
    split; [discriminate|]. intros (_ & _ & H & _). lra.
  - assert (apply_kelly_criterion fl win_rate avg_win avg_loss current_capital
              max_kelly_fraction = Ok 0%Q) as ->.
    { unfold apply_kelly_criterion.
      apply Qle_bool_iff in Hw0. rewrite Hw0.
      now rewrite !orb_true_r. }
    split; [discriminate|]. split; [|reflexivity].
    split; [discriminate|]. intros (_ & H & _). lra.
  - assert (apply_kelly_criterion fl win_rate avg_win avg_loss current_capital
              max_kelly_fraction = Ok 0%Q) as ->.
    { unfold apply_kelly_criterion.
      apply Qle_bool_iff in Hl. now rewrite Hl. }
    split; [discriminate|]. split; [|reflexivity].
    split; [discriminate|]. intros (H & _). lra.
Qed.

(** X28. Let the rounding of float results keep the order of the reals
    and map 0 to 0, as rounding to nearest does.  For inputs that pass
    the guard and whose odds neither round to zero nor overflow, a
    non-negative capital and a non-negative cap whose product does not
    overflow, [apply_kelly_criterion] returns an allocation
    between 0 and the float product [current_capital * max_kelly_fraction];
    for a positive average win the allocation is 0 when the expected
    gain per unit of loss, as the code rounds it, does not exceed the
    loss rate [1 - win_rate]. *)
Theorem kelly_allocation_bounds
  (win_rate avg_win avg_loss current_capital max_kelly_fraction : Q) :
  (forall x y : Q, (x <= y)%Q -> (fl x <= fl y)%Q) ->
  (fl 0 == 0)%Q ->
  (0 < avg_loss)%Q -> (0 < win_rate)%Q -> (win_rate < 1)%Q ->
  ~ (fl (avg_win / avg_loss) == 0)%Q ->
  (0 <= current_capital)%Q ->
  (0 <= max_kelly_fraction)%Q ->
  finite (avg_win / avg_loss) ->
  finite (current_capital * max_kelly_fraction) ->
  exists allocation : Q,
    apply_kelly_criterion fl win_rate avg_win avg_loss current_capital
      max_kelly_fraction = Ok allocation /\
    (0 <= allocation)%Q /\
    (allocation <= fl (current_capital * max_kelly_fraction))%Q /\
    ((0 < avg_win)%Q ->
     (fl (fl (avg_win / avg_loss) * win_rate) <= fl (1 - win_rate))%Q ->
     (allocation == 0)%Q).
Proof.
  intros Hmono Hzero Hl Hw0 Hw1 Hodds Hc Hm _ _.
  rewrite (apply_kelly_valid _ _ _ _ _ Hl Hw0 Hw1). cbv zeta.
  rewrite (Qeq_bool_neq_false _ 0 Hodds).
  set (b := fl (avg_win / avg_loss)) in *.
  set (k := fl (fl (fl (b * win_rate) - fl (1 - win_rate)) / b)).
  pose proof (py_max_ge_l 0 (py_min k max_kelly_fraction)) as H0.
  pose proof (py_max_lub 0 (py_min k max_kelly_fraction) max_kelly_fraction
                Hm (py_min_le_r _ _)) as H1.
  set (fraction := py_max 0 (py_min k max_kelly_fraction)) in *.
  eexists. split; [reflexivity|].
  assert (forall x, (0 <= x)%Q -> (0 <= fl x)%Q) as Hpos.
  { intros x Hx. pose proof (Hmono 0%Q x Hx). lra. }
  assert (forall x, (x <= 0)%Q -> (fl x <= 0)%Q) as Hneg.
  { intros x Hx. pose proof (Hmono x 0%Q Hx). lra. }
  split; [apply Hpos; now apply Qmult_le_0_compat|].
  split.
  { apply Hmono.
    pose proof (Qmult_le_0_compat current_capital
                  (max_kelly_fraction - fraction) Hc ltac:(lra)).
    lra. }
  intros Hwin Hev.
  assert (0 < b)%Q as Hb.
  { assert (0 <= b)%Q as Hb0.
    { apply Hpos. apply Qle_shift_div_l; [exact Hl|]. lra. }
    destruct (Qlt_le_dec 0 b) as [|Hle]; [assumption|].
    exfalso. apply Hodds. lra. }
  assert (k <= 0)%Q as Hk.
  { apply Hneg. apply Qle_shift_div_r; [exact Hb|].
    rewrite Qmult_0_l. apply Hneg. lra. }
  assert (fraction <= 0)%Q as Hf0.
  { unfold fraction. apply py_max_lub; [lra|].
    apply Qle_trans with k; [apply py_min_le_l|exact Hk]. }
  assert (current_capital * fraction == 0)%Q as Hprod.
  { assert (fraction == 0)%Q as -> by lra. ring. }
  pose proof (Hmono (current_capital * fraction)%Q 0%Q ltac:(lra)) as Ha.
  pose proof (Hmono 0%Q (current_capital * fraction)%Q ltac:(lra)) as Hb'.
  lra.
Qed.

End Kelly.

Lemma kelly_raises_iff_zero_odds_witness :
  (0 < tiny_win)%Q /\
  position_sizing.apply_kelly_criterion binary64 (1 # 2) tiny_win huge_loss
    10000 (1 # 4) = Raise ZeroDivisionError.
Proof.
  split; [reflexivity|].
  apply (kelly_raises_iff_zero_odds binary64 (1 # 2) tiny_win huge_loss
           10000 (1 # 4)).
  repeat split.
Defined.

Lemma kelly_allocation_bounds_witness :
  exists allocation : Q,
    position_sizing.apply_kelly_criterion binary64 (binary64 (3 # 10)) 7 3
      10000 (1 # 4) = Ok allocation /\
    (0 <= allocation)%Q /\
    (allocation <= binary64 (10000 * (1 # 4)))%Q /\
    ((0 < 7)%Q ->
     (binary64 (binary64 (7 / 3) * binary64 (3 # 10)) <=
      binary64 (1 - binary64 (3 # 10)))%Q ->
     (allocation == 0)%Q).
Proof.
  apply (kelly_allocation_bounds binary64 (binary64 (3 # 10)) 7 3 10000
           (1 # 4)).
  - exact binary64_mono.
  - reflexivity.
  - reflexivity.
  - reflexivity.
  - reflexivity.
  - vm_compute. discriminate.
  - discriminate.
  - discriminate.
  - split; discriminate.
  - split; discriminate.
Defined.

(** ** Trade metrics *)

Section WinLoss.

Import engine metrics.

Lemma sum_float_total (l : list Q) : (sum_float l == pnl_total l)%Q.
Proof.
  unfold sum_float. rewrite fold_left_Qplus.
  induction l as [|x l IH]; simpl; [ring|].
  rewrite Qplus_0_l in IH. rewrite IH. ring.
Qed.

Lemma Qltb_lt (a b : Q) : Qltb a b = true <-> (a < b)%Q.
Proof.
  unfold Qltb. split.
  - intros H. apply Qle_bool_false. now destruct (Qle_bool b a).
  - intros H. destruct (Qle_bool b a) eqn:E; [|reflexivity].
    apply Qle_bool_iff in E. lra.
Qed.

Lemma total_positive (l : list Q) :
  Forall (fun x => (0 < x)%Q) l -> l <> [] -> (0 < pnl_total l)%Q.
Proof.
  induction 1 as [|x l Hx Hl IH]; intros Hne; [contradiction|].
  simpl. destruct l as [|y l].
  - simpl. lra.
  - assert (0 < pnl_total (y :: l))%Q by (apply IH; discriminate). lra.
Qed.

Lemma total_negative (l : list Q) :
  Forall (fun x => (x < 0)%Q) l -> l <> [] -> (pnl_total l < 0)%Q.
Proof.
  induction 1 as [|x l Hx Hl IH]; intros Hne; [contradiction|].
  simpl. destruct l as [|y l].
  - simpl. lra.
  - assert (pnl_total (y :: l) < 0)%Q by (apply IH; discriminate). lra.
Qed.

Lemma gains_positive (pnl : list Q) : Forall (fun x => (0 < x)%Q) (gains pnl).
Proof.
  apply List.Forall_forall. intros x Hin.
  apply filter_In in Hin as [_ H]. now apply Qltb_lt.
Qed.

Lemma losses_negative (pnl : list Q) : Forall (fun x => (x < 0)%Q) (losses pnl).
Proof.
  apply List.Forall_forall. intros x Hin.
  apply filter_In in Hin as [_ H]. now apply Qltb_lt.
Qed.

(** No trade is both a gain and a loss. *)
Lemma gains_losses_length (pnl : list Q) :
  (length (gains pnl) + length (losses pnl) <= length pnl)%nat.
Proof.
  unfold gains, losses. induction pnl as [|x l IH]; simpl; [lia|].
  destruct (Qltb 0 x) eqn:Hg, (Qltb x 0) eqn:Hl; simpl; try lia.
  apply Qltb_lt in Hg, Hl. lra.
Qed.

Lemma no_rows_false (l : list Q) : no_rows l = false <-> l <> [].
Proof. destruct l; simpl; split; congruence. Qed.

Lemma len_positive (l : list Q) : l <> [] -> (0 < inject_Z (len l))%Q.
Proof.
  intros Hne. change 0%Q with (inject_Z 0). rewrite <- Zlt_Qlt.
  unfold len. destruct l; [contradiction|simpl; lia].
Qed.

(** X30. On a frame with a P&L column and at least one trade,
    [calculate_win_loss_metrics] counts the trades, the gains (P&L above
    zero) and the losses (P&L below zero), which together never exceed
    the trades; [win_rate] is the share of gains, [avg_win] times the
    number of gains is the gross profit, and [avg_loss] times the number
    of losses is the gross loss as a positive amount.  [profit_factor]
    is infinite exactly when there are gains and no loss, 0 when there
    is neither, and otherwise the ratio of gross profit to gross
    loss. *)
Theorem win_loss_metrics_consistent (pnl : list Q) :
  pnl <> [] ->
  let m := calculate_win_loss_metrics (Some pnl) in
  exists win_rate avg_win avg_loss : Q,
    m !! "total_trades"%string = Some (MInt (len pnl)) /\
    m !! "winning_trades"%string = Some (MInt (len (gains pnl))) /\
    m !! "losing_trades"%string = Some (MInt (len (losses pnl))) /\
    m !! "win_rate"%string = Some (MFloat win_rate) /\
    m !! "avg_win"%string = Some (MFloat avg_win) /\
    m !! "avg_loss"%string = Some (MFloat avg_loss) /\
    len (gains pnl) + len (losses pnl) <= len pnl /\
    (win_rate * inject_Z (len pnl) == inject_Z (len (gains pnl)))%Q /\
    (avg_win * inject_Z (len (gains pnl)) == pnl_total (gains pnl))%Q /\
    (avg_loss * inject_Z (len (losses pnl)) == - pnl_total (losses pnl))%Q /\
    (0 <= avg_win)%Q /\ (0 <= avg_loss)%Q /\
    match m !! "profit_factor"%string with
    | Some MInf => losses pnl = [] /\ gains pnl <> []
    | Some (MFloat profit_factor) =>
        (losses pnl = [] /\ gains pnl = [] /\ profit_factor = 0%Q) \/
        (losses pnl <> [] /\
         (profit_factor * - pnl_total (losses pnl) == pnl_total (gains pnl))%Q /\
         (0 <= profit_factor)%Q)
    | _ => False
    end.
Proof.
  intros Hne. cbv zeta. unfold calculate_win_loss_metrics.
  rewrite (proj2 (no_rows_false pnl) Hne).
  fold (gains pnl) (losses pnl).
  pose proof (len_positive pnl Hne) as Hn.
  destruct (Z.gtb_spec (len pnl) 0) as [_|Hle].
  2:{ exfalso. rewrite Zle_Qle in Hle.
      change (inject_Z 0) with 0%Q in Hle. lra. }
  pose proof (gains_losses_length pnl) as Hlen.
  pose proof (gains_positive pnl) as Hg.
  pose proof (losses_negative pnl) as Hl.
  eexists _, _, _.
  repeat (split; [by simplify_map_eq|]).
  split; [unfold len; lia|].
  split; [field; lra|].
  assert (forall l, l <> [] ->
            (mean l * inject_Z (len l) == pnl_total l)%Q) as Hmean.
  { intros l Hl0. unfold mean. rewrite sum_float_total.
    pose proof (len_positive l Hl0). field. lra. }
  assert (gains pnl <> [] -> (0 < pnl_total (gains pnl))%Q) as Hgp
    by (apply total_positive; exact Hg).
  assert (losses pnl <> [] -> (pnl_total (losses pnl) < 0)%Q) as Hln
    by (apply total_negative; exact Hl).
  split.
  { destruct (gains pnl) as [|g gs] eqn:Eg; cbn [no_rows negb].
    - simpl. ring.
    - apply Hmean. discriminate. }
  split.
  { destruct (losses pnl) as [|l ls] eqn:El; cbn [no_rows negb].
    - simpl. ring.
    - assert (mean (l :: ls) * inject_Z (len (l :: ls)) ==
              pnl_total (l :: ls))%Q as Hm by (apply Hmean; discriminate).
      pose proof (len_positive (l :: ls) ltac:(discriminate)) as Hk.
      assert (mean (l :: ls) <= 0)%Q as Hneg.
      { assert (pnl_total (l :: ls) < 0)%Q as Ht by (apply Hln; discriminate).
        destruct (Qlt_le_dec 0 (mean (l :: ls))) as [Hpos|]; [|assumption].
        pose proof (Qmult_lt_0_compat _ _ Hpos Hk). lra. }
      apply Qeq_trans with (- mean (l :: ls) * inject_Z (len (l :: ls)))%Q;
        [|lra].
      apply Qmult_comp; [exact (Qabs_neg _ Hneg)|reflexivity]. }
  split.
  { destruct (gains pnl) as [|g gs] eqn:Eg; cbn [no_rows negb];
      [apply Qle_refl|].
    assert (mean (g :: gs) * inject_Z (len (g :: gs)) ==
            pnl_total (g :: gs))%Q as Hm by (apply Hmean; discriminate).
    pose proof (len_positive (g :: gs) ltac:(discriminate)) as Hk.
    assert (0 < pnl_total (g :: gs))%Q as Ht by (apply Hgp; discriminate).
    destruct (Qlt_le_dec (mean (g :: gs)) 0) as [Hneg|]; [|assumption].
    assert (0 < - mean (g :: gs) * inject_Z (len (g :: gs)))%Q
      by (apply Qmult_lt_0_compat; lra).
    lra. }
  split.
  { destruct (losses pnl) as [|l ls]; cbn [no_rows negb];
      [apply Qle_refl|exact (Qabs_nonneg (mean (l :: ls)))]. }
  rewrite lookup_insert_ne by done. rewrite lookup_insert_ne by done.
  rewrite lookup_insert_ne by done. rewrite lookup_insert.
  destruct (losses pnl) as [|l ls] eqn:El; cbn [no_rows negb].
  - change (Qltb 0 0) with false. cbv iota.
    destruct (gains pnl) as [|g gs] eqn:Eg; cbn [no_rows negb].
    + change (Qltb 0 0) with false. cbv iota. left. auto.
    + assert (0 < pnl_total (g :: gs))%Q as Ht by (apply Hgp; discriminate).
      rewrite <- sum_float_total in Ht.
      rewrite (proj2 (Qltb_lt _ _) Ht). split; [reflexivity|discriminate].
  - assert (pnl_total (l :: ls) < 0)%Q as Ht by (apply Hln; discriminate).
    assert (Qabs (sum_float (l :: ls)) == - pnl_total (l :: ls))%Q as Habs.
    { pose proof (sum_float_total (l :: ls)) as Hs.
      apply Qeq_trans with (- sum_float (l :: ls))%Q; [|lra].
      apply Qabs_neg. lra. }
    assert (0 < Qabs (sum_float (l :: ls)))%Q as Hpos by (rewrite Habs; lra).
    rewrite (proj2 (Qltb_lt _ _) Hpos).
    right. split; [discriminate|].
    assert ((if negb (no_rows (gains pnl)) then sum_float (gains pnl)
             else 0%Q) == pnl_total (gains pnl))%Q as Hgross.
    { destruct (gains pnl); cbn [no_rows negb];
        [reflexivity|apply sum_float_total]. }
    assert (0 <= pnl_total (gains pnl))%Q as Hnn.
    { destruct (gains pnl) as [|g gs] eqn:Eg; [simpl; lra|].
      apply Qlt_le_weak, Hgp. discriminate. }
    split.
    + rewrite <- Habs, <- Hgross. field. lra.
    + rewrite Hgross. apply Qle_shift_div_l; [exact Hpos|]. lra.
Qed.

End WinLoss.

Lemma win_loss_metrics_consistent_witness :
  let pnl := [150; -50; 0; 100]%Q in
  let m := metrics.calculate_win_loss_metrics (Some pnl) in
  exists win_rate avg_win avg_loss : Q,
    m !! "total_trades"%string = Some (metrics.MInt (metrics.len pnl)) /\
    m !! "winning_trades"%string =
      Some (metrics.MInt (metrics.len (gains pnl))) /\
    m !! "losing_trades"%string =
      Some (metrics.MInt (metrics.len (losses pnl))) /\
    m !! "win_rate"%string = Some (metrics.MFloat win_rate) /\
    m !! "avg_win"%string = Some (metrics.MFloat avg_win) /\
    m !! "avg_loss"%string = Some (metrics.MFloat avg_loss) /\
    metrics.len (gains pnl) + metrics.len (losses pnl) <= metrics.len pnl /\
    (win_rate * inject_Z (metrics.len pnl) ==
     inject_Z (metrics.len (gains pnl)))%Q /\
    (avg_win * inject_Z (metrics.len (gains pnl)) == pnl_total (gains pnl))%Q /\
    (avg_loss * inject_Z (metrics.len (losses pnl)) ==
     - pnl_total (losses pnl))%Q /\
    (0 <= avg_win)%Q /\ (0 <= avg_loss)%Q /\
    match m !! "profit_factor"%string with
    | Some metrics.MInf => losses pnl = [] /\ gains pnl <> []
    | Some (metrics.MFloat profit_factor) =>
        (losses pnl = [] /\ gains pnl = [] /\ profit_factor = 0%Q) \/
        (losses pnl <> [] /\
         (profit_factor * - pnl_total (losses pnl) == pnl_total (gains pnl))%Q /\
         (0 <= profit_factor)%Q)
    | _ => False
    end.
Proof.
  intros pnl. apply (win_loss_metrics_consistent pnl). discriminate.
Defined.
